(** * VFD spindle over RS485 Modbus: a shallow embedding of VFDSpindle.cpp

    The development follows Grbl_Esp32/src/Spindles/VFDSpindle.cpp:
    the Modbus-RTU checksum ([ModRTU_CRC]), the spindle controller
    ([init], [set_state], [set_mode], [set_rpm], [stop], [get_state]) and
    the communications task ([vfd_cmd_task]).

    Conventions.
    - Machine integers are [Z] with their wrap-around written out
      ([wrap8], [wrap16], [wrap32]).
    - Buffers ([uint8_t msg[]], [rx_message]) are [list Z].
    - The FreeRTOS queue is a bounded FIFO [list ModbusCommand].
    - Everything the firmware does to the outside world (log lines, UART
      traffic, delays, dwells, the alarm) is appended to a trace of
      [Event]s carried by the machine state.
    - The file is modelled with VFD_DEBUG_MODE undefined, as in the default
      build. *)

From Stdlib Require Import String ZArith List Bool Lia.
Import ListNotations.
Open Scope Z_scope.

(** ** Machine integers and buffers *)

Definition wrap8 (x : Z) : Z := x mod 2 ^ 8.
Definition wrap16 (x : Z) : Z := x mod 2 ^ 16.
Definition wrap32 (x : Z) : Z := x mod 2 ^ 32.

Definition is_byte (b : Z) : Prop := 0 <= b < 256.

(** [buf[pos]].  A read outside the buffer is undefined behaviour in C++;
    the model returns 0 there and no theorem relies on such a read. *)
Definition buf_get (buf : list Z) (pos : Z) : Z :=
  if pos <? 0 then 0 else nth (Z.to_nat pos) buf 0.

Fixpoint list_set (buf : list Z) (n : nat) (v : Z) : list Z :=
  match buf, n with
  | [], _ => []
  | _ :: tl, O => v :: tl
  | x :: tl, S n' => x :: list_set tl n' v
  end.

(** [buf[pos] = v].  A write outside the buffer (undefined behaviour in
    C++) leaves the model's buffer unchanged. *)
Definition buf_set (buf : list Z) (pos : Z) (v : Z) : list Z :=
  if pos <? 0 then buf else list_set buf (Z.to_nat pos) v.

(** ** Constants of VFDSpindle.cpp *)

Definition VFD_RS485_BUF_SIZE : Z := 127.
Definition VFD_RS485_QUEUE_SIZE : Z := 10.
Definition RESPONSE_WAIT_TICKS : Z := 50.
Definition VFD_RS485_POLL_RATE : Z := 200.
Definition VFD_RS485_ADDR : Z := 0x01.

(** ** The checksum codec: [VFD::ModRTU_CRC] *)

(** One pass of the inner loop body ([crc] is a [uint16_t]). *)
Definition crc_shift (crc : Z) : Z :=
  if negb (Z.land crc 0x0001 =? 0)
  then wrap16 (Z.lxor (Z.shiftr crc 1) 0xA001)
  else Z.shiftr crc 1.

(** [for (int i = 8; i != 0; i--)] *)
Fixpoint crc_bits (i : nat) (crc : Z) : Z :=
  match i with
  | O => crc
  | S i' => crc_bits i' (crc_shift crc)
  end.

(** The body of the outer loop for the byte [b = buf[pos]]. *)
Definition crc_byte (crc b : Z) : Z := crc_bits 8 (wrap16 (Z.lxor crc b)).

(** [for (int pos = ...; pos < msg_len; pos++)], [todo] iterations left. *)
Fixpoint crc_loop (todo : nat) (pos : Z) (buf : list Z) (crc : Z) : Z :=
  match todo with
  | O => crc
  | S todo' => crc_loop todo' (pos + 1) buf (crc_byte crc (buf_get buf pos))
  end.

Definition ModRTU_CRC (buf : list Z) (msg_len : Z) : Z :=
  crc_loop (Z.to_nat msg_len) 0 buf 0xFFFF.

(** The checksum as the specification words it: start from 0xFFFF; for
    each byte, XOR it into the low byte, then eight times: if bit 0 is set
    shift right and XOR with 0xA001, else shift right. *)
Definition crc16_spec_bit (crc : Z) : Z :=
  if Z.testbit crc 0 then Z.lxor (Z.shiftr crc 1) 0xA001 else Z.shiftr crc 1.

Definition crc16_spec_byte (crc b : Z) : Z :=
  Nat.iter 8 crc16_spec_bit (Z.lxor crc b).

Definition crc16_spec (bytes : list Z) : Z :=
  fold_left crc16_spec_byte bytes 0xFFFF.

(** The two checksum bytes as the executor stores them (lines 120-121):
    [msg[tx_length - 2] = crc & 0xFF], [msg[tx_length - 1] = (crc & 0xFF00) >> 8]. *)
Definition crc_lo (crc16 : Z) : Z := Z.land crc16 0xFF.
Definition crc_hi (crc16 : Z) : Z := Z.shiftr (Z.land crc16 0xFF00) 8.

(** A payload followed by its checksum, low byte first. *)
Definition frame_with_crc (payload : list Z) : list Z :=
  let crc16 := ModRTU_CRC payload (Z.of_nat (length payload)) in
  payload ++ [crc_lo crc16; crc_hi crc16].

(** The checksum part of the response test of [vfd_cmd_task] (lines 141,
    145, 146). *)
Definition crc_check (rx_length read_length : Z) (rx_message : list Z) : bool :=
  let crc16response := ModRTU_CRC rx_message (rx_length - 2) in
  (buf_get rx_message (read_length - 1) =? crc_hi crc16response) &&
  (buf_get rx_message (read_length - 2) =? crc_lo crc16response).

(** The whole response test (lines 143-146). *)
Definition response_ok (rx_length read_length : Z) (rx_message : list Z) : bool :=
  (read_length =? rx_length) &&
  (buf_get rx_message 0 =? VFD_RS485_ADDR) &&
  crc_check rx_length read_length rx_message.

(** ** Data model *)

(** [enum class SpindleState] *)
Inductive SpindleState : Type := Disable | Cw | Ccw.

Definition SpindleState_eqb (a b : SpindleState) : bool :=
  match a, b with
  | Disable, Disable | Cw, Cw | Ccw, Ccw => true
  | _, _ => false
  end.

(** [enum class State], the machine state held in [sys.state]. *)
Inductive State : Type :=
  Idle | Alarm | CheckMode | Homing | Cycle | Hold | Jog | SafetyDoor | Sleep.

Definition State_eqb (a b : State) : bool :=
  match a, b with
  | Idle, Idle | Alarm, Alarm | CheckMode, CheckMode | Homing, Homing
  | Cycle, Cycle | Hold, Hold | Jog, Jog | SafetyDoor, SafetyDoor
  | Sleep, Sleep => true
  | _, _ => false
  end.

(** [struct ModbusCommand] of VFDSpindle.h: a criticality flag, the two
    [uint8_t] lengths and the message buffer. *)
Record ModbusCommand : Type := mkCmd {
  critical : bool;
  tx_length : Z;
  rx_length : Z;
  msg : list Z
}.

Definition set_critical (c : ModbusCommand) (b : bool) : ModbusCommand :=
  mkCmd b (tx_length c) (rx_length c) (msg c).

Definition set_msg0 (c : ModbusCommand) (v : Z) : ModbusCommand :=
  mkCmd (critical c) (tx_length c) (rx_length c) (buf_set (msg c) 0 v).

(** The bytes [uart_write_bytes] puts on the wire: [msg[0 .. tx_length)]. *)
Definition tx_bytes (c : ModbusCommand) : list Z :=
  firstn (Z.to_nat (tx_length c)) (msg c).

(** The fields of [class VFD] (and of its base [Spindle]) the file uses. *)
Record VFD : Type := mkVFD {
  vfd_ok : bool;
  _task_running : bool;
  _txd_pin : Z;
  _rxd_pin : Z;
  _rts_pin : Z;
  _min_rpm : Z;
  _max_rpm : Z;
  _current_rpm : Z;
  _current_state : SpindleState;
  is_reversable : bool;
  use_delays : bool
}.

(** The fields of the global [sys] the file reads or writes.
    [spindle_speed] holds the integer the code assigns to it. *)
Record system_t : Type := mkSys {
  abort : bool;
  state : State;
  spindle_speed : Z;
  spindle_speed_ovr : Z;
  report_ovr_counter : Z
}.

(** The settings read through [->get()], already converted to the integer
    the code stores or passes on. *)
Record Settings : Type := mkSettings {
  laser_mode : bool;
  rpm_min : Z;
  rpm_max : Z;
  spindle_delay_spindown : Z;
  spindle_delay_spinup : Z
}.

(** The machine definition file: each pin is [Some] when its macro is
    defined. *)
Record MachineDef : Type := mkMachineDef {
  VFD_RS485_TXD_PIN : option Z;
  VFD_RS485_RXD_PIN : option Z;
  VFD_RS485_RTS_PIN : option Z
}.

(** Whether each ESP-IDF call of [init] returns [ESP_OK]. *)
Record UartDriver : Type := mkUartDriver {
  uart_param_config_ok : bool;
  uart_set_pin_ok : bool;
  uart_driver_install_ok : bool;
  uart_set_mode_ok : bool
}.

(** What the firmware does to the outside world. *)
Inductive Event : Type :=
| Log (fmt : string) (args : list Z)   (* grbl_msg_sendf(CLIENT_SERIAL, MsgLevel::Info, ...) *)
| ExecAlarmSpindleControl              (* system_set_exec_alarm(ExecAlarm::SpindleControl) *)
| UartFlush
| UartWrite (bytes : list Z)
| UartDriverDelete                      (* uart_driver_delete *)
| UartConfigured                        (* the four configuration calls of init returned ESP_OK *)
| TaskCreate                            (* xQueueCreate and xTaskCreatePinnedToCore *)
| TaskDelay (ticks : Z)
| McDwell (amount : Z).

Definition is_alarm (e : Event) : bool :=
  match e with ExecAlarmSpindleControl => true | _ => false end.

Definition is_uart_write (e : Event) : bool :=
  match e with UartWrite _ => true | _ => false end.

Definition count_alarms (t : list Event) : nat := length (filter is_alarm t).
Definition count_writes (t : list Event) : nat := length (filter is_uart_write t).

(** The whole state: globals, the device object, the queue, the statics
    and locals of the task that outlive an iteration, the trace, and the
    number of [uart_read_bytes] calls made so far. *)
Record Machine : Type := mkMachine {
  sys : system_t;
  settings : Settings;
  vfd : VFD;
  vfd_cmd_queue : list ModbusCommand;
  unresponsive : bool;
  pollidx : Z;
  next_cmd : ModbusCommand;
  uart_reads : nat;
  trace : list Event
}.

(** Field updates. *)
Definition vfd_set_ok (v : VFD) (b : bool) : VFD :=
  mkVFD b (_task_running v) (_txd_pin v) (_rxd_pin v) (_rts_pin v) (_min_rpm v)
        (_max_rpm v) (_current_rpm v) (_current_state v) (is_reversable v) (use_delays v).
Definition vfd_set_task_running (v : VFD) (b : bool) : VFD :=
  mkVFD (vfd_ok v) b (_txd_pin v) (_rxd_pin v) (_rts_pin v) (_min_rpm v)
        (_max_rpm v) (_current_rpm v) (_current_state v) (is_reversable v) (use_delays v).
Definition vfd_set_txd_pin (v : VFD) (p : Z) : VFD :=
  mkVFD (vfd_ok v) (_task_running v) p (_rxd_pin v) (_rts_pin v) (_min_rpm v)
        (_max_rpm v) (_current_rpm v) (_current_state v) (is_reversable v) (use_delays v).
Definition vfd_set_rxd_pin (v : VFD) (p : Z) : VFD :=
  mkVFD (vfd_ok v) (_task_running v) (_txd_pin v) p (_rts_pin v) (_min_rpm v)
        (_max_rpm v) (_current_rpm v) (_current_state v) (is_reversable v) (use_delays v).
Definition vfd_set_rts_pin (v : VFD) (p : Z) : VFD :=
  mkVFD (vfd_ok v) (_task_running v) (_txd_pin v) (_rxd_pin v) p (_min_rpm v)
        (_max_rpm v) (_current_rpm v) (_current_state v) (is_reversable v) (use_delays v).
Definition vfd_set_rpm_limits (v : VFD) (lo hi : Z) : VFD :=
  mkVFD (vfd_ok v) (_task_running v) (_txd_pin v) (_rxd_pin v) (_rts_pin v) lo
        hi (_current_rpm v) (_current_state v) (is_reversable v) (use_delays v).
Definition vfd_set_current_rpm (v : VFD) (rpm : Z) : VFD :=
  mkVFD (vfd_ok v) (_task_running v) (_txd_pin v) (_rxd_pin v) (_rts_pin v) (_min_rpm v)
        (_max_rpm v) rpm (_current_state v) (is_reversable v) (use_delays v).
Definition vfd_set_current_state (v : VFD) (s : SpindleState) : VFD :=
  mkVFD (vfd_ok v) (_task_running v) (_txd_pin v) (_rxd_pin v) (_rts_pin v) (_min_rpm v)
        (_max_rpm v) (_current_rpm v) s (is_reversable v) (use_delays v).
Definition vfd_set_flags (v : VFD) (reversable delays : bool) : VFD :=
  mkVFD (vfd_ok v) (_task_running v) (_txd_pin v) (_rxd_pin v) (_rts_pin v) (_min_rpm v)
        (_max_rpm v) (_current_rpm v) (_current_state v) reversable delays.

Definition sys_set_spindle_speed (s : system_t) (v : Z) : system_t :=
  mkSys (abort s) (state s) v (spindle_speed_ovr s) (report_ovr_counter s).
Definition sys_set_report_ovr_counter (s : system_t) (v : Z) : system_t :=
  mkSys (abort s) (state s) (spindle_speed s) (spindle_speed_ovr s) v.

Definition with_sys (m : Machine) (s : system_t) : Machine :=
  mkMachine s (settings m) (vfd m) (vfd_cmd_queue m) (unresponsive m) (pollidx m)
            (next_cmd m) (uart_reads m) (trace m).
Definition with_vfd (m : Machine) (v : VFD) : Machine :=
  mkMachine (sys m) (settings m) v (vfd_cmd_queue m) (unresponsive m) (pollidx m)
            (next_cmd m) (uart_reads m) (trace m).
Definition with_queue (m : Machine) (q : list ModbusCommand) : Machine :=
  mkMachine (sys m) (settings m) (vfd m) q (unresponsive m) (pollidx m)
            (next_cmd m) (uart_reads m) (trace m).
Definition with_unresponsive (m : Machine) (b : bool) : Machine :=
  mkMachine (sys m) (settings m) (vfd m) (vfd_cmd_queue m) b (pollidx m)
            (next_cmd m) (uart_reads m) (trace m).
Definition with_pollidx (m : Machine) (i : Z) : Machine :=
  mkMachine (sys m) (settings m) (vfd m) (vfd_cmd_queue m) (unresponsive m) i
            (next_cmd m) (uart_reads m) (trace m).
Definition with_next_cmd (m : Machine) (c : ModbusCommand) : Machine :=
  mkMachine (sys m) (settings m) (vfd m) (vfd_cmd_queue m) (unresponsive m) (pollidx m)
            c (uart_reads m) (trace m).
Definition with_uart_reads (m : Machine) (n : nat) : Machine :=
  mkMachine (sys m) (settings m) (vfd m) (vfd_cmd_queue m) (unresponsive m) (pollidx m)
            (next_cmd m) n (trace m).
Definition with_trace (m : Machine) (t : list Event) : Machine :=
  mkMachine (sys m) (settings m) (vfd m) (vfd_cmd_queue m) (unresponsive m) (pollidx m)
            (next_cmd m) (uart_reads m) t.

Definition emit (e : Event) (m : Machine) : Machine := with_trace m (trace m ++ [e]).

(** ** The command queue (FreeRTOS, [VFD_RS485_QUEUE_SIZE] slots) *)

(** [xQueueSend(vfd_cmd_queue, &c, 0)]: fails at once on a full queue. *)
Definition xQueueSend (c : ModbusCommand) (m : Machine) : Machine * bool :=
  if Z.of_nat (length (vfd_cmd_queue m)) <? VFD_RS485_QUEUE_SIZE
  then (with_queue m (vfd_cmd_queue m ++ [c]), true)
  else (m, false).

(** [xQueueReset(vfd_cmd_queue)]: empties the queue; FreeRTOS always
    reports success. *)
Definition xQueueReset (m : Machine) : Machine * bool := (with_queue m [], true).

(** [xQueueReceive(vfd_cmd_queue, &next_cmd, 0)] *)
Definition xQueueReceive (m : Machine) : Machine * bool :=
  match vfd_cmd_queue m with
  | [] => (m, false)
  | c :: q => (with_next_cmd (with_queue m q) c, true)
  end.

(** ** The drive-specific part of the protocol *)

(** The [response_parser] function pointer type: from the response bytes
    and the spindle object to success, updating the object. *)
Definition response_parser : Type := list Z -> VFD -> bool * VFD.

(** The virtual methods a concrete drive overrides.  Each fills in the
    command it is given; the four readers also return the parser of the
    reply, or [None] for [nullptr]. *)
Class VFDProtocol : Type := {
  direction_command : VFD -> SpindleState -> ModbusCommand -> ModbusCommand;
  set_speed_command : VFD -> Z -> ModbusCommand -> ModbusCommand;
  get_max_rpm : VFD -> ModbusCommand -> ModbusCommand * option response_parser;
  get_current_rpm : VFD -> ModbusCommand -> ModbusCommand * option response_parser;
  get_current_direction : VFD -> ModbusCommand -> ModbusCommand * option response_parser;
  get_status_ok : VFD -> ModbusCommand -> ModbusCommand * option response_parser
}.

(** Constants of VFDSpindle.h, which is not among the sources at hand:
    the retry ceiling and the size of a message buffer. *)
Class VFDConstants : Type := {
  MAX_RETRIES : Z;
  VFD_RS485_MAX_MSG_SIZE : Z
}.

(** ** The spindle controller *)

Section Controller.
Context {consts : VFDConstants} {drive : VFDProtocol}.

(** A freshly declared local [ModbusCommand]; the drive fills it in. *)
Definition blank_cmd : ModbusCommand :=
  mkCmd false 0 0 (repeat 0 (Z.to_nat VFD_RS485_MAX_MSG_SIZE)).

(** [bool VFD::get_pins_and_settings()] *)
Definition get_pins_and_settings (def : MachineDef) (m : Machine) : Machine * bool :=
  let pins_settings_ok := true in
  let '(m, pins_settings_ok) :=
    match VFD_RS485_TXD_PIN def with
    | Some p => (with_vfd m (vfd_set_txd_pin (vfd m) p), pins_settings_ok)
    | None => (emit (Log "Undefined VFD_RS485_TXD_PIN" []) m, false)
    end in
  let '(m, pins_settings_ok) :=
    match VFD_RS485_RXD_PIN def with
    | Some p => (with_vfd m (vfd_set_rxd_pin (vfd m) p), pins_settings_ok)
    | None => (emit (Log "Undefined VFD_RS485_RXD_PIN" []) m, false)
    end in
  let '(m, pins_settings_ok) :=
    match VFD_RS485_RTS_PIN def with
    | Some p => (with_vfd m (vfd_set_rts_pin (vfd m) p), pins_settings_ok)
    | None => (emit (Log "Undefined VFD_RS485_RTS_PIN" []) m, false)
    end in
  let '(m, pins_settings_ok) :=
    if laser_mode (settings m)
    then (emit (Log "VFD spindle disabled in laser mode. Set $GCode/LaserMode=Off and restart" []) m,
          false)
    else (m, pins_settings_ok) in
  let m := with_vfd m (vfd_set_rpm_limits (vfd m) (rpm_min (settings m)) (rpm_max (settings m))) in
  (m, pins_settings_ok).

(** [void VFD::config_message()] *)
Definition config_message (m : Machine) : Machine :=
  emit (Log "VFD RS485  Tx:%s Rx:%s RTS:%s"
            [_txd_pin (vfd m); _rxd_pin (vfd m); _rts_pin (vfd m)]) m.

(** [void VFD::init()].  Creating the task only records [TaskCreate]:
    the task's iterations are [vfd_cmd_iter] below. *)
Definition init (def : MachineDef) (hw : UartDriver) (m : Machine) : Machine :=
  let m := with_vfd m (vfd_set_ok (vfd m) false) in
  let m := emit (Log "Initializing RS485 VFD spindle" []) m in
  let '(m, ok) := get_pins_and_settings def m in
  if negb ok then
    let m := with_vfd m (vfd_set_ok (vfd m) false) in
    emit (Log "RS485 VFD spindle errors" []) m
  else
    let m := emit UartDriverDelete m in
    if negb (uart_param_config_ok hw) then
      emit (Log "RS485 VFD uart parameters failed" []) m
    else if negb (uart_set_pin_ok hw) then
      emit (Log "RS485 VFD uart pin config failed" []) m
    else if negb (uart_driver_install_ok hw) then
      emit (Log "RS485 VFD uart driver install failed" []) m
    else if negb (uart_set_mode_ok hw) then
      emit (Log "RS485 VFD uart set half duplex failed" []) m
    else
      let m := emit UartConfigured m in
      let m :=
        if negb (_task_running (vfd m)) then
          let m := with_queue m [] in
          let m := emit TaskCreate m in
          with_vfd m (vfd_set_task_running (vfd m) true)
        else m in
      let m := with_vfd m (vfd_set_flags (vfd m) true true) in
      let m := with_vfd m (vfd_set_ok (vfd m) true) in
      let m := with_vfd m (vfd_set_current_rpm (vfd m) 0) in
      let m := with_vfd m (vfd_set_current_state (vfd m) Disable) in
      config_message m.

(** [bool VFD::set_mode(SpindleState mode, bool critical)] *)
Definition set_mode (mode : SpindleState) (crit : bool) (m : Machine) : Machine * bool :=
  if negb (vfd_ok (vfd m)) then (m, false)
  else
    let mode_cmd := set_msg0 blank_cmd VFD_RS485_ADDR in
    let mode_cmd := direction_command (vfd m) mode mode_cmd in
    let m :=
      if SpindleState_eqb mode Disable then
        let '(m, reset_ok) := xQueueReset m in
        if negb reset_ok
        then emit (Log "VFD spindle off, queue could not be reset" []) m
        else m
      else m in
    let mode_cmd := set_critical mode_cmd crit in
    let m := with_vfd m (vfd_set_current_state (vfd m) mode) in
    let '(m, sent) := xQueueSend mode_cmd m in
    let m := if negb sent then emit (Log "VFD Queue Full" []) m else m in
    (m, true).

(** The override scaling of [set_rpm] (line 406), in [uint32_t]. *)
Definition apply_override (rpm ovr : Z) : Z := wrap32 (rpm * ovr) / 100.

(** The limits of [set_rpm] (lines 409-413). *)
Definition apply_limits (min_rpm max_rpm rpm : Z) : Z :=
  if (min_rpm >=? max_rpm) || (rpm >=? max_rpm) then max_rpm
  else if negb (rpm =? 0) && (rpm <=? min_rpm) then min_rpm
  else rpm.

(** [uint32_t VFD::set_rpm(uint32_t rpm)] *)
Definition set_rpm (rpm : Z) (m : Machine) : Machine * Z :=
  if negb (vfd_ok (vfd m)) then (m, 0)
  else
    let rpm := apply_override rpm (spindle_speed_ovr (sys m)) in
    let rpm := apply_limits (_min_rpm (vfd m)) (_max_rpm (vfd m)) rpm in
    let m := with_sys m (sys_set_spindle_speed (sys m) rpm) in
    if rpm =? _current_rpm (vfd m) then (m, rpm)
    else
      let m := with_vfd m (vfd_set_current_rpm (vfd m) rpm) in
      let rpm_cmd := set_msg0 blank_cmd VFD_RS485_ADDR in
      let rpm_cmd := set_speed_command (vfd m) rpm rpm_cmd in
      let rpm_cmd := set_critical rpm_cmd false in
      let '(m, sent) := xQueueSend rpm_cmd m in
      let m := if negb sent then emit (Log "VFD Queue Full" []) m else m in
      (m, rpm).

(** [void VFD::set_state(SpindleState state, uint32_t rpm)] *)
Definition set_state (st : SpindleState) (rpm : Z) (m : Machine) : Machine :=
  if abort (sys m) then m
  else
    let crit := State_eqb (state (sys m)) Cycle || negb (SpindleState_eqb st Disable) in
    let m :=
      if negb (SpindleState_eqb (_current_state (vfd m)) st) then
        let m := fst (set_mode st crit m) in
        let m := fst (set_rpm rpm m) in
        if SpindleState_eqb st Disable then
          let m := with_sys m (sys_set_spindle_speed (sys m) 0) in
          if negb (SpindleState_eqb (_current_state (vfd m)) st)
          then emit (McDwell (spindle_delay_spindown (settings m))) m
          else m
        else
          if negb (SpindleState_eqb (_current_state (vfd m)) st)
          then emit (McDwell (spindle_delay_spinup (settings m))) m
          else m
      else
        if negb (_current_rpm (vfd m) =? rpm) then fst (set_rpm rpm m) else m in
    let m := with_vfd m (vfd_set_current_state (vfd m) st) in
    with_sys m (sys_set_report_ovr_counter (sys m) 0).

(** Names for the values the statements below talk about: the scaled
    and limited value [set_rpm rpm] works with, the envelope it builds
    for a value [r], and the envelope [set_mode] builds. *)
Definition rpm_target (rpm : Z) (m : Machine) : Z :=
  apply_limits (_min_rpm (vfd m)) (_max_rpm (vfd m))
               (apply_override rpm (spindle_speed_ovr (sys m))).

Definition rpm_envelope (r : Z) (m : Machine) : ModbusCommand :=
  set_critical
    (set_speed_command (vfd_set_current_rpm (vfd m) r) r
                       (set_msg0 blank_cmd VFD_RS485_ADDR))
    false.

Definition mode_envelope (mode : SpindleState) (crit : bool) (m : Machine)
  : ModbusCommand :=
  set_critical (direction_command (vfd m) mode (set_msg0 blank_cmd VFD_RS485_ADDR)) crit.

(** [void VFD::stop()] *)
Definition stop (m : Machine) : Machine := fst (set_mode Disable false m).

(** [SpindleState VFD::get_state()] *)
Definition get_state (m : Machine) : SpindleState := _current_state (vfd m).

End Controller.

(** A configuration fault: a pin macro is missing from the machine
    definition, or laser mode is on. *)
Definition config_fault (def : MachineDef) (s : Settings) : bool :=
  match VFD_RS485_TXD_PIN def, VFD_RS485_RXD_PIN def, VFD_RS485_RTS_PIN def with
  | Some _, Some _, Some _ => laser_mode s
  | _, _, _ => true
  end.

(** ** The communications task: [VFD::vfd_cmd_task] *)

(** Lines 112-128: append the checksum to the command about to be sent. *)
Definition add_crc (c : ModbusCommand) : ModbusCommand :=
  let crc16 := ModRTU_CRC (msg c) (tx_length c) in
  let tx := wrap8 (tx_length c + 2) in
  let rx := wrap8 (rx_length c + 2) in
  let msg1 := buf_set (msg c) (tx - 1) (wrap8 (crc_hi crc16)) in
  let msg2 := buf_set msg1 (tx - 2) (wrap8 (crc_lo crc16)) in
  mkCmd (critical c) tx rx msg2.

Section Executor.
Context {consts : VFDConstants} {drive : VFDProtocol}.

(** The serial link: the [n]-th call of [uart_read_bytes] returns
    [read_length] (as stored in the [uint16_t]) and leaves [rx_message]
    with the given contents. *)
Variable uart_read_bytes : nat -> Z * list Z.

(** Lines 63-74: the capability request, and the criticality flag. *)
Definition choose_request (m : Machine) : Machine * option response_parser :=
  let m := with_next_cmd m (set_msg0 (next_cmd m) VFD_RS485_ADDR) in
  if pollidx m =? 0 then
    let m := with_pollidx m 1 in
    (with_next_cmd m (set_critical (next_cmd m) true), None)
  else if _max_rpm (vfd m) =? 0 then
    let '(c, parser) := get_max_rpm (vfd m) (next_cmd m) in
    let m := with_next_cmd m c in
    match parser with
    | Some p =>
        let m := with_pollidx m 1 in
        (with_next_cmd m (set_critical (next_cmd m) true), Some p)
    | None => (with_next_cmd m (set_critical (next_cmd m) false), None)
    end
  else (with_next_cmd m (set_critical (next_cmd m) false), None).

(** Lines 80-102: the polling switch with its fall-through. *)
Definition poll_status (m : Machine) : Machine * option response_parser :=
  let '(c, parser) := get_status_ok (vfd m) (next_cmd m) in
  (with_pollidx (with_next_cmd m c) 1, parser).

Definition poll_direction (m : Machine) : Machine * option response_parser :=
  let '(c, parser) := get_current_direction (vfd m) (next_cmd m) in
  let m := with_next_cmd m c in
  match parser with
  | Some p => (with_pollidx m 3, Some p)
  | None => poll_status m
  end.

Definition poll_rpm (m : Machine) : Machine * option response_parser :=
  let '(c, parser) := get_current_rpm (vfd m) (next_cmd m) in
  let m := with_next_cmd m c in
  match parser with
  | Some p => (with_pollidx m 2, Some p)
  | None => poll_direction m
  end.

Definition poll_cycle (m : Machine) : Machine * option response_parser :=
  if pollidx m =? 1 then poll_rpm m
  else if pollidx m =? 2 then poll_direction m
  else if pollidx m =? 3 then poll_status m
  else (m, None).

(** Lines 63-110: what to send in this iteration.  [None] is the
    [continue]; [Some parser] carries the parser, itself [None] for a
    command taken from the queue. *)
Definition fetch (m : Machine) : Machine * option (option response_parser) :=
  let '(m, parser) := choose_request m in
  match parser with
  | Some p => (m, Some (Some p))
  | None =>
      let '(m, received) := xQueueReceive m in
      if received then (m, Some None)
      else
        let '(m, parser) := poll_cycle m in
        match parser with
        | Some p => (m, Some (Some p))
        | None => (emit (TaskDelay VFD_RS485_POLL_RATE) m, None)
        end
  end.

(** Lines 133-188: one pass of the retry loop body; returns the value of
    [retry_count] before the loop's increment. *)
Definition attempt (parser : option response_parser) (retry_count : Z) (m : Machine)
  : Z * Machine :=
  let m := emit UartFlush m in
  let m := emit (UartWrite (tx_bytes (next_cmd m))) m in
  let '(read_length, rx_message) := uart_read_bytes (uart_reads m) in
  let m := with_uart_reads m (S (uart_reads m)) in
  if response_ok (rx_length (next_cmd m)) read_length rx_message then
    let m := with_unresponsive m false in
    let retry_count := MAX_RETRIES + 1 in
    match parser with
    | Some p =>
        let '(parsed, v) := p rx_message (vfd m) in
        let m := with_vfd m v in
        if negb parsed then
          let m := with_unresponsive m true in
          (retry_count, emit (Log "Spindle RS485 did not give a satisfying response" []) m)
        else (retry_count, m)
    | None => (retry_count, m)
    end
  else (retry_count, emit (TaskDelay VFD_RS485_POLL_RATE) m).

(** [for (; retry_count < MAX_RETRIES; ++retry_count)].  [None] only when
    the fuel runs out before the loop condition fails. *)
Fixpoint retry_loop (fuel : nat) (parser : option response_parser) (retry_count : Z)
         (m : Machine) : option (Z * Machine) :=
  if retry_count <? MAX_RETRIES then
    match fuel with
    | O => None
    | S fuel' =>
        let '(retry_count, m) := attempt parser retry_count m in
        retry_loop fuel' parser (retry_count + 1) m
    end
  else Some (retry_count, m).

(** Lines 191-200: the escalation after the loop. *)
Definition escalate (retry_count : Z) (m : Machine) : Machine :=
  if retry_count =? MAX_RETRIES then
    if negb (unresponsive m) then
      let m := emit (Log "Spindle RS485 Unresponsive %d" [rx_length (next_cmd m)]) m in
      let m :=
        if critical (next_cmd m) then
          let m := emit (Log "Critical Spindle RS485 Unresponsive" []) m in
          emit ExecAlarmSpindleControl m
        else m in
      with_unresponsive m true
    else m
  else m.

(** Lines 112-202: send the fetched command and handle the outcome. *)
Definition transact (parser : option response_parser) (m : Machine) : option Machine :=
  let m := with_next_cmd m (add_crc (next_cmd m)) in
  match retry_loop (Z.to_nat MAX_RETRIES) parser 0 m with
  | None => None
  | Some (retry_count, m) =>
      let m := escalate retry_count m in
      Some (emit (TaskDelay VFD_RS485_POLL_RATE) m)
  end.

(** One iteration of [while (true)]. *)
Definition vfd_cmd_iter (m : Machine) : option Machine :=
  let '(m, got) := fetch m in
  match got with
  | None => Some m
  | Some parser => transact parser m
  end.

(** The first [iterations] iterations of the task. *)
Fixpoint vfd_cmd_task (iterations : nat) (m : Machine) : option Machine :=
  match iterations with
  | O => Some m
  | S n =>
      match vfd_cmd_iter m with
      | None => None
      | Some m' => vfd_cmd_task n m'
      end
  end.

End Executor.

(** ** Vocabulary for the statements about the task *)

(** The link never produces a response that passes the response test,
    whatever length is expected. *)
Definition never_valid (link : nat -> Z * list Z) : Prop :=
  forall n rx_len, response_ok rx_len (fst (link n)) (snd (link n)) = false.

(** Whether the [i]-th read from now passes the response test for the
    command in [next_cmd]. *)
Definition response_at (link : nat -> Z * list Z) (m : Machine) (i : nat) : bool :=
  response_ok (rx_length (next_cmd m))
              (fst (link (uart_reads m + i)%nat)) (snd (link (uart_reads m + i)%nat)).

(** What one unanswered attempt at sending [c] leaves in the trace. *)
Definition attempt_events (c : ModbusCommand) : list Event :=
  [UartFlush; UartWrite (tx_bytes c); TaskDelay VFD_RS485_POLL_RATE].

(** A step that leaves the fault flag, the device, the link position and
    the trace as they were. *)
Definition quiet_step (m m' : Machine) : Prop :=
  unresponsive m' = unresponsive m
  /\ vfd m' = vfd m
  /\ uart_reads m' = uart_reads m
  /\ trace m' = trace m.

(** The state after one unanswered attempt. *)
Definition after_failed_attempt (m : Machine) : Machine :=
  mkMachine (sys m) (settings m) (vfd m) (vfd_cmd_queue m) (unresponsive m) (pollidx m)
            (next_cmd m) (S (uart_reads m)) (trace m ++ attempt_events (next_cmd m)).

(** ** Concrete drives and machine states used in the examples *)

Module Bench.

Definition consts : VFDConstants :=
  {| MAX_RETRIES := 3; VFD_RS485_MAX_MSG_SIZE := 16 |}.

(** Fill a command: keep [msg[0]], write the payload after it. *)
Definition fill (c : ModbusCommand) (tx rx : Z) (payload : list Z) : ModbusCommand :=
  mkCmd (critical c) tx rx
        (buf_get (msg c) 0 :: payload ++ repeat 0 (15 - length payload)).

Definition direction_code (mode : SpindleState) : Z :=
  match mode with Cw => 1 | Ccw => 2 | Disable => 6 end.

(** The reply to the capability request carries the maximum rpm in bytes
    4 and 5; any other function code is not understood. *)
Definition parse_max_rpm : response_parser :=
  fun rx v =>
    if buf_get rx 1 =? 0x03
    then (true, vfd_set_rpm_limits v (_min_rpm v) (buf_get rx 4 * 256 + buf_get rx 5))
    else (false, v).

Definition parse_any : response_parser := fun _ v => (true, v).

(** A drive that implements every request. *)
Definition full_drive : VFDProtocol :=
  {| direction_command := fun _ mode c =>
       fill c 6 6 [0x06; 0x20; 0x00; 0x00; direction_code mode];
     set_speed_command := fun _ rpm c =>
       fill c 6 6 [0x06; 0x10; 0x00; Z.land (Z.shiftr rpm 8) 0xFF; Z.land rpm 0xFF];
     get_max_rpm := fun _ c =>
       (fill c 6 6 [0x03; 0xB0; 0x05; 0x00; 0x02], Some parse_max_rpm);
     get_current_rpm := fun _ c =>
       (fill c 6 6 [0x03; 0x70; 0x0C; 0x00; 0x02], Some parse_any);
     get_current_direction := fun _ c =>
       (fill c 6 6 [0x03; 0x30; 0x00; 0x00; 0x01], Some parse_any);
     get_status_ok := fun _ c =>
       (fill c 6 6 [0x03; 0x30; 0x01; 0x00; 0x01], Some parse_any) |}.

(** A drive that implements the two commands and no request at all. *)
Definition bare_drive : VFDProtocol :=
  {| direction_command := @direction_command full_drive;
     set_speed_command := @set_speed_command full_drive;
     get_max_rpm := fun _ c => (c, None);
     get_current_rpm := fun _ c => (c, None);
     get_current_direction := fun _ c => (c, None);
     get_status_ok := fun _ c => (c, None) |}.

Definition sys0 : system_t :=
  {| abort := false; state := Idle; spindle_speed := 0;
     spindle_speed_ovr := 100; report_ovr_counter := 5 |}.

Definition settings0 : Settings :=
  {| laser_mode := false; rpm_min := 100; rpm_max := 1000;
     spindle_delay_spindown := 2; spindle_delay_spinup := 3 |}.

(** An initialized, stopped spindle with limits 100..1000. *)
Definition vfd0 : VFD :=
  {| vfd_ok := true; _task_running := true;
     _txd_pin := 17; _rxd_pin := 4; _rts_pin := 16;
     _min_rpm := 100; _max_rpm := 1000; _current_rpm := 0;
     _current_state := Disable; is_reversable := true; use_delays := true |}.

(** The object before any successful [init]. *)
Definition vfd_off : VFD :=
  {| vfd_ok := false; _task_running := false;
     _txd_pin := 0; _rxd_pin := 0; _rts_pin := 0;
     _min_rpm := 0; _max_rpm := 0; _current_rpm := 0;
     _current_state := Disable; is_reversable := false; use_delays := false |}.

Definition machine (v : VFD) (q : list ModbusCommand) (idx : Z) : Machine :=
  {| sys := sys0; settings := settings0; vfd := v; vfd_cmd_queue := q;
     unresponsive := false; pollidx := idx;
     next_cmd := @blank_cmd consts; uart_reads := 0; trace := [] |}.

(** A spindle turning clockwise at 500 rpm. *)
Definition vfd_running : VFD := vfd_set_current_state (vfd_set_current_rpm vfd0 500) Cw.

Definition sys_running : system_t := sys_set_spindle_speed sys0 500.

(** A spindle whose maximum rpm has not been discovered yet. *)
Definition vfd_unknown_max : VFD := vfd_set_rpm_limits vfd0 0 0.

(** Some queued speed command. *)
Definition speed_cmd (rpm : Z) : ModbusCommand :=
  set_critical
    (@set_speed_command full_drive vfd0 rpm (set_msg0 (@blank_cmd consts) VFD_RS485_ADDR))
    false.

Definition all_pins : MachineDef :=
  {| VFD_RS485_TXD_PIN := Some 17; VFD_RS485_RXD_PIN := Some 4;
     VFD_RS485_RTS_PIN := Some 16 |}.

Definition no_rts_pin : MachineDef :=
  {| VFD_RS485_TXD_PIN := Some 17; VFD_RS485_RXD_PIN := Some 4;
     VFD_RS485_RTS_PIN := None |}.

Definition uart_fine : UartDriver :=
  {| uart_param_config_ok := true; uart_set_pin_ok := true;
     uart_driver_install_ok := true; uart_set_mode_ok := true |}.

(** The running spindle with three speed commands still queued. *)
Definition running_with_backlog : Machine :=
  with_sys (machine vfd_running [speed_cmd 300; speed_cmd 400; speed_cmd 500] 1)
           sys_running.

(** The same while an abort is active. *)
Definition running_aborting : Machine :=
  with_sys running_with_backlog
           {| abort := true; state := Idle; spindle_speed := 500;
              spindle_speed_ovr := 100; report_ovr_counter := 5 |}.

(** The stopped spindle with a full queue. *)
Definition stopped_queue_full : Machine :=
  machine vfd0 (repeat (speed_cmd 300) 10) 1.

(** A link on which nothing ever arrives. *)
Definition silent_link : nat -> Z * list Z := fun _ => (0, []).

(** A link on which the drive answers every request with the Modbus
    exception frame 01 83 02 00 00 00 and its checksum. *)
Definition exception_link : nat -> Z * list Z :=
  fun _ => (8, frame_with_crc [0x01; 0x83; 0x02; 0x00; 0x00; 0x00]).

End Bench.

(** ** More vocabulary: counting other events, and bounded queues *)

Definition is_dwell (e : Event) : bool :=
  match e with McDwell _ => true | _ => false end.

Definition is_task_create (e : Event) : bool :=
  match e with TaskCreate => true | _ => false end.

Definition is_log (e : Event) : bool :=
  match e with Log _ _ => true | _ => false end.

Definition count_dwells (t : list Event) : nat := length (filter is_dwell t).
Definition count_task_creates (t : list Event) : nat := length (filter is_task_create t).
Definition count_logs (t : list Event) : nat := length (filter is_log t).

(** The queue holds no more than its [VFD_RS485_QUEUE_SIZE] slots. *)
Definition queue_in_bounds (m : Machine) : Prop :=
  Z.of_nat (length (vfd_cmd_queue m)) <= VFD_RS485_QUEUE_SIZE.

(** A message buffer holding [payload] in its first [tx_length] bytes,
    with room for the checksum behind it. *)
Definition holds_payload (c : ModbusCommand) (payload : list Z) : Prop :=
  exists pad,
    msg c = payload ++ pad
    /\ tx_length c = Z.of_nat (length payload)
    /\ (2 <= length pad)%nat
    /\ Z.of_nat (length payload) + 2 < 256.

(** ** Sequences of controller calls *)

(** The entry points of the controller a caller can use. *)
Inductive Call : Type :=
| CallInit (def : MachineDef) (hw : UartDriver)
| CallSetState (st : SpindleState) (rpm : Z)
| CallSetMode (mode : SpindleState) (crit : bool)
| CallSetRpm (rpm : Z)
| CallStop.

Section Calls.
Context {consts : VFDConstants} {drive : VFDProtocol}.

Definition call (c : Call) (m : Machine) : Machine :=
  match c with
  | CallInit def hw => init def hw m
  | CallSetState st rpm => set_state st rpm m
  | CallSetMode mode crit => fst (set_mode mode crit m)
  | CallSetRpm rpm => fst (set_rpm rpm m)
  | CallStop => stop m
  end.

(** The calls of [cs] made one after the other. *)
Definition run (cs : list Call) (m : Machine) : Machine :=
  fold_left (fun m c => call c m) cs m.

End Calls.

(** The task exists exactly when the trace shows its one creation. *)
Definition task_created_once (m : Machine) : Prop :=
  count_task_creates (trace m) = (if _task_running (vfd m) then 1%nat else 0%nat).

(** Whether an [init] gets through: no configuration fault and every
    UART call returning [ESP_OK]. *)
Definition init_succeeds (def : MachineDef) (hw : UartDriver) (s : Settings) : bool :=
  negb (config_fault def s)
  && uart_param_config_ok hw && uart_set_pin_ok hw
  && uart_driver_install_ok hw && uart_set_mode_ok hw.

(** A step that leaves the globals, the settings and the queue alone. *)
Definition static_step (m m' : Machine) : Prop :=
  sys m' = sys m /\ settings m' = settings m /\ vfd_cmd_queue m' = vfd_cmd_queue m.

(** The queue of [m'] is that of [m], possibly without its head. *)
Definition dequeued_at_most_one (m m' : Machine) : Prop :=
  vfd_cmd_queue m' = vfd_cmd_queue m
  \/ exists c, vfd_cmd_queue m = c :: vfd_cmd_queue m'.

(** ** More links and drives for the examples *)

(** A link that stays silent for the first read and from then on echoes
    the speed command for 300 rpm, checksum included. *)
Definition late_echo_link : nat -> Z * list Z :=
  fun n =>
    match n with
    | O => (0, [])
    | S _ => (8, frame_with_crc [0x01; 0x06; 0x10; 0x00; 0x01; 0x2C])
    end.

(** A drive whose only request is the status poll. *)
Definition status_only_drive : VFDProtocol :=
  {| direction_command := @direction_command Bench.full_drive;
     set_speed_command := @set_speed_command Bench.full_drive;
     get_max_rpm := fun _ c => (c, None);
     get_current_rpm := fun _ c => (c, None);
     get_current_direction := fun _ c => (c, None);
     get_status_ok := @get_status_ok Bench.full_drive |}.

(** The frames written to the UART, in order. *)
Definition written_frames (t : list Event) : list (list Z) :=
  flat_map (fun e => match e with UartWrite bytes => [bytes] | _ => [] end) t.

(** Each command of [cs] sent as the frame [add_crc] makes of it, as often
    as the matching entry of [ks] says. *)
Definition frames_of (cs : list ModbusCommand) (ks : list nat) : list (list Z) :=
  concat (map (fun ck => repeat (tx_bytes (add_crc (fst ck))) (snd ck)) (combine cs ks)).

(** The readers of the drive leave the [critical] flag of the envelope
    they fill as they found it. *)
Definition readers_keep_critical (drive : VFDProtocol) : Prop :=
  forall v c,
    critical (fst (get_current_rpm v c)) = critical c
    /\ critical (fst (get_current_direction v c)) = critical c
    /\ critical (fst (get_status_ok v c)) = critical c.

(** A drive that implements none of the four requests. *)
Definition no_readers (drive : VFDProtocol) : Prop :=
  forall v c,
    snd (get_max_rpm v c) = None
    /\ snd (get_current_rpm v c) = None
    /\ snd (get_current_direction v c) = None
    /\ snd (get_status_ok v c) = None.

(** A drive that implements the three polls. *)
Definition all_polls (drive : VFDProtocol) : Prop :=
  forall v c,
    snd (get_current_rpm v c) <> None
    /\ snd (get_current_direction v c) <> None
    /\ snd (get_status_ok v c) <> None.

(** The reader the polling switch starts with at poll index [i]. *)
Definition reader_at {drive : VFDProtocol} (i : Z)
  : VFD -> ModbusCommand -> ModbusCommand * option response_parser :=
  if i =? 1 then get_current_rpm
  else if i =? 2 then get_current_direction
  else get_status_ok.

(** * Properties *)

(** ** Machine integers *)

Lemma lxor_below (n a b : Z) :
  0 < n -> 0 <= a < 2 ^ n -> 0 <= b < 2 ^ n -> 0 <= Z.lxor a b < 2 ^ n.
Proof.
  intros Hn Ha Hb.
  assert (H0 : 0 <= Z.lxor a b) by (apply Z.lxor_nonneg; lia).
  split; [exact H0|].
  destruct (Z.eq_dec (Z.lxor a b) 0) as [E|E].
  - rewrite E. apply Z.pow_pos_nonneg; lia.
  - apply Z.log2_lt_pow2; [lia|].
    pose proof (Z.log2_lxor a b (proj1 Ha) (proj1 Hb)) as Hl.
    assert (Z.log2 a < n).
    { destruct (Z.eq_dec a 0) as [->|]; [simpl; lia|].
      apply Z.log2_lt_pow2; lia. }
    assert (Z.log2 b < n).
    { destruct (Z.eq_dec b 0) as [->|]; [simpl; lia|].
      apply Z.log2_lt_pow2; lia. }
    lia.
Qed.

Lemma wrap16_small (x : Z) : 0 <= x < 2 ^ 16 -> wrap16 x = x.
Proof. intros H. unfold wrap16. apply Z.mod_small. exact H. Qed.

Lemma wrap8_small (x : Z) : 0 <= x < 2 ^ 8 -> wrap8 x = x.
Proof. intros H. unfold wrap8. apply Z.mod_small. exact H. Qed.

Lemma crc_lo_byte (crc16 : Z) : 0 <= crc_lo crc16 < 2 ^ 8.
Proof.
  unfold crc_lo. change 0xFF with (Z.ones 8).
  rewrite Z.land_ones by lia. apply Z.mod_pos_bound. lia.
Qed.

Lemma crc_hi_byte (crc16 : Z) : 0 <= crc_hi crc16 < 2 ^ 8.
Proof.
  unfold crc_hi. rewrite Z.shiftr_land.
  change (Z.shiftr 0xFF00 8) with (Z.ones 8).
  rewrite Z.land_ones by lia. apply Z.mod_pos_bound. lia.
Qed.

(** ** The checksum codec *)

Lemma buf_get_middle (pre : list Z) (x : Z) (post : list Z) :
  buf_get (pre ++ x :: post) (Z.of_nat (length pre)) = x.
Proof.
  unfold buf_get.
  destruct (Z.ltb_spec (Z.of_nat (length pre)) 0) as [H|H]; [lia|].
  rewrite Nat2Z.id. apply nth_middle.
Qed.

(** The index loop reads exactly the bytes between [pos] and
    [pos + todo]. *)
Lemma crc_loop_fold (l pre post : list Z) (crc : Z) :
  crc_loop (length l) (Z.of_nat (length pre)) (pre ++ l ++ post) crc
  = fold_left crc_byte l crc.
Proof.
  revert pre crc. induction l as [|x l IH]; intros pre crc; [reflexivity|].
  cbn [length crc_loop fold_left app].
  rewrite buf_get_middle.
  replace (Z.of_nat (length pre) + 1) with (Z.of_nat (length (pre ++ [x])))
    by (rewrite length_app; cbn [length]; lia).
  replace (pre ++ x :: l ++ post) with ((pre ++ [x]) ++ l ++ post)
    by (rewrite <- app_assoc; reflexivity).
  apply IH.
Qed.

Lemma ModRTU_CRC_prefix (payload post : list Z) :
  ModRTU_CRC (payload ++ post) (Z.of_nat (length payload))
  = fold_left crc_byte payload 0xFFFF.
Proof.
  unfold ModRTU_CRC. rewrite Nat2Z.id.
  apply (crc_loop_fold payload [] post).
Qed.

Lemma ModRTU_CRC_whole (payload : list Z) :
  ModRTU_CRC payload (Z.of_nat (length payload)) = fold_left crc_byte payload 0xFFFF.
Proof.
  rewrite <- (ModRTU_CRC_prefix payload []). rewrite app_nil_r. reflexivity.
Qed.

Lemma crc_shift_spec (crc : Z) :
  0 <= crc < 2 ^ 16 ->
  crc_shift crc = crc16_spec_bit crc /\ 0 <= crc_shift crc < 2 ^ 16.
Proof.
  intros Hc. unfold crc_shift, crc16_spec_bit.
  assert (Hs : 0 <= Z.shiftr crc 1 < 2 ^ 15).
  { rewrite Z.shiftr_div_pow2 by lia. change (2 ^ 1) with 2.
    split; [apply Z.div_pos; lia|].
    apply Z.div_lt_upper_bound; lia. }
  assert (Hx : 0 <= Z.lxor (Z.shiftr crc 1) 0xA001 < 2 ^ 16)
    by (apply lxor_below; lia).
  assert (Hl : Z.land crc 0x0001 = crc mod 2).
  { change (Z.land crc 0x0001) with (Z.land crc (Z.ones 1)).
    rewrite Z.land_ones by lia. reflexivity. }
  rewrite Hl, Z.bit0_odd, Zodd_mod.
  pose proof (Z.mod_pos_bound crc 2 ltac:(lia)) as Hm.
  destruct (Z.eqb_spec (crc mod 2) 0) as [E|E];
    destruct (Z.eqb_spec (crc mod 2) 1) as [E1|E1]; try lia; cbn [negb].
  - split; [reflexivity|]. change (2 ^ 15) with 32768 in Hs.
    change (2 ^ 16) with 65536. lia.
  - rewrite wrap16_small by exact Hx. split; [reflexivity | exact Hx].
Qed.

Lemma crc_bits_spec (i : nat) (crc : Z) :
  0 <= crc < 2 ^ 16 ->
  crc_bits i crc = Nat.iter i crc16_spec_bit crc /\ 0 <= crc_bits i crc < 2 ^ 16.
Proof.
  revert crc. induction i as [|i IH]; intros crc Hc; [split; [reflexivity | exact Hc]|].
  destruct (crc_shift_spec crc Hc) as [E Hr].
  destruct (IH (crc_shift crc) Hr) as [E' Hr'].
  cbn [crc_bits]. split; [|exact Hr'].
  rewrite E', E. symmetry. apply Nat.iter_succ_r.
Qed.

Lemma crc_byte_spec (crc b : Z) :
  0 <= crc < 2 ^ 16 -> is_byte b ->
  crc_byte crc b = crc16_spec_byte crc b /\ 0 <= crc_byte crc b < 2 ^ 16.
Proof.
  intros Hc Hb. unfold crc_byte, crc16_spec_byte.
  assert (Hx : 0 <= Z.lxor crc b < 2 ^ 16).
  { apply lxor_below; [lia | exact Hc |].
    unfold is_byte in Hb. change (2 ^ 16) with 65536. lia. }
  rewrite wrap16_small by exact Hx.
  apply crc_bits_spec. exact Hx.
Qed.

Lemma crc_fold_spec (bytes : list Z) (crc : Z) :
  0 <= crc < 2 ^ 16 -> Forall is_byte bytes ->
  fold_left crc_byte bytes crc = fold_left crc16_spec_byte bytes crc.
Proof.
  revert crc. induction bytes as [|b bytes IH]; intros crc Hc Hb; [reflexivity|].
  inversion Hb as [|? ? Hb1 Hb2]; subst.
  destruct (crc_byte_spec crc b Hc Hb1) as [E Hr].
  cbn [fold_left]. rewrite <- E. apply IH; assumption.
Qed.

Lemma frame_with_crc_length (payload : list Z) :
  Z.of_nat (length (frame_with_crc payload)) = Z.of_nat (length payload) + 2.
Proof. unfold frame_with_crc. rewrite length_app. cbn [length]. lia. Qed.

Lemma crc_check_frame (payload : list Z) :
  crc_check (Z.of_nat (length (frame_with_crc payload)))
            (Z.of_nat (length (frame_with_crc payload)))
            (frame_with_crc payload) = true.
Proof.
  unfold crc_check. rewrite frame_with_crc_length.
  replace (Z.of_nat (length payload) + 2 - 2) with (Z.of_nat (length payload)) by lia.
  unfold frame_with_crc.
  set (crc16 := ModRTU_CRC payload (Z.of_nat (length payload))).
  rewrite ModRTU_CRC_prefix, <- ModRTU_CRC_whole. fold crc16.
  assert (Hhi : buf_get (payload ++ [crc_lo crc16; crc_hi crc16])
                        (Z.of_nat (length payload) + 2 - 1) = crc_hi crc16).
  { replace (Z.of_nat (length payload) + 2 - 1)
      with (Z.of_nat (length (payload ++ [crc_lo crc16])))
      by (rewrite length_app; cbn [length]; lia).
    replace (payload ++ [crc_lo crc16; crc_hi crc16])
      with ((payload ++ [crc_lo crc16]) ++ crc_hi crc16 :: [])
      by (rewrite <- app_assoc; reflexivity).
    apply buf_get_middle. }
  rewrite Hhi, buf_get_middle, !Z.eqb_refl. reflexivity.
Qed.

Lemma list_set_middle (pre : list Z) (x v : Z) (post : list Z) :
  list_set (pre ++ x :: post) (length pre) v = pre ++ v :: post.
Proof.
  induction pre as [|y pre IH]; [reflexivity|].
  cbn [app length list_set]. rewrite IH. reflexivity.
Qed.

Lemma buf_set_middle (pre : list Z) (x v : Z) (post : list Z) :
  buf_set (pre ++ x :: post) (Z.of_nat (length pre)) v = pre ++ v :: post.
Proof.
  unfold buf_set.
  destruct (Z.ltb_spec (Z.of_nat (length pre)) 0) as [H|H]; [lia|].
  rewrite Nat2Z.id. apply list_set_middle.
Qed.

(** What the executor puts on the wire for a command whose payload
    occupies [msg[0 .. tx_length)] is that payload followed by its
    checksum, low byte first. *)
Lemma add_crc_tx_bytes (c : ModbusCommand) (payload pad : list Z) :
  msg c = payload ++ pad ->
  tx_length c = Z.of_nat (length payload) ->
  (2 <= length pad)%nat ->
  Z.of_nat (length payload) + 2 < 256 ->
  tx_bytes (add_crc c) = frame_with_crc payload.
Proof.
  intros Hmsg Htx Hpad Hfit.
  destruct pad as [|a [|b pad]]; cbn [length] in Hpad; try lia.
  unfold tx_bytes, add_crc, frame_with_crc. cbn [tx_length msg].
  rewrite Hmsg, Htx, ModRTU_CRC_prefix, <- ModRTU_CRC_whole.
  set (crc16 := ModRTU_CRC payload (Z.of_nat (length payload))).
  rewrite (wrap8_small (Z.of_nat (length payload) + 2))
    by (change (2 ^ 8) with 256; lia).
  rewrite (wrap8_small (crc_hi crc16)) by apply crc_hi_byte.
  rewrite (wrap8_small (crc_lo crc16)) by apply crc_lo_byte.
  replace (payload ++ a :: b :: pad) with ((payload ++ [a]) ++ b :: pad)
    by (rewrite <- app_assoc; reflexivity).
  replace (Z.of_nat (length payload) + 2 - 1)
    with (Z.of_nat (length (payload ++ [a])))
    by (rewrite length_app; cbn [length]; lia).
  rewrite buf_set_middle, <- app_assoc. cbn [app].
  replace (Z.of_nat (length payload) + 2 - 2) with (Z.of_nat (length payload)) by lia.
  rewrite buf_set_middle.
  replace (Z.to_nat (Z.of_nat (length payload) + 2)) with (length payload + 2)%nat by lia.
  rewrite firstn_app.
  replace (length payload + 2 - length payload)%nat with 2%nat by lia.
  rewrite firstn_all2 by lia. reflexivity.
Qed.

Lemma buf_get_head (payload post : list Z) :
  payload <> [] -> buf_get (payload ++ post) 0 = buf_get payload 0.
Proof. destruct payload as [|x l]; [congruence | reflexivity]. Qed.

(** C4. [ModRTU_CRC] is the table-free Modbus-RTU CRC-16 of the
    specification (start at 0xFFFF, XOR each byte into the low byte, then
    eight conditional shift/XOR-0xA001 steps), and a byte sequence followed
    by its checksum, low byte then high byte, passes the checksum
    comparison of the executor's response test; when the sequence starts
    with the bus address the whole response test accepts it.  That frame
    is the one the executor builds: for every command holding the
    sequence as its payload, [add_crc] turns it into exactly this frame,
    with [tx_length] its length, and the frame passes the executor's
    checksum comparison and, for a reply expected as long as the
    request and a payload starting with the bus address, its whole
    response test. *)
Theorem ModRTU_CRC_codec (payload : list Z) :
  Forall is_byte payload ->
  let frame := frame_with_crc payload in
  let len := Z.of_nat (length frame) in
  ModRTU_CRC payload (Z.of_nat (length payload)) = crc16_spec payload
  /\ Forall is_byte frame
  /\ crc_check len len frame = true
  /\ (buf_get payload 0 = VFD_RS485_ADDR -> response_ok len len frame = true)
  /\ (forall c : ModbusCommand,
        holds_payload c payload ->
        let sent := add_crc c in
        tx_bytes sent
        = payload ++ [crc_lo (ModRTU_CRC (msg c) (tx_length c));
                      crc_hi (ModRTU_CRC (msg c) (tx_length c))]
        /\ tx_bytes sent = frame
        /\ tx_length sent = len
        /\ critical sent = critical c
        /\ crc_check (tx_length sent) (tx_length sent) (tx_bytes sent) = true
        /\ (rx_length c = tx_length c ->
            buf_get payload 0 = VFD_RS485_ADDR ->
            response_ok (rx_length sent) (tx_length sent) (tx_bytes sent) = true)).
Proof.
  intros Hbytes frame len.
  assert (Hresp : buf_get payload 0 = VFD_RS485_ADDR -> response_ok len len frame = true).
  { intros Haddr. unfold response_ok.
    rewrite Z.eqb_refl. cbn [andb].
    assert (Hne : payload <> []).
    { intros ->. unfold buf_get, VFD_RS485_ADDR in Haddr. cbn in Haddr. lia. }
    unfold frame at 1, frame_with_crc.
    rewrite (buf_get_head payload _ Hne), Haddr, Z.eqb_refl. cbn [andb].
    apply crc_check_frame. }
  split; [|split; [|split; [|split]]].
  - rewrite ModRTU_CRC_whole. unfold crc16_spec.
    apply crc_fold_spec; [change (2 ^ 16) with 65536; lia | exact Hbytes].
  - unfold frame, frame_with_crc. apply Forall_app. split; [exact Hbytes|].
    apply Forall_cons; [|apply Forall_cons; [|apply Forall_nil]].
    + apply crc_lo_byte.
    + apply crc_hi_byte.
  - apply crc_check_frame.
  - exact Hresp.
  - intros c (pad & Hmsg & Htx & Hpad & Hfit) sent.
    assert (Hsent : tx_bytes sent = frame)
      by (apply (add_crc_tx_bytes c payload pad); assumption).
    assert (Hlen : tx_length sent = len).
    { unfold sent, add_crc, len, frame. cbn [tx_length].
      rewrite Htx, frame_with_crc_length.
      apply wrap8_small. change (2 ^ 8) with 256. lia. }
    assert (Hcrc : ModRTU_CRC (msg c) (tx_length c)
                   = ModRTU_CRC payload (Z.of_nat (length payload)))
      by (rewrite Hmsg, Htx, ModRTU_CRC_prefix, <- ModRTU_CRC_whole; reflexivity).
    split; [rewrite Hsent, Hcrc; reflexivity|].
    split; [exact Hsent|]. split; [exact Hlen|]. split; [reflexivity|].
    split; [rewrite Hsent, Hlen; apply crc_check_frame|].
    intros Hrx Haddr.
    assert (Hrlen : rx_length sent = tx_length sent)
      by (unfold sent, add_crc; cbn [tx_length rx_length]; rewrite Hrx; reflexivity).
    rewrite Hrlen, Hsent, Hlen. exact (Hresp Haddr).
Qed.

Lemma ModRTU_CRC_codec_witness :
  let c := Bench.speed_cmd 300 in
  Forall is_byte [0x01; 0x06; 0x10; 0x00; 0x01; 0x2C]
  /\ holds_payload c [0x01; 0x06; 0x10; 0x00; 0x01; 0x2C]
  /\ ModRTU_CRC [0x01; 0x06; 0x10; 0x00; 0x01; 0x2C] 6 = 0x478D
  /\ tx_bytes (add_crc c) = [0x01; 0x06; 0x10; 0x00; 0x01; 0x2C; 0x8D; 0x47]
  /\ response_ok (rx_length (add_crc c)) (tx_length (add_crc c)) (tx_bytes (add_crc c))
     = true.
Proof.
  intros c.
  assert (H : Forall is_byte [0x01; 0x06; 0x10; 0x00; 0x01; 0x2C])
    by (repeat constructor; unfold is_byte; lia).
  assert (Hc : holds_payload c [0x01; 0x06; 0x10; 0x00; 0x01; 0x2C]).
  { exists (repeat 0 10). split; [reflexivity|]. split; [reflexivity|].
    split; [cbn; lia | cbn; lia]. }
  split; [exact H|]. split; [exact Hc|].
  destruct (ModRTU_CRC_codec [0x01; 0x06; 0x10; 0x00; 0x01; 0x2C] H)
    as (_ & _ & _ & _ & Hexec).
  destruct (Hexec c Hc) as (_ & Hsent & _ & _ & _ & Hok).
  split; [reflexivity|].
  split; [rewrite Hsent; reflexivity|].
  apply Hok; reflexivity.
Defined.

(** The classic Modbus example frame 01 03 00 00 00 01 has CRC 0x0A84,
    sent as 84 0A. *)
Example crc_known_vector :
  frame_with_crc [0x01; 0x03; 0x00; 0x00; 0x00; 0x01]
  = [0x01; 0x03; 0x00; 0x00; 0x00; 0x01; 0x84; 0x0A].
Proof. reflexivity. Qed.

(** ** The spindle controller *)

Section ControllerFacts.
Context {consts : VFDConstants} {drive : VFDProtocol}.

Lemma apply_override_nonneg (rpm ovr : Z) : 0 <= apply_override rpm ovr.
Proof.
  unfold apply_override, wrap32. apply Z.div_pos; [|lia].
  apply Z.mod_pos_bound. lia.
Qed.

Lemma apply_limits_cases (lo hi rpm : Z) :
  0 <= lo -> 0 <= hi -> 0 <= rpm ->
  0 <= apply_limits lo hi rpm <= hi
  /\ (lo >= hi -> apply_limits lo hi rpm = hi)
  /\ (lo < hi -> rpm <> 0 -> rpm <= lo -> apply_limits lo hi rpm = lo)
  /\ (lo < hi -> lo <= rpm <= hi \/ rpm = 0 -> apply_limits lo hi rpm = rpm).
Proof.
  intros Hlo Hhi Hrpm. unfold apply_limits.
  destruct (Z.geb_spec lo hi), (Z.geb_spec rpm hi), (Z.eqb_spec rpm 0),
    (Z.leb_spec rpm lo); cbn [orb andb negb]; repeat split; intros; lia.
Qed.

(** After [set_rpm] on an initialized device the cache holds the scaled
    and limited request. *)
Lemma set_rpm_caches (m : Machine) (rpm : Z) :
  vfd_ok (vfd m) = true ->
  _current_rpm (vfd (fst (set_rpm rpm m)))
  = apply_limits (_min_rpm (vfd m)) (_max_rpm (vfd m))
                 (apply_override rpm (spindle_speed_ovr (sys m))).
Proof.
  intros Hok. unfold set_rpm. rewrite Hok. cbn [negb sys with_sys vfd].
  cbn [spindle_speed_ovr sys_set_spindle_speed].
  set (r := apply_limits _ _ _).
  destruct (Z.eqb_spec r (_current_rpm (vfd m))) as [E|E].
  - cbn. symmetry. exact E.
  - unfold xQueueSend. cbn [vfd_cmd_queue with_vfd with_sys].
    destruct (Z.of_nat (length (vfd_cmd_queue m)) <? VFD_RS485_QUEUE_SIZE);
      reflexivity.
Qed.

(** C3. The value [set_rpm] leaves in the cached [_current_rpm] is the
    override-scaled request passed through the limits: it lies in
    [0, _max_rpm]; it is [_max_rpm] when [_min_rpm >= _max_rpm];
    otherwise a nonzero scaled value at or below [_min_rpm] becomes
    [_min_rpm], and a scaled value that is 0 or within
    [_min_rpm, _max_rpm] is kept. *)
Theorem set_rpm_within_limits (m : Machine) (rpm : Z) :
  vfd_ok (vfd m) = true ->
  0 <= _min_rpm (vfd m) ->
  0 <= _max_rpm (vfd m) ->
  let lo := _min_rpm (vfd m) in
  let hi := _max_rpm (vfd m) in
  let scaled := apply_override rpm (spindle_speed_ovr (sys m)) in
  let cached := _current_rpm (vfd (fst (set_rpm rpm m))) in
  0 <= cached <= hi
  /\ (lo >= hi -> cached = hi)
  /\ (lo < hi -> scaled <> 0 -> scaled <= lo -> cached = lo)
  /\ (lo < hi -> lo <= scaled <= hi \/ scaled = 0 -> cached = scaled).
Proof.
  intros Hok Hlo Hhi lo hi scaled cached.
  unfold cached. rewrite set_rpm_caches by exact Hok.
  apply apply_limits_cases; [exact Hlo | exact Hhi | apply apply_override_nonneg].
Qed.

End ControllerFacts.

(** The scenario of the specification: limits 100..1000, override 100%,
    request 50: the cache holds 100. *)
Lemma set_rpm_within_limits_witness :
  _current_rpm (vfd (fst (@set_rpm Bench.consts Bench.full_drive 50
                                    (Bench.machine Bench.vfd0 [] 1)))) = 100.
Proof.
  pose proof (@set_rpm_within_limits Bench.consts Bench.full_drive
                (Bench.machine Bench.vfd0 [] 1) 50
                eq_refl ltac:(cbn; lia) ltac:(cbn; lia)) as (_ & _ & H & _).
  apply H; cbn; lia.
Defined.

Section SetRpmFacts.
Context {consts : VFDConstants} {drive : VFDProtocol}.

(** [set_rpm] when the value is already cached: only [sys.spindle_speed]
    is written. *)
Lemma set_rpm_same (m : Machine) (rpm : Z) :
  vfd_ok (vfd m) = true ->
  rpm_target rpm m = _current_rpm (vfd m) ->
  set_rpm rpm m
  = (with_sys m (sys_set_spindle_speed (sys m) (rpm_target rpm m)), rpm_target rpm m).
Proof.
  intros Hok Heq. unfold set_rpm. rewrite Hok. cbn [negb].
  fold (rpm_target rpm m). cbn [vfd with_sys].
  rewrite Heq, Z.eqb_refl. reflexivity.
Qed.

(** [set_rpm] with a new value and room in the queue. *)
Lemma set_rpm_sent (m : Machine) (rpm : Z) :
  vfd_ok (vfd m) = true ->
  rpm_target rpm m <> _current_rpm (vfd m) ->
  Z.of_nat (length (vfd_cmd_queue m)) < VFD_RS485_QUEUE_SIZE ->
  let m1 := fst (set_rpm rpm m) in
  snd (set_rpm rpm m) = rpm_target rpm m
  /\ vfd m1 = vfd_set_current_rpm (vfd m) (rpm_target rpm m)
  /\ sys m1 = sys_set_spindle_speed (sys m) (rpm_target rpm m)
  /\ vfd_cmd_queue m1 = vfd_cmd_queue m ++ [rpm_envelope (rpm_target rpm m) m]
  /\ trace m1 = trace m.
Proof.
  intros Hok Hne Hroom. unfold set_rpm. rewrite Hok. cbn [negb].
  fold (rpm_target rpm m). cbn [vfd with_sys].
  destruct (Z.eqb_spec (rpm_target rpm m) (_current_rpm (vfd m))) as [E|_]; [contradiction|].
  unfold xQueueSend. cbn [vfd_cmd_queue with_vfd with_sys vfd].
  destruct (Z.ltb_spec (Z.of_nat (length (vfd_cmd_queue m))) VFD_RS485_QUEUE_SIZE);
    [|lia].
  cbn. repeat split.
Qed.

(** [set_rpm] with a new value and a full queue. *)
Lemma set_rpm_dropped (m : Machine) (rpm : Z) :
  vfd_ok (vfd m) = true ->
  rpm_target rpm m <> _current_rpm (vfd m) ->
  VFD_RS485_QUEUE_SIZE <= Z.of_nat (length (vfd_cmd_queue m)) ->
  let m1 := fst (set_rpm rpm m) in
  snd (set_rpm rpm m) = rpm_target rpm m
  /\ vfd m1 = vfd_set_current_rpm (vfd m) (rpm_target rpm m)
  /\ sys m1 = sys_set_spindle_speed (sys m) (rpm_target rpm m)
  /\ vfd_cmd_queue m1 = vfd_cmd_queue m
  /\ trace m1 = trace m ++ [Log "VFD Queue Full" []].
Proof.
  intros Hok Hne Hfull. unfold set_rpm. rewrite Hok. cbn [negb].
  fold (rpm_target rpm m). cbn [vfd with_sys].
  destruct (Z.eqb_spec (rpm_target rpm m) (_current_rpm (vfd m))) as [E|_]; [contradiction|].
  unfold xQueueSend. cbn [vfd_cmd_queue with_vfd with_sys vfd].
  destruct (Z.ltb_spec (Z.of_nat (length (vfd_cmd_queue m))) VFD_RS485_QUEUE_SIZE);
    [lia|].
  cbn. repeat split.
Qed.

(** Whatever the first call did, a second identical call finds the value
    cached. *)
Lemma set_rpm_target_cached (m : Machine) (rpm : Z) :
  vfd_ok (vfd m) = true ->
  let m1 := fst (set_rpm rpm m) in
  vfd_ok (vfd m1) = true
  /\ rpm_target rpm m1 = rpm_target rpm m
  /\ _current_rpm (vfd m1) = rpm_target rpm m
  /\ spindle_speed (sys m1) = rpm_target rpm m.
Proof.
  intros Hok m1.
  destruct (Z.eq_dec (rpm_target rpm m) (_current_rpm (vfd m))) as [E|E].
  - unfold m1. rewrite (set_rpm_same m rpm Hok E). cbn. auto.
  - destruct (Z.lt_ge_cases (Z.of_nat (length (vfd_cmd_queue m))) VFD_RS485_QUEUE_SIZE)
      as [Hroom|Hfull].
    + destruct (set_rpm_sent m rpm Hok E Hroom) as (_ & Hv & Hs & _ & _).
      fold m1 in Hv, Hs. unfold rpm_target. rewrite Hv, Hs. cbn. auto.
    + destruct (set_rpm_dropped m rpm Hok E Hfull) as (_ & Hv & Hs & _ & _).
      fold m1 in Hv, Hs. unfold rpm_target. rewrite Hv, Hs. cbn. auto.
Qed.

(** C9 (amended). Two [set_rpm x] calls in a row on an initialized
    device, nothing happening in between, enqueue at most one envelope:
    the first call enqueues the speed envelope exactly when the scaled and
    limited value differs from the cached [_current_rpm] and the queue
    has room, and nothing otherwise; the second call always finds the
    value cached and returns without enqueuing or logging. *)
Theorem set_rpm_twice (m : Machine) (x : Z) :
  vfd_ok (vfd m) = true ->
  let m1 := fst (set_rpm x m) in
  let m2 := fst (set_rpm x m1) in
  vfd_cmd_queue m1
  = (if rpm_target x m =? _current_rpm (vfd m) then vfd_cmd_queue m
     else if Z.of_nat (length (vfd_cmd_queue m)) <? VFD_RS485_QUEUE_SIZE
          then vfd_cmd_queue m ++ [rpm_envelope (rpm_target x m) m]
          else vfd_cmd_queue m)
  /\ vfd_cmd_queue m2 = vfd_cmd_queue m1
  /\ trace m2 = trace m1
  /\ vfd m2 = vfd m1
  /\ snd (set_rpm x m1) = _current_rpm (vfd m1).
Proof.
  intros Hok m1 m2. split.
  - destruct (Z.eqb_spec (rpm_target x m) (_current_rpm (vfd m))) as [E|E].
    + unfold m1. rewrite (set_rpm_same m x Hok E). reflexivity.
    + destruct (Z.ltb_spec (Z.of_nat (length (vfd_cmd_queue m))) VFD_RS485_QUEUE_SIZE)
        as [Hroom|Hfull].
      * apply (set_rpm_sent m x Hok E Hroom).
      * apply (set_rpm_dropped m x Hok E Hfull).
  - destruct (set_rpm_target_cached m x Hok) as (Hok1 & Ht & Hc & _).
    fold m1 in Hok1, Ht, Hc.
    assert (E : rpm_target x m1 = _current_rpm (vfd m1)) by congruence.
    unfold m2. rewrite (set_rpm_same m1 x Hok1 E). cbn. auto.
Qed.

(** C10. With the queue full, [set_rpm] with a value that differs from
    the cache still stores the new value in [_current_rpm] and in
    [sys.spindle_speed] and returns it; the queue is untouched and the
    only trace of the failure is the log line.  An identical call right
    after, or after the queue has drained to any contents [q], enqueues
    nothing. *)
Theorem set_rpm_queue_full (m : Machine) (x : Z) :
  vfd_ok (vfd m) = true ->
  Z.of_nat (length (vfd_cmd_queue m)) = VFD_RS485_QUEUE_SIZE ->
  rpm_target x m <> _current_rpm (vfd m) ->
  let m1 := fst (set_rpm x m) in
  snd (set_rpm x m) = rpm_target x m
  /\ _current_rpm (vfd m1) = rpm_target x m
  /\ spindle_speed (sys m1) = rpm_target x m
  /\ vfd_cmd_queue m1 = vfd_cmd_queue m
  /\ trace m1 = trace m ++ [Log "VFD Queue Full" []]
  /\ vfd_cmd_queue (fst (set_rpm x m1)) = vfd_cmd_queue m
  /\ trace (fst (set_rpm x m1)) = trace m1
  /\ (forall q, vfd_cmd_queue (fst (set_rpm x (with_queue m1 q))) = q).
Proof.
  intros Hok Hfull Hne m1.
  destruct (set_rpm_dropped m x Hok Hne ltac:(lia)) as (Hr & Hv & Hs & Hq & Ht).
  fold m1 in Hv, Hs, Hq, Ht.
  destruct (set_rpm_target_cached m x Hok) as (Hok1 & Htg & Hc & Hsp).
  fold m1 in Hok1, Htg, Hc, Hsp.
  assert (E : rpm_target x m1 = _current_rpm (vfd m1)) by congruence.
  repeat split; try assumption.
  - rewrite (set_rpm_same m1 x Hok1 E). cbn. exact Hq.
  - rewrite (set_rpm_same m1 x Hok1 E). reflexivity.
  - intros q. rewrite (set_rpm_same (with_queue m1 q) x); auto.
Qed.

End SetRpmFacts.

(** Speed 0 requested twice from the stopped spindle with an empty queue:
    the value is cached already, so no envelope at all is enqueued.  Speed
    500 requested twice with the queue full: the envelope is dropped. *)
Lemma set_rpm_twice_none :
  let m := Bench.machine Bench.vfd0 [] 1 in
  let m1 := fst (@set_rpm Bench.consts Bench.full_drive 0 m) in
  let m2 := fst (@set_rpm Bench.consts Bench.full_drive 0 m1) in
  let f := Bench.stopped_queue_full in
  let f1 := fst (@set_rpm Bench.consts Bench.full_drive 500 f) in
  let f2 := fst (@set_rpm Bench.consts Bench.full_drive 500 f1) in
  vfd_ok (vfd m) = true
  /\ length (vfd_cmd_queue m2) = length (vfd_cmd_queue m)
  /\ length (vfd_cmd_queue m2) <> S (length (vfd_cmd_queue m))
  /\ vfd_ok (vfd f) = true
  /\ length (vfd_cmd_queue f2) = length (vfd_cmd_queue f)
  /\ length (vfd_cmd_queue f2) <> S (length (vfd_cmd_queue f)).
Proof. cbn. repeat split; discriminate. Qed.

Lemma set_rpm_twice_witness :
  let m := Bench.machine Bench.vfd0 [] 1 in
  let m1 := fst (@set_rpm Bench.consts Bench.full_drive 50 m) in
  let m2 := fst (@set_rpm Bench.consts Bench.full_drive 50 m1) in
  vfd_cmd_queue m2 = vfd_cmd_queue m1 /\ length (vfd_cmd_queue m2) = 1%nat.
Proof.
  intros m m1 m2.
  destruct (@set_rpm_twice Bench.consts Bench.full_drive m 50 eq_refl)
    as (Hq1 & Hq2 & _).
  split; [exact Hq2|].
  fold m1 m2 in Hq2. rewrite Hq2. reflexivity.
Defined.

Lemma set_rpm_queue_full_witness :
  let m := Bench.stopped_queue_full in
  let m1 := fst (@set_rpm Bench.consts Bench.full_drive 500 m) in
  _current_rpm (vfd m1) = 500
  /\ spindle_speed (sys m1) = 500
  /\ length (vfd_cmd_queue m1) = 10%nat
  /\ vfd_cmd_queue (fst (@set_rpm Bench.consts Bench.full_drive 500 m1)) = vfd_cmd_queue m.
Proof.
  intros m m1.
  destruct (@set_rpm_queue_full Bench.consts Bench.full_drive m 500
              eq_refl eq_refl ltac:(cbn; lia))
    as (_ & Hc & Hs & Hq & _ & Hq2 & _).
  fold m1 in Hc, Hs, Hq, Hq2.
  split; [exact Hc | split; [exact Hs | split; [|exact Hq2]]].
  rewrite Hq. reflexivity.
Defined.

Section SetStateFacts.
Context {consts : VFDConstants} {drive : VFDProtocol}.

(** [set_mode] on an uninitialized device does nothing. *)
Lemma set_mode_not_ok (mode : SpindleState) (crit : bool) (m : Machine) :
  vfd_ok (vfd m) = false -> set_mode mode crit m = (m, false).
Proof. intros H. unfold set_mode. rewrite H. reflexivity. Qed.

(** [set_rpm] on an uninitialized device does nothing. *)
Lemma set_rpm_not_ok (rpm : Z) (m : Machine) :
  vfd_ok (vfd m) = false -> set_rpm rpm m = (m, 0).
Proof. intros H. unfold set_rpm. rewrite H. reflexivity. Qed.

(** [set_mode Disable]: the queue is emptied, then receives the one
    disable envelope; only [_current_state] changes besides. *)
Lemma set_mode_disable (crit : bool) (m : Machine) :
  vfd_ok (vfd m) = true ->
  fst (set_mode Disable crit m)
  = mkMachine (sys m) (settings m) (vfd_set_current_state (vfd m) Disable)
              [mode_envelope Disable crit m]
              (unresponsive m) (pollidx m) (next_cmd m) (uart_reads m) (trace m).
Proof. intros H. unfold set_mode. rewrite H. reflexivity. Qed.

(** The zero request is not changed by the override. *)
Lemma apply_override_zero (ovr : Z) : apply_override 0 ovr = 0.
Proof. reflexivity. Qed.

(** What [set_state Disable 0] does to an initialized device whose
    cached state is not [Disable], abort inactive. *)
Lemma set_state_disable_effect (m : Machine) :
  abort (sys m) = false ->
  vfd_ok (vfd m) = true ->
  _current_state (vfd m) <> Disable ->
  let z := rpm_target 0 m in
  let crit := State_eqb (state (sys m)) Cycle in
  let m' := set_state Disable 0 m in
  vfd_cmd_queue m'
  = mode_envelope Disable crit m
    :: (if z =? _current_rpm (vfd m) then []
        else [rpm_envelope z (with_vfd m (vfd_set_current_state (vfd m) Disable))])
  /\ _current_state (vfd m') = Disable
  /\ _current_rpm (vfd m') = z
  /\ spindle_speed (sys m') = 0
  /\ trace m' = trace m.
Proof.
  intros Habort Hok Hst z crit m'.
  assert (Hneq : SpindleState_eqb (_current_state (vfd m)) Disable = false)
    by (destruct (_current_state (vfd m)); [contradiction | reflexivity | reflexivity]).
  unfold m', set_state. rewrite Habort, Hneq.
  cbn [negb SpindleState_eqb]. rewrite orb_false_r. fold crit.
  rewrite (set_mode_disable crit m Hok).
  set (ma := mkMachine _ _ _ _ _ _ _ _ _).
  assert (Hoka : vfd_ok (vfd ma) = true) by exact Hok.
  assert (Hza : rpm_target 0 ma = z) by reflexivity.
  assert (Hcur : _current_rpm (vfd ma) = _current_rpm (vfd m)) by reflexivity.
  clearbody z.
  destruct (Z.eqb_spec z (_current_rpm (vfd m))) as [E|E].
  - assert (Ea : rpm_target 0 ma = _current_rpm (vfd ma)) by congruence.
    rewrite (set_rpm_same ma 0 Hoka Ea), Hza. cbn. auto.
  - assert (Ea : rpm_target 0 ma <> _current_rpm (vfd ma)) by congruence.
    assert (Hroom : Z.of_nat (length (vfd_cmd_queue ma)) < VFD_RS485_QUEUE_SIZE)
      by (cbn; reflexivity).
    destruct (set_rpm_sent ma 0 Hoka Ea Hroom) as (_ & Hv & Hs & Hq & Ht).
    rewrite Hza in Hv, Hs, Hq.
    destruct (fst (set_rpm 0 ma)) as [s1 se1 v1 q1 u1 p1 n1 r1 t1].
    cbn in Hv, Hs, Hq, Ht. subst v1 s1 q1 t1.
    cbn. auto.
Qed.

(** C2 (amended). On an initialized device whose cached state is not
    [Disable], abort inactive, [set_state Disable 0] discards whatever was
    pending and leaves the queue holding the disable envelope first,
    followed by one speed envelope exactly when the limited zero request
    differs from the cached [_current_rpm]: one envelope when the two are
    equal, two otherwise. *)
Theorem set_state_disable_queue (m : Machine) :
  abort (sys m) = false ->
  vfd_ok (vfd m) = true ->
  _current_state (vfd m) <> Disable ->
  let z := rpm_target 0 m in
  let queue' := vfd_cmd_queue (set_state Disable 0 m) in
  queue'
  = mode_envelope Disable (State_eqb (state (sys m)) Cycle) m
    :: (if z =? _current_rpm (vfd m) then []
        else [rpm_envelope z (with_vfd m (vfd_set_current_state (vfd m) Disable))])
  /\ (forall pending, vfd_cmd_queue (set_state Disable 0 (with_queue m pending)) = queue')
  /\ (length queue' = 1%nat <-> z = _current_rpm (vfd m))
  /\ (length queue' = 2%nat <-> z <> _current_rpm (vfd m)).
Proof.
  intros Habort Hok Hst z queue'.
  destruct (set_state_disable_effect m Habort Hok Hst) as (Hq & _).
  fold z queue' in Hq.
  split; [exact Hq|]. split.
  - intros pending.
    destruct (set_state_disable_effect (with_queue m pending) Habort Hok Hst) as (Hp & _).
    rewrite Hp, Hq. reflexivity.
  - rewrite Hq.
    destruct (Z.eqb_spec z (_current_rpm (vfd m))) as [E|E]; cbn [length];
      split; split; intros; try reflexivity; try assumption;
      try discriminate; contradiction.
Qed.

Lemma set_critical_twice (c : ModbusCommand) (a b : bool) :
  set_critical (set_critical c a) b = set_critical c b.
Proof. reflexivity. Qed.

(** C8 (amended). On an initialized device [stop] leaves the cached
    state [Disable] and the queue holding exactly one non-critical
    disable envelope, and touches neither [_current_rpm] nor
    [sys.spindle_speed].  [set_state Disable 0] (abort inactive, cached
    state not [Disable]) also leaves the cached state [Disable] and puts
    the same disable envelope first (critical exactly when a cycle is
    running), without dwelling; but it caches the limited zero rpm and
    sets [sys.spindle_speed] to 0, and its queue holds, behind the
    disable envelope, a non-critical speed envelope for the limited zero
    rpm exactly when that value differs from the cached one.  The two
    agree on queue, [_current_rpm] and [sys.spindle_speed] when no cycle
    is running, the cache already holds the limited zero rpm and
    [sys.spindle_speed] is already 0. *)
Theorem stop_vs_set_state_disable (m : Machine) :
  vfd_ok (vfd m) = true ->
  let s := stop m in
  get_state s = Disable
  /\ vfd_cmd_queue s = [mode_envelope Disable false m]
  /\ _current_rpm (vfd s) = _current_rpm (vfd m)
  /\ spindle_speed (sys s) = spindle_speed (sys m)
  /\ trace s = trace m
  /\ (abort (sys m) = false ->
      _current_state (vfd m) <> Disable ->
      let t := set_state Disable 0 m in
      get_state t = Disable
      /\ trace t = trace m
      /\ vfd_cmd_queue t
         = mode_envelope Disable (State_eqb (state (sys m)) Cycle) m
           :: (if rpm_target 0 m =? _current_rpm (vfd m) then []
               else [rpm_envelope (rpm_target 0 m)
                                  (with_vfd m (vfd_set_current_state (vfd m) Disable))])
      /\ map critical (vfd_cmd_queue t)
         = State_eqb (state (sys m)) Cycle
           :: (if rpm_target 0 m =? _current_rpm (vfd m) then [] else [false])
      /\ map (fun c => set_critical c false) (firstn 1 (vfd_cmd_queue t))
         = vfd_cmd_queue s
      /\ _current_rpm (vfd t) = rpm_target 0 m
      /\ spindle_speed (sys t) = 0
      /\ (state (sys m) <> Cycle ->
          rpm_target 0 m = _current_rpm (vfd m) ->
          spindle_speed (sys m) = 0 ->
          vfd_cmd_queue t = vfd_cmd_queue s
          /\ _current_rpm (vfd t) = _current_rpm (vfd s)
          /\ spindle_speed (sys t) = spindle_speed (sys s))).
Proof.
  intros Hok s.
  assert (Hs : s = mkMachine (sys m) (settings m) (vfd_set_current_state (vfd m) Disable)
                             [mode_envelope Disable false m]
                             (unresponsive m) (pollidx m) (next_cmd m) (uart_reads m)
                             (trace m))
    by (apply set_mode_disable; exact Hok).
  rewrite Hs. cbn [get_state vfd vfd_cmd_queue sys trace].
  do 5 (split; [reflexivity|]).
  intros Habort Hst. set (t := set_state Disable 0 m).
  destruct (set_state_disable_effect m Habort Hok Hst) as (Hq & Hd & Hc & Hsp & Ht).
  fold t in Hq, Hd, Hc, Hsp, Ht.
  split; [exact Hd|]. split; [exact Ht|]. split; [exact Hq|]. split.
  { rewrite Hq.
    destruct (rpm_target 0 m =? _current_rpm (vfd m)); reflexivity. }
  split.
  { rewrite Hq. cbn [firstn map]. unfold mode_envelope.
    rewrite set_critical_twice. reflexivity. }
  split; [exact Hc|]. split; [exact Hsp|].
  intros Hcycle Hz Hzero.
  assert (Hnc : State_eqb (state (sys m)) Cycle = false)
    by (destruct (state (sys m)); try reflexivity; contradiction).
  rewrite Hq, Hnc, Hz, Z.eqb_refl, Hc, Hsp, Hz. cbn. auto.
Qed.

End SetStateFacts.

(** The running spindle (500 rpm, three commands pending) told to stop:
    the disable envelope and the zero-speed envelope are both queued.
    With an abort active the call returns at once and the three pending
    envelopes stay. *)
Lemma set_state_disable_two_envelopes :
  let m := Bench.running_with_backlog in
  let m' := @set_state Bench.consts Bench.full_drive Disable 0 m in
  let a := Bench.running_aborting in
  let a' := @set_state Bench.consts Bench.full_drive Disable 0 a in
  vfd_ok (vfd m) = true
  /\ _current_state (vfd m) <> Disable
  /\ length (vfd_cmd_queue m) = 3%nat
  /\ length (vfd_cmd_queue m') = 2%nat
  /\ length (vfd_cmd_queue m') <> 1%nat
  /\ vfd_ok (vfd a) = true
  /\ _current_state (vfd a) <> Disable
  /\ length (vfd_cmd_queue a') = 3%nat
  /\ length (vfd_cmd_queue a') <> 1%nat.
Proof. cbn. repeat split; discriminate. Qed.

Lemma set_state_disable_queue_witness :
  length (vfd_cmd_queue (@set_state Bench.consts Bench.full_drive Disable 0
                                     Bench.running_with_backlog)) = 2%nat.
Proof.
  destruct (@set_state_disable_queue Bench.consts Bench.full_drive
              Bench.running_with_backlog eq_refl eq_refl ltac:(discriminate))
    as (_ & _ & _ & H).
  apply H. cbn. lia.
Defined.

(** On the running spindle [stop] and [set_state Disable 0] differ in the
    queue, in the cached rpm and in [sys.spindle_speed].  With an abort
    active only [stop] disables; on the stopped spindle only [stop]
    enqueues a disable envelope. *)
Lemma stop_differs_from_set_state_disable :
  let m := Bench.running_with_backlog in
  let s := @stop Bench.consts Bench.full_drive m in
  let t := @set_state Bench.consts Bench.full_drive Disable 0 m in
  let a := Bench.running_aborting in
  let i := Bench.machine Bench.vfd0 [] 1 in
  (vfd_ok (vfd m) = true
   /\ vfd_cmd_queue s <> vfd_cmd_queue t
   /\ _current_rpm (vfd s) <> _current_rpm (vfd t)
   /\ spindle_speed (sys s) <> spindle_speed (sys t))
  /\ (vfd_ok (vfd a) = true
      /\ get_state (@stop Bench.consts Bench.full_drive a) = Disable
      /\ get_state (@set_state Bench.consts Bench.full_drive Disable 0 a) = Cw)
  /\ (vfd_ok (vfd i) = true
      /\ length (vfd_cmd_queue (@stop Bench.consts Bench.full_drive i)) = 1%nat
      /\ vfd_cmd_queue (@set_state Bench.consts Bench.full_drive Disable 0 i) = []).
Proof. cbn. repeat split; discriminate. Qed.

Lemma stop_vs_set_state_disable_witness :
  let m := Bench.running_with_backlog in
  length (vfd_cmd_queue (@stop Bench.consts Bench.full_drive m)) = 1%nat
  /\ _current_rpm (vfd (@set_state Bench.consts Bench.full_drive Disable 0 m)) = 0
  /\ map critical (vfd_cmd_queue (@set_state Bench.consts Bench.full_drive Disable 0 m))
     = [false; false].
Proof.
  intros m.
  destruct (@stop_vs_set_state_disable Bench.consts Bench.full_drive m eq_refl)
    as (_ & Hq & _ & _ & _ & Ht).
  destruct (Ht eq_refl ltac:(discriminate)) as (_ & _ & _ & Hcr & _ & Hc & _).
  split; [rewrite Hq; reflexivity|].
  split; [rewrite Hc; reflexivity | rewrite Hcr; reflexivity].
Defined.

Section InitFacts.
Context {consts : VFDConstants} {drive : VFDProtocol}.

Lemma count_writes_app (t u : list Event) :
  count_writes (t ++ u) = (count_writes t + count_writes u)%nat.
Proof. unfold count_writes. rewrite filter_app, length_app. reflexivity. Qed.

Lemma count_writes_emit (e : Event) (m : Machine) :
  is_uart_write e = false -> count_writes (trace (emit e m)) = count_writes (trace m).
Proof.
  intros He. unfold emit. cbn [trace with_trace].
  rewrite count_writes_app. unfold count_writes at 2. cbn [filter].
  rewrite He. cbn [length]. lia.
Qed.

(** [get_pins_and_settings] succeeds exactly when there is no
    configuration fault; it touches neither the queue nor [vfd_ok], and
    writes nothing to the bus. *)
Lemma get_pins_and_settings_spec (def : MachineDef) (m : Machine) :
  let r := get_pins_and_settings def m in
  snd r = negb (config_fault def (settings m))
  /\ vfd_cmd_queue (fst r) = vfd_cmd_queue m
  /\ vfd_ok (vfd (fst r)) = vfd_ok (vfd m)
  /\ _task_running (vfd (fst r)) = _task_running (vfd m)
  /\ count_writes (trace (fst r)) = count_writes (trace m).
Proof.
  unfold get_pins_and_settings, config_fault.
  destruct (VFD_RS485_TXD_PIN def), (VFD_RS485_RXD_PIN def), (VFD_RS485_RTS_PIN def);
    cbn [settings emit with_trace with_vfd];
    destruct (laser_mode (settings m)); cbn;
    unfold count_writes; rewrite ?filter_app; cbn [filter is_uart_write];
    rewrite ?app_nil_r; repeat split.
Qed.

(** [init] with a configuration fault. *)
Lemma init_config_fault (def : MachineDef) (hw : UartDriver) (m : Machine) :
  config_fault def (settings m) = true ->
  vfd_ok (vfd (init def hw m)) = false
  /\ vfd_cmd_queue (init def hw m) = vfd_cmd_queue m
  /\ _task_running (vfd (init def hw m)) = _task_running (vfd m)
  /\ count_writes (trace (init def hw m)) = count_writes (trace m).
Proof.
  intros Hfault. unfold init.
  set (m0 := emit _ (with_vfd m (vfd_set_ok (vfd m) false))).
  destruct (get_pins_and_settings_spec def m0) as (Hok & Hq & _ & Ht & Hw).
  change (settings m0) with (settings m) in Hok. rewrite Hfault in Hok.
  destruct (get_pins_and_settings def m0) as [m1 ok]. cbn [fst snd] in *.
  subst ok. cbn [negb].
  rewrite count_writes_emit by reflexivity.
  cbn [vfd with_vfd emit with_trace vfd_cmd_queue trace vfd_set_ok vfd_ok _task_running].
  rewrite Hq, Ht, Hw. unfold m0. rewrite count_writes_emit by reflexivity.
  cbn. auto.
Qed.

(** [init] with no configuration fault and a working UART driver. *)
Lemma init_success (def : MachineDef) (hw : UartDriver) (m : Machine) :
  config_fault def (settings m) = false ->
  uart_param_config_ok hw = true ->
  uart_set_pin_ok hw = true ->
  uart_driver_install_ok hw = true ->
  uart_set_mode_ok hw = true ->
  vfd_ok (vfd (init def hw m)) = true.
Proof.
  intros Hfault H1 H2 H3 H4. unfold init.
  set (m0 := emit _ (with_vfd m (vfd_set_ok (vfd m) false))).
  destruct (get_pins_and_settings_spec def m0) as (Hok & _).
  change (settings m0) with (settings m) in Hok. rewrite Hfault in Hok.
  destruct (get_pins_and_settings def m0) as [m1 ok]. cbn [fst snd] in *.
  subst ok. rewrite H1, H2, H3, H4. cbn [negb].
  destruct (_task_running (vfd (emit UartConfigured (emit UartDriverDelete m1))));
    reflexivity.
Qed.

(** [set_state] on an uninitialized device: nothing is enqueued and the
    bus stays quiet, but unless abort is active the requested state is
    recorded in the cache. *)
Lemma set_state_not_ok (st : SpindleState) (rpm : Z) (m : Machine) :
  vfd_ok (vfd m) = false ->
  let m2 := set_state st rpm m in
  vfd_cmd_queue m2 = vfd_cmd_queue m
  /\ count_writes (trace m2) = count_writes (trace m)
  /\ vfd m2 = (if abort (sys m) then vfd m else vfd_set_current_state (vfd m) st).
Proof.
  intros Hok. unfold set_state.
  destruct (abort (sys m)); [cbn; auto|].
  rewrite (set_mode_not_ok st _ m Hok). cbn [fst].
  rewrite !(set_rpm_not_ok rpm m Hok). cbn [fst].
  destruct (SpindleState_eqb (_current_state (vfd m)) st) eqn:Est; cbn [negb].
  - destruct (_current_rpm (vfd m) =? rpm); cbn [negb];
      cbn [vfd_cmd_queue with_sys with_vfd trace vfd]; auto.
  - destruct (SpindleState_eqb st Disable); cbn [vfd with_sys]; rewrite ?Est;
      cbn [negb]; cbn [vfd_cmd_queue with_sys with_vfd emit with_trace trace vfd];
      unfold count_writes; rewrite filter_app; cbn [filter is_uart_write];
      rewrite app_nil_r; repeat split.
Qed.

(** C7 (amended). After an [init] that hits a configuration fault (a
    missing pin or laser mode) the device is uninitialized ([vfd_ok] is
    false), with the queue and the bus untouched.  From then on
    [set_mode], [set_rpm] and [stop] change nothing, and [set_state]
    (for instance [set_state Cw 500]) enqueues nothing, writes nothing
    to the bus and leaves [vfd_ok] false; unless abort is active it does
    record the requested state in the cached [_current_state].  An
    [init] without fault and with a working UART driver sets [vfd_ok]
    again. *)
Theorem failed_init_disables_device (def : MachineDef) (hw : UartDriver) (m : Machine) :
  config_fault def (settings m) = true ->
  let m1 := init def hw m in
  vfd_ok (vfd m1) = false
  /\ vfd_cmd_queue m1 = vfd_cmd_queue m
  /\ count_writes (trace m1) = count_writes (trace m)
  /\ (forall mode crit, set_mode mode crit m1 = (m1, false))
  /\ (forall rpm, set_rpm rpm m1 = (m1, 0))
  /\ stop m1 = m1
  /\ (forall st rpm,
        let m2 := set_state st rpm m1 in
        vfd_cmd_queue m2 = vfd_cmd_queue m1
        /\ count_writes (trace m2) = count_writes (trace m1)
        /\ vfd_ok (vfd m2) = false
        /\ vfd m2 = (if abort (sys m1) then vfd m1
                     else vfd_set_current_state (vfd m1) st))
  /\ (forall def' hw' m',
        config_fault def' (settings m') = false ->
        uart_param_config_ok hw' = true ->
        uart_set_pin_ok hw' = true ->
        uart_driver_install_ok hw' = true ->
        uart_set_mode_ok hw' = true ->
        vfd_ok (vfd (init def' hw' m')) = true).
Proof.
  intros Hfault m1.
  destruct (init_config_fault def hw m Hfault) as (Hok & Hq & _ & Hw).
  fold m1 in Hok, Hq, Hw.
  split; [exact Hok|]. split; [exact Hq|]. split; [exact Hw|].
  split; [intros; apply set_mode_not_ok; exact Hok|].
  split; [intros; apply set_rpm_not_ok; exact Hok|].
  split; [unfold stop; rewrite set_mode_not_ok by exact Hok; reflexivity|].
  split; [|intros; apply init_success; assumption].
  intros st rpm m2.
  destruct (set_state_not_ok st rpm m1 Hok) as (H1 & H2 & H3).
  fold m2 in H1, H2, H3.
  split; [exact H1|]. split; [exact H2|]. split; [|exact H3].
  rewrite H3. destruct (abort (sys m1)); [exact Hok|].
  cbn. exact Hok.
Qed.

End InitFacts.

(** A machine definition without the RTS pin: [init] fails, and the next
    [set_state Cw 500] changes the cached state from [Disable] to [Cw]. *)
Lemma failed_init_set_state_changes_state :
  let m1 := init Bench.no_rts_pin Bench.uart_fine
                  (Bench.machine Bench.vfd_off [] 0) in
  let m2 := @set_state Bench.consts Bench.full_drive Cw 500 m1 in
  config_fault Bench.no_rts_pin (settings (Bench.machine Bench.vfd_off [] 0)) = true
  /\ vfd_ok (vfd m1) = false
  /\ get_state m1 = Disable
  /\ get_state m2 = Cw
  /\ vfd m2 <> vfd m1.
Proof. cbn. repeat split. discriminate. Qed.

Lemma failed_init_disables_device_witness :
  let m1 := init Bench.no_rts_pin Bench.uart_fine
                  (Bench.machine Bench.vfd_off [] 0) in
  vfd_ok (vfd m1) = false
  /\ vfd_cmd_queue (@set_state Bench.consts Bench.full_drive Cw 500 m1) = [].
Proof.
  intros m1.
  destruct (@failed_init_disables_device Bench.consts Bench.full_drive
              Bench.no_rts_pin Bench.uart_fine (Bench.machine Bench.vfd_off [] 0) eq_refl)
    as (Hok & Hq & _ & _ & _ & _ & Hs & _).
  split; [exact Hok|].
  destruct (Hs Cw 500) as (Hq2 & _).
  fold m1 in Hq, Hq2. rewrite Hq2, Hq. reflexivity.
Defined.

(** ** The communications task *)

(** Unfold the field updates and project the resulting records. *)
Ltac machine_simpl :=
  cbn [emit with_trace with_uart_reads with_unresponsive with_vfd
       with_next_cmd with_pollidx with_queue with_sys
       sys settings vfd vfd_cmd_queue unresponsive pollidx next_cmd uart_reads trace
       fst snd] in *.

Lemma machine_ext (a b : Machine) :
  sys a = sys b -> settings a = settings b -> vfd a = vfd b ->
  vfd_cmd_queue a = vfd_cmd_queue b -> unresponsive a = unresponsive b ->
  pollidx a = pollidx b -> next_cmd a = next_cmd b ->
  uart_reads a = uart_reads b -> trace a = trace b -> a = b.
Proof. destruct a, b. cbn. intros; subst; reflexivity. Qed.

Lemma count_alarms_app (t u : list Event) :
  count_alarms (t ++ u) = (count_alarms t + count_alarms u)%nat.
Proof. unfold count_alarms. rewrite filter_app, length_app. reflexivity. Qed.

Lemma count_alarms_attempts (c : ModbusCommand) (k : nat) :
  count_alarms (concat (repeat (attempt_events c) k)) = 0%nat.
Proof.
  induction k as [|k IH]; [reflexivity|].
  cbn [repeat concat]. rewrite count_alarms_app, IH. reflexivity.
Qed.

Lemma count_writes_attempts (c : ModbusCommand) (k : nat) :
  count_writes (concat (repeat (attempt_events c) k)) = k.
Proof.
  induction k as [|k IH]; [reflexivity|].
  cbn [repeat concat]. rewrite count_writes_app, IH. reflexivity.
Qed.

(** The state after [k] unanswered attempts. *)
Lemma failed_attempts_fields (k : nat) (m : Machine) :
  let mk := Nat.iter k after_failed_attempt m in
  sys mk = sys m /\ vfd mk = vfd m /\ vfd_cmd_queue mk = vfd_cmd_queue m
  /\ unresponsive mk = unresponsive m /\ pollidx mk = pollidx m
  /\ next_cmd mk = next_cmd m
  /\ uart_reads mk = (uart_reads m + k)%nat
  /\ trace mk = trace m ++ concat (repeat (attempt_events (next_cmd m)) k).
Proof.
  induction k as [|k IH]; cbn [repeat concat]; cbv zeta in *.
  - change (Nat.iter 0 after_failed_attempt m) with m.
    rewrite app_nil_r, Nat.add_0_r. repeat split.
  - destruct IH as (H1 & H2 & H3 & H4 & H5 & H6 & H7 & H8).
    rewrite Nat.iter_succ.
    set (mk := Nat.iter k after_failed_attempt m) in *.
    unfold after_failed_attempt.
    cbn [sys vfd vfd_cmd_queue unresponsive pollidx next_cmd uart_reads trace].
    rewrite H1, H2, H3, H4, H5, H6, H7, H8.
    repeat split; [lia|].
    rewrite <- app_assoc. f_equal.
    clear. induction k as [|k IH]; cbn [repeat concat].
    + rewrite app_nil_r. reflexivity.
    + rewrite <- app_assoc, IH. reflexivity.
Qed.

Section ExecutorFacts.
Context {consts : VFDConstants} {drive : VFDProtocol}.
Variable link : nat -> Z * list Z.

(** An attempt whose response fails the test only costs the delay. *)
Lemma attempt_failed (parser : option response_parser) (rc : Z) (m : Machine) :
  response_at link m 0 = false ->
  attempt link parser rc m = (rc, after_failed_attempt m).
Proof.
  unfold response_at, attempt. rewrite Nat.add_0_r.
  cbn [emit with_trace uart_reads next_cmd with_uart_reads].
  destruct (link (uart_reads m)) as [len rx]. cbn [fst snd].
  intros ->. unfold after_failed_attempt, attempt_events.
  f_equal. apply machine_ext; machine_simpl; rewrite <- ?app_assoc; reflexivity.
Qed.

Lemma response_at_shift (m : Machine) (i : nat) :
  response_at link (after_failed_attempt m) i = response_at link m (S i).
Proof.
  unfold response_at, after_failed_attempt. cbn [next_cmd uart_reads].
  replace (S (uart_reads m) + i)%nat with (uart_reads m + S i)%nat by lia.
  reflexivity.
Qed.

(** [k] unanswered attempts in a row. *)
Lemma retry_loop_failures (k fuel : nat) (parser : option response_parser)
      (rc : Z) (m : Machine) :
  (forall i, (i < k)%nat -> response_at link m i = false) ->
  rc + Z.of_nat k <= MAX_RETRIES ->
  retry_loop link (k + fuel) parser rc m
  = retry_loop link fuel parser (rc + Z.of_nat k) (Nat.iter k after_failed_attempt m).
Proof.
  revert rc m. induction k as [|k IH]; intros rc m Hfail Hle.
  - change (Nat.iter 0 after_failed_attempt m) with m.
    cbn [Nat.add Z.of_nat]. rewrite Z.add_0_r. reflexivity.
  - cbn [Nat.add retry_loop].
    destruct (Z.ltb_spec rc MAX_RETRIES) as [_|Hge]; [|lia].
    rewrite attempt_failed by (apply Hfail; lia).
    rewrite IH.
    + rewrite Nat.iter_succ_r. f_equal. lia.
    + intros i Hi. rewrite response_at_shift. apply Hfail. lia.
    + lia.
Qed.

(** The retry loop always leaves by its own condition: the fuel it is
    given in [transact] is enough. *)
Lemma retry_loop_total (fuel : nat) (parser : option response_parser)
      (rc : Z) (m : Machine) :
  (Z.to_nat (MAX_RETRIES - rc) <= fuel)%nat ->
  exists rc' m', retry_loop link fuel parser rc m = Some (rc', m').
Proof.
  revert rc m. induction fuel as [|fuel IH]; intros rc m Hfuel; cbn [retry_loop].
  - destruct (Z.ltb_spec rc MAX_RETRIES); [lia | eauto].
  - destruct (Z.ltb_spec rc MAX_RETRIES) as [Hlt|Hge]; [|eauto].
    destruct (attempt link parser rc m) as [rc1 m1] eqn:Ea.
    apply IH.
    assert (Hrc : rc1 = rc \/ rc1 = MAX_RETRIES + 1).
    { revert Ea. unfold attempt.
      destruct (link _) as [len rx].
      destruct (response_ok _ _ _); [|intros [= <- _]; auto].
      destruct parser as [p|]; [|intros [= <- _]; auto].
      destruct (p _ _) as [parsed v]. destruct parsed; cbn [negb];
        intros [= <- _]; auto. }
    destruct Hrc; subst rc1; lia.
Qed.

Theorem vfd_cmd_iter_total (m : Machine) :
  exists m', vfd_cmd_iter link m = Some m'.
Proof.
  unfold vfd_cmd_iter. destruct (fetch m) as [m1 [parser|]]; [|eauto].
  unfold transact.
  destruct (retry_loop_total (Z.to_nat MAX_RETRIES) parser 0
              (with_next_cmd m1 (add_crc (next_cmd m1)))) as (rc & m2 & E).
  - rewrite Z.sub_0_r. lia.
  - rewrite E. eauto.
Qed.

Theorem vfd_cmd_task_total (iterations : nat) (m : Machine) :
  exists m', vfd_cmd_task link iterations m = Some m'.
Proof.
  revert m. induction iterations as [|n IH]; intros m; cbn [vfd_cmd_task]; [eauto|].
  destruct (vfd_cmd_iter_total m) as [m1 E]. rewrite E. apply IH.
Qed.

Lemma quiet_step_trans (a b c : Machine) :
  quiet_step a b -> quiet_step b c -> quiet_step a c.
Proof.
  unfold quiet_step. intros (? & ? & ? & ?) (? & ? & ? & ?).
  repeat split; congruence.
Qed.

Lemma choose_request_quiet (m : Machine) : quiet_step m (fst (choose_request m)).
Proof.
  unfold choose_request, quiet_step. cbv zeta.
  destruct (pollidx _ =? 0); [repeat split|].
  destruct (_max_rpm _ =? 0); [|repeat split].
  destruct (get_max_rpm _ _) as [c [p|]]; repeat split.
Qed.

Lemma xQueueReceive_quiet (m : Machine) : quiet_step m (fst (xQueueReceive m)).
Proof.
  unfold xQueueReceive, quiet_step.
  destruct (vfd_cmd_queue m); repeat split.
Qed.

Lemma poll_status_quiet (m : Machine) : quiet_step m (fst (poll_status m)).
Proof.
  unfold poll_status, quiet_step.
  destruct (get_status_ok _ _) as [c p]; repeat split.
Qed.

Lemma poll_direction_quiet (m : Machine) : quiet_step m (fst (poll_direction m)).
Proof.
  unfold poll_direction. cbv zeta.
  destruct (get_current_direction _ _) as [c [p|]]; [repeat split|].
  eapply quiet_step_trans; [|apply poll_status_quiet]. repeat split.
Qed.

Lemma poll_rpm_quiet (m : Machine) : quiet_step m (fst (poll_rpm m)).
Proof.
  unfold poll_rpm. cbv zeta.
  destruct (get_current_rpm _ _) as [c [p|]]; [repeat split|].
  eapply quiet_step_trans; [|apply poll_direction_quiet]. repeat split.
Qed.

Lemma poll_cycle_quiet (m : Machine) : quiet_step m (fst (poll_cycle m)).
Proof.
  unfold poll_cycle.
  destruct (pollidx m =? 1); [apply poll_rpm_quiet|].
  destruct (pollidx m =? 2); [apply poll_direction_quiet|].
  destruct (pollidx m =? 3); [apply poll_status_quiet|].
  repeat split.
Qed.

(** Fetching a command touches neither the fault flag, the device, nor
    the link, and raises no alarm; it logs nothing unless it ends in the
    [continue]. *)
Lemma fetch_keeps (m : Machine) :
  unresponsive (fst (fetch m)) = unresponsive m
  /\ vfd (fst (fetch m)) = vfd m
  /\ uart_reads (fst (fetch m)) = uart_reads m
  /\ count_alarms (trace (fst (fetch m))) = count_alarms (trace m)
  /\ count_writes (trace (fst (fetch m))) = count_writes (trace m)
  /\ (snd (fetch m) <> None -> trace (fst (fetch m)) = trace m).
Proof.
  unfold fetch.
  pose proof (choose_request_quiet m) as H1.
  destruct (choose_request m) as [m1 [p|]]; cbn [fst snd] in *.
  { destruct H1 as (? & ? & ? & Ht). rewrite Ht. repeat split; assumption. }
  pose proof (xQueueReceive_quiet m1) as H2.
  destruct (xQueueReceive m1) as [m2 [|]]; cbn [fst snd] in *.
  { destruct (quiet_step_trans _ _ _ H1 H2) as (? & ? & ? & Ht).
    rewrite Ht. repeat split; assumption. }
  pose proof (poll_cycle_quiet m2) as H3.
  destruct (poll_cycle m2) as [m3 [p|]]; cbn [fst snd] in *;
    destruct (quiet_step_trans _ _ _ (quiet_step_trans _ _ _ H1 H2) H3)
      as (? & ? & ? & Ht).
  - rewrite Ht. repeat split; assumption.
  - machine_simpl. rewrite count_alarms_app, count_writes_app, Ht. cbn.
    repeat split; try assumption; try lia. congruence.
Qed.

(** The task on a link that never answers: all [MAX_RETRIES] attempts of
    a transaction go unanswered. *)
Lemma transact_never_valid (parser : option response_parser) (m : Machine) :
  0 <= MAX_RETRIES ->
  never_valid link ->
  let sent := add_crc (next_cmd m) in
  transact link parser m
  = Some (emit (TaskDelay VFD_RS485_POLL_RATE)
            (escalate MAX_RETRIES
               (Nat.iter (Z.to_nat MAX_RETRIES) after_failed_attempt
                         (with_next_cmd m sent)))).
Proof.
  intros Hmax Hdead sent. unfold transact. fold sent.
  pose proof (retry_loop_failures (Z.to_nat MAX_RETRIES) 0 parser 0
                (with_next_cmd m sent)) as H.
  rewrite Nat.add_0_r in H. rewrite H.
  - cbn [retry_loop]. rewrite Z.add_0_l, Z2Nat.id by exact Hmax.
    rewrite Z.ltb_irrefl. reflexivity.
  - intros i _. apply Hdead.
  - lia.
Qed.

(** While the device is flagged unresponsive and the link stays silent,
    an iteration raises no alarm and leaves the flag set. *)
Lemma iter_stays_unresponsive (m : Machine) :
  0 <= MAX_RETRIES ->
  never_valid link ->
  unresponsive m = true ->
  exists m', vfd_cmd_iter link m = Some m'
             /\ unresponsive m' = true
             /\ count_alarms (trace m') = count_alarms (trace m).
Proof.
  intros Hmax Hdead Hun.
  destruct (fetch_keeps m) as (Hu & _ & _ & Ha & _ & _).
  unfold vfd_cmd_iter. destruct (fetch m) as [m1 [parser|]]; cbn [fst snd] in *.
  - rewrite (transact_never_valid parser m1 Hmax Hdead).
    eexists. split; [reflexivity|].
    destruct (failed_attempts_fields (Z.to_nat MAX_RETRIES)
                (with_next_cmd m1 (add_crc (next_cmd m1))))
      as (_ & _ & _ & Hk & _ & _ & _ & Ht).
    set (mk := Nat.iter _ _ _) in *.
    assert (Hunk : unresponsive mk = true) by (rewrite Hk; machine_simpl; congruence).
    unfold escalate. rewrite Z.eqb_refl, Hunk. cbn [negb].
    machine_simpl. split; [exact Hunk|].
    rewrite Ht, !count_alarms_app, count_alarms_attempts. cbn. lia.
  - exists m1. split; [reflexivity|]. split; congruence.
Qed.

Lemma task_stays_unresponsive (k : nat) (m : Machine) :
  0 <= MAX_RETRIES ->
  never_valid link ->
  unresponsive m = true ->
  exists m', vfd_cmd_task link k m = Some m'
             /\ unresponsive m' = true
             /\ count_alarms (trace m') = count_alarms (trace m).
Proof.
  intros Hmax Hdead. revert m.
  induction k as [|k IH]; intros m Hun; cbn [vfd_cmd_task].
  - exists m. auto.
  - destruct (iter_stays_unresponsive m Hmax Hdead Hun) as (m1 & E & Hu1 & Ha1).
    rewrite E. destruct (IH m1 Hu1) as (m2 & E2 & Hu2 & Ha2).
    exists m2. split; [exact E2|]. split; [exact Hu2 | congruence].
Qed.

(** C1. On a link that never produces a valid response, an iteration
    that starts with the fault flag clear and fetches a critical envelope
    sends that same envelope [MAX_RETRIES] times, and only then raises
    the alarm, once; the flag is then set, and however many iterations
    follow on the silent link, no further alarm is raised. *)
Theorem retry_ceiling_alarm_once (m m1 : Machine) (parser : option response_parser) :
  0 <= MAX_RETRIES ->
  never_valid link ->
  unresponsive m = false ->
  fetch m = (m1, Some parser) ->
  critical (next_cmd m1) = true ->
  let sent := add_crc (next_cmd m1) in
  exists m',
    vfd_cmd_iter link m = Some m'
    /\ trace m'
       = trace m
         ++ concat (repeat (attempt_events sent) (Z.to_nat MAX_RETRIES))
         ++ [Log "Spindle RS485 Unresponsive %d" [rx_length sent];
             Log "Critical Spindle RS485 Unresponsive" [];
             ExecAlarmSpindleControl;
             TaskDelay VFD_RS485_POLL_RATE]
    /\ count_writes (trace m') = (count_writes (trace m) + Z.to_nat MAX_RETRIES)%nat
    /\ count_alarms (trace m') = S (count_alarms (trace m))
    /\ unresponsive m' = true
    /\ (forall k, exists m'',
           vfd_cmd_task link k m' = Some m''
           /\ unresponsive m'' = true
           /\ count_alarms (trace m'') = count_alarms (trace m')).
Proof.
  intros Hmax Hdead Hun Hfetch Hcrit sent.
  destruct (fetch_keeps m) as (Hu & _ & _ & _ & _ & Ht).
  rewrite Hfetch in Hu, Ht. cbn [fst snd] in Hu, Ht.
  specialize (Ht ltac:(discriminate)).
  unfold vfd_cmd_iter. rewrite Hfetch.
  rewrite (transact_never_valid parser m1 Hmax Hdead). fold sent.
  destruct (failed_attempts_fields (Z.to_nat MAX_RETRIES) (with_next_cmd m1 sent))
    as (_ & _ & _ & Hk & _ & Hn & _ & Htk).
  set (mk := Nat.iter _ _ _) in *.
  assert (Hunk : unresponsive mk = false) by (rewrite Hk; machine_simpl; congruence).
  assert (Hnext : next_cmd mk = sent) by (rewrite Hn; reflexivity).
  assert (Htrace : trace mk
                   = trace m ++ concat (repeat (attempt_events sent) (Z.to_nat MAX_RETRIES)))
    by (rewrite Htk; machine_simpl; rewrite Ht; reflexivity).
  assert (Hcs : critical sent = true) by exact Hcrit.
  set (m' := emit (TaskDelay VFD_RS485_POLL_RATE) (escalate MAX_RETRIES mk)).
  assert (Htm : trace m'
                = trace m
                  ++ concat (repeat (attempt_events sent) (Z.to_nat MAX_RETRIES))
                  ++ [Log "Spindle RS485 Unresponsive %d" [rx_length sent];
                      Log "Critical Spindle RS485 Unresponsive" [];
                      ExecAlarmSpindleControl;
                      TaskDelay VFD_RS485_POLL_RATE]).
  { unfold m', escalate. rewrite Z.eqb_refl, Hunk. cbn [negb].
    machine_simpl. rewrite Hnext, Hcs. machine_simpl. rewrite Htrace.
    rewrite <- !app_assoc. reflexivity. }
  assert (Hum : unresponsive m' = true).
  { unfold m', escalate. rewrite Z.eqb_refl, Hunk. reflexivity. }
  exists m'. split; [reflexivity|]. split; [exact Htm|].
  split; [rewrite Htm, !count_writes_app, count_writes_attempts; cbn; lia|].
  split; [rewrite Htm, !count_alarms_app, count_alarms_attempts; cbn; lia|].
  split; [exact Hum|].
  intros k. apply task_stays_unresponsive; [exact Hmax | exact Hdead | exact Hum].
Qed.

End ExecutorFacts.

Lemma silent_link_never_valid : never_valid Bench.silent_link.
Proof.
  intros n rx_len. unfold response_ok, Bench.silent_link. cbn [fst snd].
  destruct (0 =? rx_len); reflexivity.
Qed.

(** With a ceiling of 3, a silent link and the capability request due:
    three sends, then one alarm, and none in the next five iterations. *)
Lemma retry_ceiling_alarm_once_witness :
  let m := Bench.machine Bench.vfd_unknown_max [] 1 in
  exists m' m'',
    @vfd_cmd_iter Bench.consts Bench.full_drive Bench.silent_link m = Some m'
    /\ count_writes (trace m') = 3%nat
    /\ count_alarms (trace m') = 1%nat
    /\ @vfd_cmd_task Bench.consts Bench.full_drive Bench.silent_link 5 m' = Some m''
    /\ count_alarms (trace m'') = 1%nat.
Proof.
  intros m.
  destruct (@retry_ceiling_alarm_once Bench.consts Bench.full_drive Bench.silent_link
              m _ _ ltac:(cbn; lia) silent_link_never_valid eq_refl eq_refl eq_refl)
    as (m' & E & _ & Hw & Ha & _ & Hnext).
  destruct (Hnext 5%nat) as (m'' & E' & _ & Ha').
  exists m', m''.
  split; [exact E|]. split; [exact Hw|]. split; [exact Ha|].
  split; [exact E'|]. rewrite Ha'. exact Ha.
Defined.

Section ResponseFacts.
Context {consts : VFDConstants} {drive : VFDProtocol}.
Variable link : nat -> Z * list Z.

(** Once [retry_count] has reached the ceiling the loop is over. *)
Lemma retry_loop_done (fuel : nat) (parser : option response_parser)
      (rc : Z) (m : Machine) :
  MAX_RETRIES <= rc -> retry_loop link fuel parser rc m = Some (rc, m).
Proof.
  intros Hge. destruct fuel; cbn [retry_loop];
    destruct (Z.ltb_spec rc MAX_RETRIES); try lia; reflexivity.
Qed.

(** An attempt answered by a well-formed frame the parser rejects. *)
Lemma attempt_semantic_fault (p : response_parser) (rc : Z) (m : Machine) (v' : VFD) :
  response_at link m 0 = true ->
  p (snd (link (uart_reads m))) (vfd m) = (false, v') ->
  attempt link (Some p) rc m
  = (MAX_RETRIES + 1,
     mkMachine (sys m) (settings m) v' (vfd_cmd_queue m) true (pollidx m)
               (next_cmd m) (S (uart_reads m))
               (trace m ++ [UartFlush; UartWrite (tx_bytes (next_cmd m));
                            Log "Spindle RS485 did not give a satisfying response" []])).
Proof.
  unfold response_at, attempt. rewrite Nat.add_0_r.
  machine_simpl.
  destruct (link (uart_reads m)) as [len rx]. cbn [fst snd].
  intros -> ->. cbn [negb]. f_equal.
  apply machine_ext; machine_simpl; rewrite <- ?app_assoc; reflexivity.
Qed.

(** C6 (amended). When, after [j] unanswered attempts ([j] below the
    ceiling, possibly 0), a frame passes the length, address and checksum
    test but the parser attached to the envelope reports failure, the
    executor logs it, marks the device unresponsive, sends that envelope
    no more, and raises no alarm, whether the envelope was critical or
    not. *)
Theorem semantic_fault_no_retry_no_alarm
        (m m1 : Machine) (p : response_parser) (j : nat) (v' : VFD) :
  fetch m = (m1, Some (Some p)) ->
  let sent := add_crc (next_cmd m1) in
  let m0 := with_next_cmd m1 sent in
  Z.of_nat j < MAX_RETRIES ->
  (forall i, (i < j)%nat -> response_at link m0 i = false) ->
  response_at link m0 j = true ->
  p (snd (link (uart_reads m1 + j)%nat)) (vfd m1) = (false, v') ->
  exists m',
    vfd_cmd_iter link m = Some m'
    /\ trace m'
       = trace m
         ++ concat (repeat (attempt_events sent) j)
         ++ [UartFlush; UartWrite (tx_bytes sent);
             Log "Spindle RS485 did not give a satisfying response" [];
             TaskDelay VFD_RS485_POLL_RATE]
    /\ unresponsive m' = true
    /\ vfd m' = v'
    /\ critical (next_cmd m') = critical (next_cmd m1)
    /\ count_writes (trace m') = (count_writes (trace m) + S j)%nat
    /\ count_alarms (trace m') = count_alarms (trace m).
Proof.
  intros Hfetch sent m0 Hj Hfail Hgood Hparse.
  destruct (fetch_keeps m) as (_ & _ & _ & _ & _ & Ht).
  rewrite Hfetch in Ht. cbn [fst snd] in Ht. specialize (Ht ltac:(discriminate)).
  unfold vfd_cmd_iter. rewrite Hfetch. unfold transact. fold sent m0.
  replace (Z.to_nat MAX_RETRIES) with (j + S (Z.to_nat MAX_RETRIES - j - 1))%nat by lia.
  assert (Hle : 0 + Z.of_nat j <= MAX_RETRIES) by lia.
  rewrite (retry_loop_failures link j _ (Some p) 0 m0 Hfail Hle).
  destruct (failed_attempts_fields j m0)
    as (Hs & Hv & Hq & _ & Hp & Hn & Hr & Htk).
  set (mj := Nat.iter j after_failed_attempt m0) in *.
  assert (Hgood' : response_at link mj 0 = true).
  { unfold response_at in *. rewrite Hn, Hr, Nat.add_0_r. exact Hgood. }
  assert (Hparse' : p (snd (link (uart_reads mj))) (vfd mj) = (false, v')).
  { rewrite Hr, Hv. exact Hparse. }
  cbn [retry_loop].
  destruct (Z.ltb_spec (0 + Z.of_nat j) MAX_RETRIES) as [_|]; [|lia].
  rewrite (attempt_semantic_fault p _ mj v' Hgood' Hparse').
  rewrite retry_loop_done by lia.
  unfold escalate.
  destruct (Z.eqb_spec (MAX_RETRIES + 1 + 1) MAX_RETRIES) as [|_]; [lia|].
  eexists. split; [reflexivity|]. machine_simpl.
  rewrite Hn, Htk. unfold m0. machine_simpl. rewrite !Ht.
  assert (Htr : forall A (a b : list A) x y z w,
             ((a ++ b) ++ [x; y; z]) ++ [w] = a ++ b ++ [x; y; z; w])
    by (intros; rewrite <- !app_assoc; reflexivity).
  rewrite Htr.
  split; [reflexivity|]. split; [reflexivity|]. split; [reflexivity|].
  split; [reflexivity|].
  rewrite !count_writes_app, !count_alarms_app,
    count_writes_attempts, count_alarms_attempts.
  cbn. unfold count_writes, count_alarms. split; lia.
Qed.

(** Every attempt starts by putting the command on the wire. *)
Lemma attempt_sends (parser : option response_parser) (rc : Z) (m : Machine) :
  exists t,
    trace (snd (attempt link parser rc m))
    = trace m ++ UartFlush :: UartWrite (tx_bytes (next_cmd m)) :: t
    /\ (fst (attempt link parser rc m) = rc
        \/ fst (attempt link parser rc m) = MAX_RETRIES + 1).
Proof.
  unfold attempt. machine_simpl.
  destruct (link (uart_reads m)) as [len rx].
  destruct (response_ok _ _ _).
  - destruct parser as [p|].
    + destruct (p rx (vfd m)) as [parsed v]. destruct parsed; cbn [negb]; machine_simpl.
      * exists []. rewrite <- app_assoc. split; [reflexivity | right; reflexivity].
      * eexists [_]. rewrite <- !app_assoc. split; [reflexivity | right; reflexivity].
    + exists []. machine_simpl. rewrite <- app_assoc.
      split; [reflexivity | right; reflexivity].
  - eexists [_]. machine_simpl. rewrite <- !app_assoc.
    split; [reflexivity | left; reflexivity].
Qed.

(** The retry loop only ever adds to the trace. *)
Lemma retry_loop_extends (fuel : nat) (parser : option response_parser)
      (rc rc' : Z) (m m' : Machine) :
  retry_loop link fuel parser rc m = Some (rc', m') ->
  exists t, trace m' = trace m ++ t.
Proof.
  revert rc m. induction fuel as [|fuel IH]; intros rc m; cbn [retry_loop].
  - destruct (rc <? MAX_RETRIES); [discriminate|].
    intros [= _ <-]. exists []. rewrite app_nil_r. reflexivity.
  - destruct (rc <? MAX_RETRIES).
    + destruct (attempt_sends parser rc m) as (t & Ht & _).
      destruct (attempt link parser rc m) as [rc1 m1]. cbn [fst snd] in Ht.
      intros H. destruct (IH _ _ H) as (t' & Ht').
      eexists. rewrite Ht', Ht, <- app_assoc. reflexivity.
    + intros [= _ <-]. exists []. rewrite app_nil_r. reflexivity.
Qed.

Lemma escalate_extends (rc : Z) (m : Machine) :
  exists t, trace (escalate rc m) = trace m ++ t.
Proof.
  unfold escalate.
  destruct (rc =? MAX_RETRIES); [|exists []; rewrite app_nil_r; reflexivity].
  destruct (unresponsive m); cbn [negb]; [exists []; rewrite app_nil_r; reflexivity|].
  machine_simpl. destruct (critical (next_cmd m)); machine_simpl;
    eexists; rewrite <- ?app_assoc; reflexivity.
Qed.

(** With a positive ceiling, a transaction begins by sending the fetched
    command with its checksum. *)
Lemma transact_sends (parser : option response_parser) (m : Machine) :
  0 < MAX_RETRIES ->
  exists m' rest,
    transact link parser m = Some m'
    /\ trace m' = trace m ++ UartFlush :: UartWrite (tx_bytes (add_crc (next_cmd m))) :: rest.
Proof.
  intros Hmax. unfold transact.
  set (m0 := with_next_cmd m (add_crc (next_cmd m))).
  destruct (Z.to_nat MAX_RETRIES) as [|fuel] eqn:Efuel; [lia|].
  cbn [retry_loop]. destruct (Z.ltb_spec 0 MAX_RETRIES) as [_|]; [|lia].
  destruct (attempt_sends parser 0 m0) as (t & Ht & Hrc).
  destruct (attempt link parser 0 m0) as [rc1 m1]. cbn [fst snd] in Ht, Hrc.
  destruct (retry_loop_total link fuel parser (rc1 + 1) m1) as (rc2 & m2 & E).
  { destruct Hrc; subst rc1; lia. }
  rewrite E. destruct (retry_loop_extends _ _ _ _ _ _ E) as (t2 & Ht2).
  destruct (escalate_extends rc2 m2) as (t3 & Ht3).
  eexists. eexists. split; [reflexivity|].
  machine_simpl. rewrite Ht3, Ht2, Ht. unfold m0. machine_simpl.
  rewrite <- !app_assoc. cbn [app]. reflexivity.
Qed.

(** C5 (amended). In an iteration after the first ([pollidx] is not 0)
    with the maximum rpm unknown ([_max_rpm] is 0) and a drive that
    implements [get_max_rpm], the executor fetches that request, marks
    it critical and leaves the queue alone; with a positive retry
    ceiling it is the first thing the iteration sends. *)
Theorem capability_request_first (m : Machine) (c : ModbusCommand) (p : response_parser) :
  pollidx m <> 0 ->
  _max_rpm (vfd m) = 0 ->
  get_max_rpm (vfd m) (set_msg0 (next_cmd m) VFD_RS485_ADDR) = (c, Some p) ->
  let m1 := fst (fetch m) in
  snd (fetch m) = Some (Some p)
  /\ next_cmd m1 = set_critical c true
  /\ critical (next_cmd m1) = true
  /\ vfd_cmd_queue m1 = vfd_cmd_queue m
  /\ pollidx m1 = 1
  /\ (0 < MAX_RETRIES ->
      exists m' rest,
        vfd_cmd_iter link m = Some m'
        /\ trace m'
           = trace m ++ UartFlush
               :: UartWrite (tx_bytes (add_crc (set_critical c true))) :: rest).
Proof.
  intros Hidx Hmax Hget m1.
  assert (Hfetch : fetch m
                   = (with_next_cmd (with_pollidx (with_next_cmd m c) 1)
                                    (set_critical c true), Some (Some p))).
  { unfold fetch, choose_request. cbv zeta. machine_simpl.
    destruct (Z.eqb_spec (pollidx m) 0) as [|_]; [contradiction|].
    rewrite Hmax, Z.eqb_refl, Hget. reflexivity. }
  unfold m1. rewrite Hfetch. cbn [fst snd].
  do 5 (split; [reflexivity|]).
  intros Hpos. unfold vfd_cmd_iter. rewrite Hfetch.
  destruct (transact_sends (Some p)
              (with_next_cmd (with_pollidx (with_next_cmd m c) 1) (set_critical c true))
              Hpos) as (m' & rest & E & Ht).
  exists m', rest. split; [exact E | exact Ht].
Qed.

End ResponseFacts.

(** The capability request, critical, answered by a well-formed Modbus
    exception frame that the parser rejects: the device is flagged
    unresponsive but no alarm is raised. *)
Lemma critical_semantic_fault_no_alarm :
  let m := Bench.machine Bench.vfd_unknown_max [] 1 in
  exists m',
    @vfd_cmd_iter Bench.consts Bench.full_drive Bench.exception_link m = Some m'
    /\ critical (next_cmd m') = true
    /\ trace m' = [UartFlush; UartWrite [1; 3; 176; 5; 0; 2; 242; 202];
                   Log "Spindle RS485 did not give a satisfying response" [];
                   TaskDelay 200]
    /\ unresponsive m' = true
    /\ ~ (critical (next_cmd m') = true <-> In ExecAlarmSpindleControl (trace m')).
Proof.
  eexists. split; [vm_compute; reflexivity|].
  cbn [next_cmd critical trace unresponsive].
  split; [reflexivity|]. split; [reflexivity|]. split; [reflexivity|].
  intros [H _]. specialize (H eq_refl). cbn [In] in H.
  repeat (destruct H as [H|H]; [discriminate|]). exact H.
Qed.

Lemma semantic_fault_no_retry_no_alarm_witness :
  let m := Bench.machine Bench.vfd_unknown_max [] 1 in
  exists m',
    @vfd_cmd_iter Bench.consts Bench.full_drive Bench.exception_link m = Some m'
    /\ unresponsive m' = true
    /\ count_writes (trace m') = 1%nat
    /\ count_alarms (trace m') = 0%nat.
Proof.
  intros m.
  destruct (@semantic_fault_no_retry_no_alarm Bench.consts Bench.full_drive
              Bench.exception_link m _ _ 0%nat _ eq_refl
              ltac:(cbn; lia) ltac:(intros i Hi; inversion Hi) eq_refl eq_refl)
    as (m' & E & _ & Hu & _ & _ & Hw & Ha).
  exists m'. split; [exact E|]. split; [exact Hu|]. split; [exact Hw | exact Ha].
Defined.

(** Two iterations with the maximum rpm unknown that do not ask for it:
    the very first one ([pollidx] 0) on a drive that implements the
    request, and a later one on a drive that does not.  Both take the
    queued, non-critical speed command instead. *)
Lemma capability_request_skipped :
  (let m := Bench.machine Bench.vfd_unknown_max [Bench.speed_cmd 300] 0 in
   _max_rpm (vfd m) = 0
   /\ snd (@fetch Bench.full_drive m) = Some None
   /\ next_cmd (fst (@fetch Bench.full_drive m)) = Bench.speed_cmd 300
   /\ critical (next_cmd (fst (@fetch Bench.full_drive m))) <> true)
  /\
  (let m := Bench.machine Bench.vfd_unknown_max [Bench.speed_cmd 300] 1 in
   _max_rpm (vfd m) = 0
   /\ snd (@fetch Bench.bare_drive m) = Some None
   /\ next_cmd (fst (@fetch Bench.bare_drive m)) = Bench.speed_cmd 300
   /\ critical (next_cmd (fst (@fetch Bench.bare_drive m))) <> true).
Proof.
  split; cbv zeta; (split; [reflexivity|]); (split; [reflexivity|]);
    (split; [reflexivity|]); cbn; discriminate.
Qed.

Lemma capability_request_first_witness :
  let m := Bench.machine Bench.vfd_unknown_max [Bench.speed_cmd 300] 1 in
  critical (next_cmd (fst (@fetch Bench.full_drive m))) = true
  /\ vfd_cmd_queue (fst (@fetch Bench.full_drive m)) = [Bench.speed_cmd 300]
  /\ exists m' rest,
       @vfd_cmd_iter Bench.consts Bench.full_drive Bench.silent_link m = Some m'
       /\ trace m' = UartFlush :: UartWrite [1; 3; 176; 5; 0; 2; 242; 202] :: rest.
Proof.
  intros m.
  destruct (@capability_request_first Bench.consts Bench.full_drive Bench.silent_link
              m _ _ ltac:(discriminate) eq_refl eq_refl)
    as (_ & _ & Hc & Hq & _ & Hsend).
  split; [exact Hc|]. split; [exact Hq|].
  destruct (Hsend ltac:(cbn; lia)) as (m' & rest & E & Ht).
  exists m', rest. split; [exact E | exact Ht].
Defined.

(** * Further properties of the checksum codec *)

Lemma crc_fold_range (bytes : list Z) (crc : Z) :
  0 <= crc < 2 ^ 16 -> Forall is_byte bytes ->
  0 <= fold_left crc_byte bytes crc < 2 ^ 16.
Proof.
  revert crc. induction bytes as [|b bytes IH]; intros crc Hc Hb; [exact Hc|].
  inversion Hb as [|? ? Hb1 Hb2]; subst.
  cbn [fold_left]. apply IH; [|exact Hb2].
  apply (crc_byte_spec crc b Hc Hb1).
Qed.

Lemma ModRTU_CRC_range (payload : list Z) :
  Forall is_byte payload ->
  0 <= ModRTU_CRC payload (Z.of_nat (length payload)) < 2 ^ 16.
Proof.
  intros Hb. rewrite ModRTU_CRC_whole.
  apply crc_fold_range; [change (2 ^ 16) with 65536; lia | exact Hb].
Qed.

Lemma crc_lo_mod (crc16 : Z) : crc_lo crc16 = crc16 mod 256.
Proof.
  unfold crc_lo. change 0xFF with (Z.ones 8).
  rewrite Z.land_ones by lia. reflexivity.
Qed.

Lemma crc_hi_div (crc16 : Z) : 0 <= crc16 < 2 ^ 16 -> crc_hi crc16 = crc16 / 256.
Proof.
  intros Hc. unfold crc_hi. rewrite Z.shiftr_land.
  change (Z.shiftr 0xFF00 8) with (Z.ones 8).
  rewrite Z.land_ones, Z.shiftr_div_pow2 by lia.
  change (2 ^ 8) with 256. apply Z.mod_small.
  change (2 ^ 16) with 65536 in Hc.
  split; [apply Z.div_pos; lia | apply Z.div_lt_upper_bound; lia].
Qed.

(** X1. The checksum of a byte sequence is a 16-bit value, and the two
    bytes the executor appends determine it: low byte plus 256 times high
    byte gives the checksum back. *)
Theorem crc_bytes_reassemble (payload : list Z) :
  Forall is_byte payload ->
  let crc16 := ModRTU_CRC payload (Z.of_nat (length payload)) in
  0 <= crc16 < 65536 /\ crc_lo crc16 + 256 * crc_hi crc16 = crc16.
Proof.
  intros Hb crc16. pose proof (ModRTU_CRC_range payload Hb) as Hr.
  fold crc16 in Hr. split; [exact Hr|].
  rewrite crc_lo_mod, crc_hi_div by exact Hr.
  pose proof (Z.div_mod crc16 256 ltac:(lia)). lia.
Qed.

Lemma crc_bytes_reassemble_witness :
  crc_lo (ModRTU_CRC [0x01; 0x03; 0x00; 0x00; 0x00; 0x01] 6)
  + 256 * crc_hi (ModRTU_CRC [0x01; 0x03; 0x00; 0x00; 0x00; 0x01] 6) = 0x0A84.
Proof.
  destruct (crc_bytes_reassemble [0x01; 0x03; 0x00; 0x00; 0x00; 0x01]
              ltac:(repeat constructor; unfold is_byte; lia)) as [_ H].
  change (Z.of_nat (length [0x01; 0x03; 0x00; 0x00; 0x00; 0x01])) with 6 in H.
  rewrite H. reflexivity.
Defined.

(** A shift step on an even value only halves it. *)
Lemma crc_shift_double (y : Z) : crc_shift (2 * y) = y.
Proof.
  unfold crc_shift.
  assert (Hl : Z.land (2 * y) 0x0001 = 0).
  { change (Z.land (2 * y) 0x0001) with (Z.land (2 * y) (Z.ones 1)).
    rewrite Z.land_ones by lia. change (2 ^ 1) with 2.
    rewrite Z.mul_comm. apply Z.mod_mul. lia. }
  rewrite Hl. cbn [Z.eqb negb].
  rewrite Z.shiftr_div_pow2 by lia. change (2 ^ 1) with 2.
  rewrite Z.mul_comm. apply Z.div_mul. lia.
Qed.

Lemma crc_bits_shifted (k : nat) (x : Z) : crc_bits k (x * 2 ^ Z.of_nat k) = x.
Proof.
  induction k as [|k IH].
  - cbn [crc_bits]. change (2 ^ Z.of_nat 0) with 1. lia.
  - cbn [crc_bits].
    replace (x * 2 ^ Z.of_nat (S k)) with (2 * (x * 2 ^ Z.of_nat k)).
    + rewrite crc_shift_double. exact IH.
    + rewrite Nat2Z.inj_succ, Z.pow_succ_r by lia. lia.
Qed.

(** XOR-ing the low byte of a value into it clears that byte. *)
Lemma lxor_low_byte (c : Z) : 0 <= c -> Z.lxor c (crc_lo c) = (c / 256) * 2 ^ 8.
Proof.
  intros Hc. unfold crc_lo. change 0xFF with (Z.ones 8).
  rewrite <- Z.shiftl_mul_pow2 by lia.
  change 256 with (2 ^ 8). rewrite <- Z.shiftr_div_pow2 by lia.
  apply Z.bits_inj'. intros n Hn.
  rewrite Z.lxor_spec, Z.land_spec, Z.testbit_ones_nonneg by lia.
  rewrite Z.shiftl_spec by exact Hn.
  destruct (Z.ltb_spec n 8) as [Hlt|Hge].
  - rewrite andb_true_r, xorb_nilpotent.
    symmetry. apply Z.testbit_neg_r. lia.
  - rewrite andb_false_r, xorb_false_r.
    rewrite Z.shiftr_spec by lia. f_equal. lia.
Qed.

(** X2. Running the checksum over a whole frame, its two checksum bytes
    included, always ends in 0. *)
Theorem crc_residue_zero (payload : list Z) :
  Forall is_byte payload ->
  let frame := frame_with_crc payload in
  ModRTU_CRC frame (Z.of_nat (length frame)) = 0.
Proof.
  intros Hb frame. rewrite ModRTU_CRC_whole.
  unfold frame, frame_with_crc. rewrite fold_left_app.
  rewrite ModRTU_CRC_whole.
  pose proof (crc_fold_range payload 0xFFFF
                ltac:(change (2 ^ 16) with 65536; lia) Hb) as Hr.
  set (c := fold_left crc_byte payload 0xFFFF) in *.
  cbn [fold_left].
  assert (H1 : crc_byte c (crc_lo c) = crc_hi c).
  { unfold crc_byte. rewrite lxor_low_byte by lia.
    rewrite wrap16_small.
    - change 8 with (Z.of_nat 8) at 1. rewrite crc_bits_shifted.
      symmetry. apply crc_hi_div. exact Hr.
    - change (2 ^ 16) with 65536 in *. change (2 ^ 8) with 256.
      pose proof (Z.div_pos c 256 ltac:(lia) ltac:(lia)).
      pose proof (Z.div_lt_upper_bound c 256 256 ltac:(lia) ltac:(lia)). lia. }
  rewrite H1. unfold crc_byte. rewrite Z.lxor_nilpotent. reflexivity.
Qed.

Lemma crc_residue_zero_witness :
  ModRTU_CRC [0x01; 0x03; 0x00; 0x00; 0x00; 0x01; 0x84; 0x0A] 8 = 0.
Proof.
  apply (crc_residue_zero [0x01; 0x03; 0x00; 0x00; 0x00; 0x01]).
  repeat constructor; unfold is_byte; lia.
Defined.

Lemma testbit_15_small (x : Z) : 0 <= x < 2 ^ 15 -> Z.testbit x 15 = false.
Proof.
  intros Hx. apply Z.testbit_false; [lia|].
  rewrite Z.div_small by exact Hx. reflexivity.
Qed.

Lemma lxor_cancel_r (a b p : Z) : Z.lxor a p = Z.lxor b p -> a = b.
Proof.
  intros H. apply (f_equal (fun x => Z.lxor x p)) in H.
  rewrite !Z.lxor_assoc, Z.lxor_nilpotent, !Z.lxor_0_r in H. exact H.
Qed.

Lemma lxor_cancel_l (c a b : Z) : Z.lxor c a = Z.lxor c b -> a = b.
Proof.
  intros H. rewrite (Z.lxor_comm c a), (Z.lxor_comm c b) in H.
  exact (lxor_cancel_r _ _ _ H).
Qed.

(** One shift step loses no information on 16-bit values. *)
Lemma crc_shift_inj (a b : Z) :
  0 <= a < 2 ^ 16 -> 0 <= b < 2 ^ 16 -> crc_shift a = crc_shift b -> a = b.
Proof.
  intros Ha Hb.
  destruct (crc_shift_spec a Ha) as [Ea _], (crc_shift_spec b Hb) as [Eb _].
  rewrite Ea, Eb. unfold crc16_spec_bit.
  rewrite !Z.bit0_odd, !Z.shiftr_div_pow2 by lia. change (2 ^ 1) with 2.
  assert (Hha : 0 <= a / 2 < 2 ^ 15).
  { change (2 ^ 16) with 65536 in Ha. change (2 ^ 15) with 32768.
    split; [apply Z.div_pos; lia | apply Z.div_lt_upper_bound; lia]. }
  assert (Hhb : 0 <= b / 2 < 2 ^ 15).
  { change (2 ^ 16) with 65536 in Hb. change (2 ^ 15) with 32768.
    split; [apply Z.div_pos; lia | apply Z.div_lt_upper_bound; lia]. }
  pose proof (Z.div_mod a 2 ltac:(lia)) as Da.
  pose proof (Z.div_mod b 2 ltac:(lia)) as Db.
  pose proof (Z.mod_pos_bound a 2 ltac:(lia)) as Ma.
  pose proof (Z.mod_pos_bound b 2 ltac:(lia)) as Mb.
  assert (Hbit : forall x y, 0 <= x < 2 ^ 15 -> 0 <= y < 2 ^ 15 ->
                             Z.lxor x 0xA001 <> y).
  { intros x y Hx Hy E. apply (f_equal (fun v => Z.testbit v 15)) in E.
    rewrite Z.lxor_spec, (testbit_15_small x Hx), (testbit_15_small y Hy) in E.
    discriminate E. }
  destruct (Z.odd a) eqn:Pa, (Z.odd b) eqn:Pb;
    rewrite Zodd_mod in Pa, Pb;
    first [apply Z.eqb_eq in Pa | apply Z.eqb_neq in Pa];
    first [apply Z.eqb_eq in Pb | apply Z.eqb_neq in Pb];
    intros E.
  - apply lxor_cancel_r in E. lia.
  - exfalso. exact (Hbit _ _ Hha Hhb E).
  - exfalso. symmetry in E. exact (Hbit _ _ Hhb Hha E).
  - lia.
Qed.

Lemma crc_bits_inj (i : nat) (a b : Z) :
  0 <= a < 2 ^ 16 -> 0 <= b < 2 ^ 16 -> crc_bits i a = crc_bits i b -> a = b.
Proof.
  revert a b. induction i as [|i IH]; intros a b Ha Hb E; [exact E|].
  cbn [crc_bits] in E.
  apply crc_shift_inj; [exact Ha | exact Hb |].
  apply IH; [apply (crc_shift_spec a Ha) | apply (crc_shift_spec b Hb) | exact E].
Qed.

Lemma lxor_byte_range (crc b : Z) :
  0 <= crc < 2 ^ 16 -> is_byte b -> 0 <= Z.lxor crc b < 2 ^ 16.
Proof.
  intros Hc Hb. apply lxor_below; [lia | exact Hc |].
  unfold is_byte in Hb. change (2 ^ 16) with 65536. lia.
Qed.

(** The per-byte update is injective in the running checksum ... *)
Lemma crc_byte_inj_state (a c b : Z) :
  0 <= a < 2 ^ 16 -> 0 <= c < 2 ^ 16 -> is_byte b ->
  crc_byte a b = crc_byte c b -> a = c.
Proof.
  intros Ha Hc Hb E. unfold crc_byte in E.
  pose proof (lxor_byte_range a b Ha Hb) as Ra.
  pose proof (lxor_byte_range c b Hc Hb) as Rc.
  rewrite !wrap16_small in E by assumption.
  apply crc_bits_inj in E; [|assumption|assumption].
  exact (lxor_cancel_r _ _ _ E).
Qed.

(** ... and in the byte. *)
Lemma crc_byte_inj_byte (c b b' : Z) :
  0 <= c < 2 ^ 16 -> is_byte b -> is_byte b' ->
  crc_byte c b = crc_byte c b' -> b = b'.
Proof.
  intros Hc Hb Hb' E. unfold crc_byte in E.
  pose proof (lxor_byte_range c b Hc Hb) as R.
  pose proof (lxor_byte_range c b' Hc Hb') as R'.
  rewrite !wrap16_small in E by assumption.
  apply crc_bits_inj in E; [|assumption|assumption].
  exact (lxor_cancel_l _ _ _ E).
Qed.

Lemma crc_fold_inj_state (bytes : list Z) (a c : Z) :
  0 <= a < 2 ^ 16 -> 0 <= c < 2 ^ 16 -> Forall is_byte bytes ->
  fold_left crc_byte bytes a = fold_left crc_byte bytes c -> a = c.
Proof.
  revert a c. induction bytes as [|b bytes IH]; intros a c Ha Hc Hb E; [exact E|].
  inversion Hb as [|? ? Hb1 Hb2]; subst. cbn [fold_left] in E.
  apply IH in E; [| apply (crc_byte_spec a b Ha Hb1)
                  | apply (crc_byte_spec c b Hc Hb1) | exact Hb2].
  exact (crc_byte_inj_state a c b Ha Hc Hb1 E).
Qed.

(** Changing one byte of a sequence changes its checksum. *)
Lemma crc_changes_with_byte (pre post : list Z) (b b' : Z) :
  Forall is_byte pre -> Forall is_byte post -> is_byte b -> is_byte b' ->
  b <> b' ->
  fold_left crc_byte (pre ++ b :: post) 0xFFFF
  <> fold_left crc_byte (pre ++ b' :: post) 0xFFFF.
Proof.
  intros Hpre Hpost Hb Hb' Hne E.
  rewrite !fold_left_app in E. cbn [fold_left] in E.
  pose proof (crc_fold_range pre 0xFFFF
                ltac:(change (2 ^ 16) with 65536; lia) Hpre) as Hr.
  set (c := fold_left crc_byte pre 0xFFFF) in *.
  apply crc_fold_inj_state in E;
    [| apply (crc_byte_spec c b Hr Hb) | apply (crc_byte_spec c b' Hr Hb') | exact Hpost].
  apply Hne. exact (crc_byte_inj_byte c b b' Hr Hb Hb' E).
Qed.

(** The checksum comparison on a sequence followed by two bytes. *)
Lemma crc_check_two_bytes (p : list Z) (x y : Z) :
  let len := Z.of_nat (length (p ++ [x; y])) in
  crc_check len len (p ++ [x; y])
  = (y =? crc_hi (fold_left crc_byte p 0xFFFF))
    && (x =? crc_lo (fold_left crc_byte p 0xFFFF)).
Proof.
  cbv zeta. unfold crc_check.
  assert (Hlen : Z.of_nat (length (p ++ [x; y])) = Z.of_nat (length p) + 2)
    by (rewrite length_app; cbn [length]; lia).
  rewrite Hlen.
  replace (Z.of_nat (length p) + 2 - 2) with (Z.of_nat (length p)) by lia.
  rewrite ModRTU_CRC_prefix.
  assert (Hy : buf_get (p ++ [x; y]) (Z.of_nat (length p) + 2 - 1) = y).
  { replace (Z.of_nat (length p) + 2 - 1) with (Z.of_nat (length (p ++ [x])))
      by (rewrite length_app; cbn [length]; lia).
    replace (p ++ [x; y]) with ((p ++ [x]) ++ y :: [])
      by (rewrite <- app_assoc; reflexivity).
    apply buf_get_middle. }
  rewrite Hy, buf_get_middle. reflexivity.
Qed.

(** X3. Replacing any one byte of a frame that carries its checksum, at
    any position (payload or checksum), by a different byte makes the
    checksum comparison of the response test fail. *)
Theorem single_byte_error_detected (payload : list Z) (i : nat) (b' : Z) :
  Forall is_byte payload ->
  is_byte b' ->
  let frame := frame_with_crc payload in
  let len := Z.of_nat (length frame) in
  (i < length frame)%nat ->
  b' <> nth i frame 0 ->
  crc_check len len (buf_set frame (Z.of_nat i) b') = false.
Proof.
  intros Hbytes Hb' frame len Hi Hne.
  pose proof (crc_fold_range payload 0xFFFF
                ltac:(change (2 ^ 16) with 65536; lia) Hbytes) as Hr.
  assert (Hframe : frame = payload ++ [crc_lo (fold_left crc_byte payload 0xFFFF);
                                       crc_hi (fold_left crc_byte payload 0xFFFF)])
    by (unfold frame, frame_with_crc; rewrite ModRTU_CRC_whole; reflexivity).
  set (c := fold_left crc_byte payload 0xFFFF) in *.
  assert (Hlen : length frame = (length payload + 2)%nat)
    by (rewrite Hframe, length_app; reflexivity).
  assert (Hlen' : forall (p : list Z) x y, length p = length payload ->
                                Z.of_nat (length (p ++ [x; y])) = len).
  { intros p x y Hp. unfold len. rewrite Hlen, length_app, Hp. reflexivity. }
  destruct (Nat.lt_ge_cases i (length payload)) as [Hin|Hout].
  - (* a payload byte *)
    destruct (nth_split payload 0 Hin) as (pre & post & Hsplit & Hpre).
    set (b := nth i payload 0) in *.
    assert (Hnth : nth i frame 0 = b)
      by (rewrite Hframe, app_nth1 by exact Hin; reflexivity).
    rewrite Hnth in Hne.
    assert (Hall : Forall is_byte (pre ++ b :: post)) by (rewrite <- Hsplit; exact Hbytes).
    apply Forall_app in Hall. destruct Hall as [Fpre Fpost].
    pose proof (Forall_inv Fpost) as Fb.
    pose proof (Forall_inv_tail Fpost) as Fpost'.
    assert (Hset : buf_set frame (Z.of_nat i) b'
                   = (pre ++ b' :: post) ++ [crc_lo c; crc_hi c]).
    { rewrite Hframe, Hsplit, <- Hpre, <- !app_assoc. cbn [app].
      apply buf_set_middle. }
    rewrite Hset.
    rewrite <- (Hlen' (pre ++ b' :: post) (crc_lo c) (crc_hi c))
      by (rewrite Hsplit, !length_app; reflexivity).
    rewrite crc_check_two_bytes.
    set (c' := fold_left crc_byte (pre ++ b' :: post) 0xFFFF).
    assert (Hr' : 0 <= c' < 2 ^ 16).
    { apply crc_fold_range; [change (2 ^ 16) with 65536; lia|].
      apply Forall_app. split; [exact Fpre | constructor; assumption]. }
    assert (Hcc : c <> c').
    { unfold c, c'. rewrite Hsplit.
      apply crc_changes_with_byte; try assumption. congruence. }
    destruct (Z.eqb_spec (crc_hi c) (crc_hi c')) as [Eh|]; [|reflexivity].
    destruct (Z.eqb_spec (crc_lo c) (crc_lo c')) as [El|]; [|reflexivity].
    exfalso. apply Hcc.
    rewrite !crc_lo_mod in El. rewrite !crc_hi_div in Eh by assumption.
    pose proof (Z.div_mod c 256 ltac:(lia)).
    pose proof (Z.div_mod c' 256 ltac:(lia)). lia.
  - assert (Hcase : i = length payload \/ i = S (length payload)) by lia.
    destruct Hcase as [-> | ->].
    + (* the low checksum byte *)
      assert (Hnth : nth (length payload) frame 0 = crc_lo c)
        by (rewrite Hframe; apply nth_middle).
      rewrite Hnth in Hne.
      assert (Hset : buf_set frame (Z.of_nat (length payload)) b'
                     = payload ++ [b'; crc_hi c])
        by (rewrite Hframe; apply buf_set_middle).
      rewrite Hset, <- (Hlen' payload b' (crc_hi c)) by reflexivity.
      rewrite crc_check_two_bytes. fold c.
      destruct (Z.eqb_spec b' (crc_lo c)); [contradiction|].
      apply andb_false_r.
    + (* the high checksum byte *)
      assert (Hnth : nth (S (length payload)) frame 0 = crc_hi c).
      { rewrite Hframe.
        replace (payload ++ [crc_lo c; crc_hi c])
          with ((payload ++ [crc_lo c]) ++ crc_hi c :: [])
          by (rewrite <- app_assoc; reflexivity).
        replace (S (length payload)) with (length (payload ++ [crc_lo c]))
          by (rewrite length_app; cbn [length]; lia).
        apply nth_middle. }
      rewrite Hnth in Hne.
      assert (Hset : buf_set frame (Z.of_nat (S (length payload))) b'
                     = payload ++ [crc_lo c; b']).
      { rewrite Hframe.
        replace (payload ++ [crc_lo c; crc_hi c])
          with ((payload ++ [crc_lo c]) ++ crc_hi c :: [])
          by (rewrite <- app_assoc; reflexivity).
        replace (S (length payload)) with (length (payload ++ [crc_lo c]))
          by (rewrite length_app; cbn [length]; lia).
        rewrite buf_set_middle, <- app_assoc. reflexivity. }
      rewrite Hset, <- (Hlen' payload (crc_lo c) b') by reflexivity.
      rewrite crc_check_two_bytes. fold c.
      destruct (Z.eqb_spec b' (crc_hi c)); [contradiction|].
      reflexivity.
Qed.

(** The example frame with its function code 03 turned into 83. *)
Lemma single_byte_error_detected_witness :
  crc_check 8 8 [0x01; 0x83; 0x00; 0x00; 0x00; 0x01; 0x84; 0x0A] = false.
Proof.
  apply (single_byte_error_detected [0x01; 0x03; 0x00; 0x00; 0x00; 0x01] 1 0x83).
  - repeat constructor; unfold is_byte; lia.
  - unfold is_byte; lia.
  - cbn; lia.
  - cbn; lia.
Defined.

(** X4. For a command whose payload starts with the bus address and fits
    the buffer, and that expects a reply as long as the request, the
    executor's own transmitted frame (payload plus checksum) passes the
    executor's response test: a drive that echoes the request is
    accepted. *)
Theorem echoed_request_accepted (c : ModbusCommand) (payload : list Z) :
  holds_payload c payload ->
  rx_length c = tx_length c ->
  buf_get payload 0 = VFD_RS485_ADDR ->
  let sent := add_crc c in
  tx_bytes sent = frame_with_crc payload
  /\ response_ok (rx_length sent) (tx_length sent) (tx_bytes sent) = true.
Proof.
  intros (pad & Hmsg & Htx & Hpad & Hfit) Hrx Haddr sent.
  assert (Hbytes : tx_bytes sent = frame_with_crc payload)
    by (apply (add_crc_tx_bytes c payload pad); assumption).
  split; [exact Hbytes|].
  assert (Hlen : tx_length sent = Z.of_nat (length (frame_with_crc payload))).
  { unfold sent, add_crc. cbn [tx_length]. rewrite Htx, frame_with_crc_length.
    apply wrap8_small. change (2 ^ 8) with 256. lia. }
  assert (Hrlen : rx_length sent = tx_length sent)
    by (unfold sent, add_crc; cbn [tx_length rx_length]; rewrite Hrx; reflexivity).
  rewrite Hrlen, Hbytes, Hlen. unfold response_ok.
  rewrite Z.eqb_refl. cbn [andb].
  assert (Hne : payload <> []).
  { intros ->. unfold buf_get, VFD_RS485_ADDR in Haddr. cbn in Haddr. lia. }
  unfold frame_with_crc at 1.
  rewrite (buf_get_head payload _ Hne), Haddr, Z.eqb_refl. cbn [andb].
  apply crc_check_frame.
Qed.

Lemma echoed_request_accepted_witness :
  let sent := add_crc (@mode_envelope Bench.consts Bench.full_drive Cw true
                                      (Bench.machine Bench.vfd0 [] 1)) in
  tx_bytes sent = [1; 6; 32; 0; 0; 1; 67; 202]
  /\ response_ok (rx_length sent) (tx_length sent) (tx_bytes sent) = true.
Proof.
  intros sent.
  destruct (echoed_request_accepted
              (@mode_envelope Bench.consts Bench.full_drive Cw true
                              (Bench.machine Bench.vfd0 [] 1))
              [1; 6; 32; 0; 0; 1]) as [Hb Hok].
  - exists (repeat 0 10). repeat split; cbn; lia.
  - reflexivity.
  - reflexivity.
  - fold sent in Hb, Hok. split; [|exact Hok].
    rewrite Hb. reflexivity.
Defined.

(** * Further properties of the spindle controller *)

Lemma vfd_set_current_rpm_same (v : VFD) : vfd_set_current_rpm v (_current_rpm v) = v.
Proof. destruct v. reflexivity. Qed.


Lemma SpindleState_eqb_eq (a b : SpindleState) : SpindleState_eqb a b = true <-> a = b.
Proof. destruct a, b; cbn; split; congruence. Qed.

Lemma SpindleState_eqb_neq (a b : SpindleState) : SpindleState_eqb a b = false <-> a <> b.
Proof. destruct a, b; cbn; split; congruence. Qed.

Section MoreControllerFacts.
Context {consts : VFDConstants} {drive : VFDProtocol}.

(** [set_mode] with an enabling mode and room in the queue. *)
Lemma set_mode_enable (mode : SpindleState) (crit : bool) (m : Machine) :
  vfd_ok (vfd m) = true ->
  mode <> Disable ->
  Z.of_nat (length (vfd_cmd_queue m)) < VFD_RS485_QUEUE_SIZE ->
  fst (set_mode mode crit m)
  = mkMachine (sys m) (settings m) (vfd_set_current_state (vfd m) mode)
              (vfd_cmd_queue m ++ [mode_envelope mode crit m])
              (unresponsive m) (pollidx m) (next_cmd m) (uart_reads m) (trace m).
Proof.
  intros Hok Hmode Hroom. unfold set_mode. rewrite Hok. cbn [negb].
  apply SpindleState_eqb_neq in Hmode. rewrite Hmode.
  unfold xQueueSend. cbn [vfd_cmd_queue with_vfd].
  destruct (Z.ltb_spec (Z.of_nat (length (vfd_cmd_queue m))) VFD_RS485_QUEUE_SIZE);
    [reflexivity | lia].
Qed.

(** [set_mode] with an enabling mode and a full queue. *)
Lemma set_mode_enable_full (mode : SpindleState) (crit : bool) (m : Machine) :
  vfd_ok (vfd m) = true ->
  mode <> Disable ->
  VFD_RS485_QUEUE_SIZE <= Z.of_nat (length (vfd_cmd_queue m)) ->
  fst (set_mode mode crit m)
  = mkMachine (sys m) (settings m) (vfd_set_current_state (vfd m) mode)
              (vfd_cmd_queue m)
              (unresponsive m) (pollidx m) (next_cmd m) (uart_reads m)
              (trace m ++ [Log "VFD Queue Full" []]).
Proof.
  intros Hok Hmode Hfull. unfold set_mode. rewrite Hok. cbn [negb].
  apply SpindleState_eqb_neq in Hmode. rewrite Hmode.
  unfold xQueueSend. cbn [vfd_cmd_queue with_vfd].
  destruct (Z.ltb_spec (Z.of_nat (length (vfd_cmd_queue m))) VFD_RS485_QUEUE_SIZE);
    [lia | reflexivity].
Qed.

(** What [set_mode] does to the fields of an initialized device, whatever
    the mode and the state of the queue. *)
Lemma set_mode_fields (mode : SpindleState) (crit : bool) (m : Machine) :
  vfd_ok (vfd m) = true ->
  let m1 := fst (set_mode mode crit m) in
  vfd m1 = vfd_set_current_state (vfd m) mode
  /\ sys m1 = sys m
  /\ settings m1 = settings m
  /\ (trace m1 = trace m \/ trace m1 = trace m ++ [Log "VFD Queue Full" []])
  /\ (queue_in_bounds m -> queue_in_bounds m1).
Proof.
  intros Hok m1. unfold m1, queue_in_bounds.
  destruct (SpindleState_eqb mode Disable) eqn:Emode.
  - apply SpindleState_eqb_eq in Emode. subst mode.
    rewrite (set_mode_disable crit m Hok). cbn.
    repeat split; auto. intros _. unfold VFD_RS485_QUEUE_SIZE. lia.
  - apply SpindleState_eqb_neq in Emode.
    destruct (Z.lt_ge_cases (Z.of_nat (length (vfd_cmd_queue m))) VFD_RS485_QUEUE_SIZE)
      as [Hroom|Hfull].
    + rewrite (set_mode_enable mode crit m Hok Emode Hroom). cbn.
      repeat split; auto. intros _. rewrite length_app. cbn [length]. lia.
    + rewrite (set_mode_enable_full mode crit m Hok Emode Hfull). cbn.
      repeat split; auto.
Qed.

(** What [set_rpm] does to the fields of an initialized device. *)
Lemma set_rpm_fields (rpm : Z) (m : Machine) :
  vfd_ok (vfd m) = true ->
  let m1 := fst (set_rpm rpm m) in
  vfd m1 = vfd_set_current_rpm (vfd m) (rpm_target rpm m)
  /\ sys m1 = sys_set_spindle_speed (sys m) (rpm_target rpm m)
  /\ settings m1 = settings m
  /\ (trace m1 = trace m \/ trace m1 = trace m ++ [Log "VFD Queue Full" []])
  /\ (queue_in_bounds m -> queue_in_bounds m1).
Proof.
  intros Hok m1. unfold m1, queue_in_bounds.
  destruct (Z.eq_dec (rpm_target rpm m) (_current_rpm (vfd m))) as [E|E].
  - rewrite (set_rpm_same m rpm Hok E). cbn.
    rewrite E, vfd_set_current_rpm_same. repeat split; auto.
  - destruct (Z.lt_ge_cases (Z.of_nat (length (vfd_cmd_queue m))) VFD_RS485_QUEUE_SIZE)
      as [Hroom|Hfull].
    + destruct (set_rpm_sent m rpm Hok E Hroom) as (_ & Hv & Hs & Hq & Ht).
      destruct (fst (set_rpm rpm m)) as [s1 se1 v1 q1 u1 p1 n1 r1 t1] eqn:Em1.
      cbn in Hv, Hs, Hq, Ht |- *. subst.
      repeat split; auto.
      * unfold set_rpm in Em1. rewrite Hok in Em1. cbn [negb] in Em1.
        fold (rpm_target rpm m) in Em1. cbn [vfd with_sys] in Em1.
        destruct (rpm_target rpm m =? _current_rpm (vfd m));
          [injection Em1; auto|].
        unfold xQueueSend in Em1. cbn [vfd_cmd_queue with_vfd with_sys] in Em1.
        destruct (_ <? _) in Em1; cbn in Em1; injection Em1; auto.
      * intros _. rewrite length_app. cbn [length]. lia.
    + destruct (set_rpm_dropped m rpm Hok E Hfull) as (_ & Hv & Hs & Hq & Ht).
      destruct (fst (set_rpm rpm m)) as [s1 se1 v1 q1 u1 p1 n1 r1 t1] eqn:Em1.
      cbn in Hv, Hs, Hq, Ht |- *. subst.
      repeat split; auto.
      unfold set_rpm in Em1. rewrite Hok in Em1. cbn [negb] in Em1.
      fold (rpm_target rpm m) in Em1. cbn [vfd with_sys] in Em1.
      destruct (rpm_target rpm m =? _current_rpm (vfd m));
        [injection Em1; auto|].
      unfold xQueueSend in Em1. cbn [vfd_cmd_queue with_vfd with_sys] in Em1.
      destruct (_ <? _) in Em1; cbn in Em1; injection Em1; auto.
Qed.

Lemma SpindleState_eqb_refl (a : SpindleState) : SpindleState_eqb a a = true.
Proof. destruct a; reflexivity. Qed.

(** X5. Switching an initialized spindle to an enabled state it is not
    in (abort inactive, room for two more envelopes) keeps every pending
    envelope and appends the mode envelope, always marked critical,
    followed by a speed envelope when the limited request differs from
    the cached rpm.  The cache then holds the new state and rpm, and the
    caller is neither delayed nor is anything logged. *)
Theorem set_state_enable_appends (st : SpindleState) (rpm : Z) (m : Machine) :
  abort (sys m) = false ->
  vfd_ok (vfd m) = true ->
  st <> Disable ->
  _current_state (vfd m) <> st ->
  Z.of_nat (length (vfd_cmd_queue m)) + 2 <= VFD_RS485_QUEUE_SIZE ->
  let r := rpm_target rpm m in
  let m' := set_state st rpm m in
  vfd_cmd_queue m'
  = vfd_cmd_queue m
    ++ mode_envelope st true m
    :: (if r =? _current_rpm (vfd m) then []
        else [rpm_envelope r (with_vfd m (vfd_set_current_state (vfd m) st))])
  /\ get_state m' = st
  /\ _current_rpm (vfd m') = r
  /\ spindle_speed (sys m') = r
  /\ report_ovr_counter (sys m') = 0
  /\ trace m' = trace m.
Proof.
  intros Habort Hok Hst Hcur Hroom r m'.
  assert (Hneq : SpindleState_eqb (_current_state (vfd m)) st = false)
    by (apply SpindleState_eqb_neq; exact Hcur).
  assert (Hnd : SpindleState_eqb st Disable = false)
    by (apply SpindleState_eqb_neq; exact Hst).
  unfold m', set_state, get_state. rewrite Habort, Hneq, Hnd.
  cbn [negb]. rewrite orb_true_r.
  rewrite (set_mode_enable st true m Hok Hst ltac:(lia)).
  set (ma := mkMachine _ _ _ _ _ _ _ _ _).
  assert (Hoka : vfd_ok (vfd ma) = true) by exact Hok.
  assert (Hra : rpm_target rpm ma = r) by reflexivity.
  assert (Hcura : _current_rpm (vfd ma) = _current_rpm (vfd m)) by reflexivity.
  clearbody r.
  destruct (Z.eqb_spec r (_current_rpm (vfd m))) as [E|E].
  - assert (Ea : rpm_target rpm ma = _current_rpm (vfd ma)) by congruence.
    rewrite (set_rpm_same ma rpm Hoka Ea), Hra.
    cbn. rewrite !SpindleState_eqb_refl. cbn.
    repeat split; try reflexivity; congruence.
  - assert (Ea : rpm_target rpm ma <> _current_rpm (vfd ma)) by congruence.
    assert (Hroom' : Z.of_nat (length (vfd_cmd_queue ma)) < VFD_RS485_QUEUE_SIZE).
    { unfold ma. cbn [vfd_cmd_queue]. rewrite length_app. cbn [length]. lia. }
    destruct (set_rpm_sent ma rpm Hoka Ea Hroom') as (_ & Hv & Hs & Hq & Ht).
    rewrite Hra in Hv, Hs, Hq.
    destruct (fst (set_rpm rpm ma)) as [s1 se1 v1 q1 u1 p1 n1 r1 t1].
    cbn in Hv, Hs, Hq, Ht. subst v1 s1 q1 t1.
    cbn. rewrite !SpindleState_eqb_refl. cbn. rewrite <- app_assoc.
    repeat split; reflexivity.
Qed.

End MoreControllerFacts.

Lemma set_state_enable_appends_witness :
  let m := Bench.machine Bench.vfd0 [Bench.speed_cmd 300] 1 in
  let m' := @set_state Bench.consts Bench.full_drive Cw 500 m in
  length (vfd_cmd_queue m') = 3%nat /\ get_state m' = Cw /\ trace m' = [].
Proof.
  intros m m'.
  destruct (@set_state_enable_appends Bench.consts Bench.full_drive Cw 500 m
              eq_refl eq_refl ltac:(discriminate) ltac:(discriminate)
              ltac:(unfold VFD_RS485_QUEUE_SIZE; cbn; lia))
    as (Hq & Hs & _ & _ & _ & Ht).
  fold m' in Hq, Hs, Ht.
  split; [rewrite Hq; reflexivity | split; [exact Hs | exact Ht]].
Defined.

Lemma count_dwells_app (t u : list Event) :
  count_dwells (t ++ u) = (count_dwells t + count_dwells u)%nat.
Proof. unfold count_dwells. rewrite filter_app, length_app. reflexivity. Qed.

Lemma count_logs_app (t u : list Event) :
  count_logs (t ++ u) = (count_logs t + count_logs u)%nat.
Proof. unfold count_logs. rewrite filter_app, length_app. reflexivity. Qed.

Lemma only_logs_counts (t : list Event) :
  forallb is_log t = true ->
  count_dwells t = 0%nat /\ count_writes t = 0%nat /\ count_alarms t = 0%nat.
Proof.
  induction t as [|e t IH]; [auto|].
  cbn [forallb]. intros H. apply andb_prop in H. destruct H as [He Ht].
  destruct (IH Ht) as (H1 & H2 & H3).
  unfold count_dwells, count_writes, count_alarms in *.
  destruct e; try discriminate He. cbn. auto.
Qed.

Section SetStateMore.
Context {consts : VFDConstants} {drive : VFDProtocol}.

(** What [set_state] does to an initialized device when no abort is
    active: the requested state is cached, the cached rpm is either the
    request itself (nothing to do) or the limited request, and the only
    events are log lines. *)
Lemma set_state_ok_fields (st : SpindleState) (rpm : Z) (m : Machine) :
  vfd_ok (vfd m) = true ->
  abort (sys m) = false ->
  let m' := set_state st rpm m in
  _current_state (vfd m') = st
  /\ vfd_ok (vfd m') = true
  /\ _min_rpm (vfd m') = _min_rpm (vfd m)
  /\ _max_rpm (vfd m') = _max_rpm (vfd m)
  /\ abort (sys m') = false
  /\ spindle_speed_ovr (sys m') = spindle_speed_ovr (sys m)
  /\ (_current_rpm (vfd m') = rpm \/ _current_rpm (vfd m') = rpm_target rpm m)
  /\ (exists logs, trace m' = trace m ++ logs /\ forallb is_log logs = true)
  /\ (queue_in_bounds m -> queue_in_bounds m')
  /\ _task_running (vfd m') = _task_running (vfd m).
Proof.
  intros Hok Habort m'. unfold m', set_state. rewrite Habort.
  set (crit := State_eqb (state (sys m)) Cycle || negb (SpindleState_eqb st Disable)).
  destruct (SpindleState_eqb (_current_state (vfd m)) st) eqn:Ecur; cbn [negb].
  - (* already in the requested state *)
    apply SpindleState_eqb_eq in Ecur.
    destruct (Z.eqb_spec (_current_rpm (vfd m)) rpm) as [Erpm|Erpm]; cbn [negb].
    + cbn. rewrite Habort, Hok.
      repeat split; auto.
      exists []. rewrite app_nil_r. auto.
    + destruct (set_rpm_fields rpm m Hok) as (Hv & Hs & Hse & Ht & Hb).
      set (m1 := fst (set_rpm rpm m)) in *.
      cbn. rewrite Hv, Hs. cbn. rewrite Habort, Hok.
      repeat split; auto.
      destruct Ht as [Ht|Ht]; rewrite Ht.
      * exists []. rewrite app_nil_r. auto.
      * eexists. split; reflexivity.
  - (* a change of state *)
    destruct (set_mode_fields st crit m Hok) as (Hv1 & Hs1 & Hse1 & Ht1 & Hb1).
    set (m1 := fst (set_mode st crit m)) in *.
    assert (Hok1 : vfd_ok (vfd m1) = true) by (rewrite Hv1; exact Hok).
    destruct (set_rpm_fields rpm m1 Hok1) as (Hv2 & Hs2 & Hse2 & Ht2 & Hb2).
    set (m2 := fst (set_rpm rpm m1)) in *.
    assert (Htarget : rpm_target rpm m1 = rpm_target rpm m)
      by (unfold rpm_target; rewrite Hv1, Hs1; reflexivity).
    rewrite Htarget in Hv2, Hs2.
    assert (Hcs2 : _current_state (vfd m2) = st) by (rewrite Hv2, Hv1; reflexivity).
    assert (Hlogs : exists logs, trace m2 = trace m ++ logs /\ forallb is_log logs = true).
    { destruct Ht1 as [Ht1|Ht1], Ht2 as [Ht2|Ht2]; rewrite Ht2, Ht1.
      - exists []. rewrite app_nil_r. auto.
      - eexists. split; reflexivity.
      - eexists. split; reflexivity.
      - rewrite <- app_assoc. eexists. split; reflexivity. }
    destruct (SpindleState_eqb st Disable); cbn [vfd with_sys];
      rewrite Hcs2, SpindleState_eqb_refl; cbn [negb];
      cbn; rewrite Hv2, ?Hs2, Hv1; cbn; rewrite ?Hs1, Habort;
      unfold queue_in_bounds in *; cbn [vfd_cmd_queue with_sys with_vfd];
      repeat split; auto.
Qed.

(** X6. On an initialized device [set_state] never delays its caller:
    no dwell is ever issued, whatever the state change.  On a device that
    is not initialized a change of state (abort inactive) sends nothing
    but does block the caller for exactly one dwell, the spin-down delay
    for [Disable] and the spin-up delay otherwise. *)
Theorem set_state_dwell (st : SpindleState) (rpm : Z) (m : Machine) :
  (vfd_ok (vfd m) = true ->
   count_dwells (trace (set_state st rpm m)) = count_dwells (trace m))
  /\ (vfd_ok (vfd m) = false ->
      abort (sys m) = false ->
      _current_state (vfd m) <> st ->
      trace (set_state st rpm m)
      = trace m ++ [McDwell (if SpindleState_eqb st Disable
                             then spindle_delay_spindown (settings m)
                             else spindle_delay_spinup (settings m))]).
Proof.
  split.
  - intros Hok. destruct (abort (sys m)) eqn:Habort.
    + unfold set_state. rewrite Habort. reflexivity.
    + destruct (set_state_ok_fields st rpm m Hok Habort)
        as (_ & _ & _ & _ & _ & _ & _ & (logs & Ht & Hl) & _).
      rewrite Ht, count_dwells_app.
      destruct (only_logs_counts logs Hl) as (Hd & _). rewrite Hd. lia.
  - intros Hok Habort Hcur.
    apply SpindleState_eqb_neq in Hcur.
    unfold set_state. rewrite Habort, Hcur. cbn [negb].
    rewrite (set_mode_not_ok st _ m Hok). cbn [fst].
    rewrite (set_rpm_not_ok rpm m Hok). cbn [fst].
    destruct (SpindleState_eqb st Disable); cbn [vfd with_sys];
      rewrite Hcur; reflexivity.
Qed.

End SetStateMore.

Lemma set_state_dwell_witness :
  count_dwells (trace (@set_state Bench.consts Bench.full_drive Cw 500
                                  (Bench.machine Bench.vfd0 [] 1))) = 0%nat
  /\ trace (@set_state Bench.consts Bench.full_drive Cw 500
                       (Bench.machine Bench.vfd_off [] 0)) = [McDwell 3].
Proof.
  destruct (@set_state_dwell Bench.consts Bench.full_drive Cw 500
              (Bench.machine Bench.vfd0 [] 1)) as [H1 _].
  destruct (@set_state_dwell Bench.consts Bench.full_drive Cw 500
              (Bench.machine Bench.vfd_off [] 0)) as [_ H2].
  split.
  - rewrite (H1 eq_refl). reflexivity.
  - rewrite (H2 eq_refl eq_refl ltac:(discriminate)). reflexivity.
Defined.

Section ControllerInvariants.
Context {consts : VFDConstants} {drive : VFDProtocol}.


Lemma xQueueSend_bounded (c : ModbusCommand) (m : Machine) :
  queue_in_bounds m -> queue_in_bounds (fst (xQueueSend c m)).
Proof.
  unfold queue_in_bounds, xQueueSend. intros H.
  destruct (Z.ltb_spec (Z.of_nat (length (vfd_cmd_queue m))) VFD_RS485_QUEUE_SIZE);
    cbn [fst vfd_cmd_queue with_queue]; [|exact H].
  rewrite length_app. cbn [length]. lia.
Qed.

Lemma init_queue (def : MachineDef) (hw : UartDriver) (m : Machine) :
  vfd_cmd_queue (init def hw m) = vfd_cmd_queue m \/ vfd_cmd_queue (init def hw m) = [].
Proof.
  unfold init.
  set (m0 := emit _ (with_vfd m (vfd_set_ok (vfd m) false))).
  destruct (get_pins_and_settings_spec def m0) as (_ & Hq & _).
  destruct (get_pins_and_settings def m0) as [m1 ok]. cbn [fst snd] in Hq.
  change (vfd_cmd_queue m0) with (vfd_cmd_queue m) in Hq.
  destruct ok; cbn [negb]; [|left; exact Hq].
  destruct (uart_param_config_ok hw); cbn [negb]; [|left; exact Hq].
  destruct (uart_set_pin_ok hw); cbn [negb]; [|left; exact Hq].
  destruct (uart_driver_install_ok hw); cbn [negb]; [|left; exact Hq].
  destruct (uart_set_mode_ok hw); cbn [negb]; [|left; exact Hq].
  cbn [emit with_trace vfd]. 
  destruct (_task_running (vfd m1)); cbn [negb]; [left; exact Hq | right; reflexivity].
Qed.

Lemma controller_queue_bounded (m : Machine) :
  queue_in_bounds m ->
  (forall mode crit, queue_in_bounds (fst (set_mode mode crit m)))
  /\ (forall rpm, queue_in_bounds (fst (set_rpm rpm m)))
  /\ (forall st rpm, queue_in_bounds (set_state st rpm m))
  /\ queue_in_bounds (stop m)
  /\ (forall def hw, queue_in_bounds (init def hw m)).
Proof.
  intros Hb.
  assert (Hmode : forall mode crit, queue_in_bounds (fst (set_mode mode crit m))).
  { intros mode crit. destruct (vfd_ok (vfd m)) eqn:Hok.
    - apply (set_mode_fields mode crit m Hok). exact Hb.
    - rewrite (set_mode_not_ok mode crit m Hok). exact Hb. }
  split; [exact Hmode|]. split; [|split; [|split; [apply Hmode|]]].
  - intros rpm. destruct (vfd_ok (vfd m)) eqn:Hok.
    + apply (set_rpm_fields rpm m Hok). exact Hb.
    + rewrite (set_rpm_not_ok rpm m Hok). exact Hb.
  - intros st rpm. destruct (vfd_ok (vfd m)) eqn:Hok.
    + destruct (abort (sys m)) eqn:Habort.
      * unfold set_state. rewrite Habort. exact Hb.
      * apply (set_state_ok_fields st rpm m Hok Habort). exact Hb.
    + destruct (set_state_not_ok st rpm m Hok) as (Hq & _).
      unfold queue_in_bounds in *. rewrite Hq. exact Hb.
  - intros def hw. unfold queue_in_bounds in *.
    destruct (init_queue def hw m) as [E|E]; rewrite E; [exact Hb|].
    unfold VFD_RS485_QUEUE_SIZE. cbn. lia.
Qed.

(** X8. No operation of the controller can push the queue beyond its
    [VFD_RS485_QUEUE_SIZE] slots: [set_mode], [set_rpm], [set_state],
    [stop] and [init] all keep a bounded queue bounded, initialized or
    not, aborting or not. *)
Theorem controller_keeps_queue_bounded (m : Machine) :
  queue_in_bounds m ->
  (forall mode crit, queue_in_bounds (fst (set_mode mode crit m)))
  /\ (forall rpm, queue_in_bounds (fst (set_rpm rpm m)))
  /\ (forall st rpm, queue_in_bounds (set_state st rpm m))
  /\ queue_in_bounds (stop m)
  /\ (forall def hw, queue_in_bounds (init def hw m)).
Proof. exact (controller_queue_bounded m). Qed.

(** X9. With the queue full, [set_mode] for an enabling mode drops the
    command with only a log line, yet still records the mode in the
    cached state; [set_mode Disable] empties the queue first, so the
    disable envelope is always enqueued and nothing is logged. *)
Theorem set_mode_queue_full (mode : SpindleState) (crit : bool) (m : Machine) :
  vfd_ok (vfd m) = true ->
  Z.of_nat (length (vfd_cmd_queue m)) = VFD_RS485_QUEUE_SIZE ->
  let m1 := fst (set_mode mode crit m) in
  get_state m1 = mode
  /\ (mode <> Disable ->
      vfd_cmd_queue m1 = vfd_cmd_queue m
      /\ trace m1 = trace m ++ [Log "VFD Queue Full" []])
  /\ (mode = Disable ->
      vfd_cmd_queue m1 = [mode_envelope Disable crit m]
      /\ trace m1 = trace m).
Proof.
  intros Hok Hfull m1. split; [|split].
  - unfold m1, get_state. rewrite (proj1 (set_mode_fields mode crit m Hok)).
    reflexivity.
  - intros Hmode. unfold m1.
    rewrite (set_mode_enable_full mode crit m Hok Hmode) by lia. auto.
  - intros ->. unfold m1. rewrite (set_mode_disable crit m Hok). auto.
Qed.

End ControllerInvariants.


Lemma controller_keeps_queue_bounded_witness :
  queue_in_bounds (@set_state Bench.consts Bench.full_drive Cw 500 Bench.stopped_queue_full).
Proof.
  apply (@controller_keeps_queue_bounded Bench.consts Bench.full_drive
           Bench.stopped_queue_full).
  unfold queue_in_bounds, VFD_RS485_QUEUE_SIZE. cbn. lia.
Defined.

Lemma set_mode_queue_full_witness :
  let m1 := fst (@set_mode Bench.consts Bench.full_drive Cw true Bench.stopped_queue_full) in
  get_state m1 = Cw /\ length (vfd_cmd_queue m1) = 10%nat
  /\ trace m1 = [Log "VFD Queue Full" []].
Proof.
  intros m1.
  destruct (@set_mode_queue_full Bench.consts Bench.full_drive Cw true
              Bench.stopped_queue_full eq_refl eq_refl) as (Hs & He & _).
  destruct (He ltac:(discriminate)) as [Hq Ht].
  fold m1 in Hs, Hq, Ht.
  split; [exact Hs|]. split; [rewrite Hq; reflexivity | rewrite Ht; reflexivity].
Defined.

(** X10. As long as [rpm * override] fits 32 bits the override scaling is
    the exact integer quotient [rpm * override / 100]: 100 % leaves the
    request unchanged and 0 % gives 0.  Whatever the arguments, the
    scaled value is never above 42949672. *)
Theorem apply_override_exact (rpm ovr : Z) :
  (0 <= rpm * ovr < 2 ^ 32 ->
   apply_override rpm ovr = rpm * ovr / 100
   /\ (ovr = 100 -> apply_override rpm ovr = rpm)
   /\ (ovr = 0 -> apply_override rpm ovr = 0))
  /\ 0 <= apply_override rpm ovr <= 42949672.
Proof.
  unfold apply_override, wrap32. split.
  - intros Hfit. rewrite Z.mod_small by exact Hfit.
    split; [reflexivity|]. split; intros ->.
    + apply Z.div_mul. lia.
    + rewrite Z.mul_0_r. reflexivity.
  - pose proof (Z.mod_pos_bound (rpm * ovr) (2 ^ 32) ltac:(lia)) as Hm.
    change (2 ^ 32) with 4294967296 in *.
    split; [apply Z.div_pos; lia|].
    apply Z.lt_succ_r. apply Z.div_lt_upper_bound; lia.
Qed.

Lemma apply_override_exact_witness :
  apply_override 24000 150 = 36000 /\ apply_override 24000 100 = 24000.
Proof.
  destruct (apply_override_exact 24000 150) as [H1 _].
  destruct (apply_override_exact 24000 100) as [H2 _].
  destruct (H1 ltac:(lia)) as (E1 & _).
  destruct (H2 ltac:(lia)) as (_ & E2 & _).
  split; [rewrite E1; reflexivity | apply E2; reflexivity].
Defined.

(** The three ways a value leaves the limits. *)
Lemma apply_limits_shape (lo hi r : Z) :
  (apply_limits lo hi r = hi /\ (lo >= hi \/ r >= hi))
  \/ (apply_limits lo hi r = lo /\ lo < hi /\ r < hi /\ r <> 0 /\ r <= lo)
  \/ (apply_limits lo hi r = r /\ lo < hi /\ r < hi /\ (r = 0 \/ lo < r)).
Proof.
  unfold apply_limits.
  destruct (Z.geb_spec lo hi), (Z.geb_spec r hi), (Z.eqb_spec r 0), (Z.leb_spec r lo);
    cbn [orb andb negb]; lia.
Qed.

(** X11. The limits never reorder requests and settle at once: a larger
    scaled request never yields a smaller speed, and limiting an already
    limited value changes nothing. *)
Theorem apply_limits_monotone_idempotent (lo hi r1 r2 : Z) :
  0 <= lo ->
  0 <= r1 <= r2 ->
  apply_limits lo hi r1 <= apply_limits lo hi r2
  /\ apply_limits lo hi (apply_limits lo hi r1) = apply_limits lo hi r1.
Proof.
  intros Hlo Hr. split.
  - pose proof (apply_limits_shape lo hi r1).
    pose proof (apply_limits_shape lo hi r2). lia.
  - pose proof (apply_limits_shape lo hi r1) as H1.
    remember (apply_limits lo hi r1) as v eqn:Ev. clear Ev.
    pose proof (apply_limits_shape lo hi v). lia.
Qed.

Lemma apply_limits_monotone_idempotent_witness :
  apply_limits 100 1000 50 <= apply_limits 100 1000 2000
  /\ apply_limits 100 1000 (apply_limits 100 1000 50) = 100.
Proof.
  destruct (apply_limits_monotone_idempotent 100 1000 50 2000 ltac:(lia) ltac:(lia))
    as [H1 H2].
  split; [exact H1 | rewrite H2; reflexivity].
Defined.

(** * Further properties of initialization *)

Lemma count_task_creates_app (t u : list Event) :
  count_task_creates (t ++ u) = (count_task_creates t + count_task_creates u)%nat.
Proof. unfold count_task_creates. rewrite filter_app, length_app. reflexivity. Qed.

(** Without a configuration fault [get_pins_and_settings] stores the three
    pins and the two limits, logs nothing and succeeds. *)
Lemma get_pins_and_settings_ok (def : MachineDef) (m : Machine) :
  config_fault def (settings m) = false ->
  exists txd rxd rts,
    VFD_RS485_TXD_PIN def = Some txd
    /\ VFD_RS485_RXD_PIN def = Some rxd
    /\ VFD_RS485_RTS_PIN def = Some rts
    /\ get_pins_and_settings def m
       = (with_vfd m
            (vfd_set_rpm_limits
               (vfd_set_rts_pin (vfd_set_rxd_pin (vfd_set_txd_pin (vfd m) txd) rxd) rts)
               (rpm_min (settings m)) (rpm_max (settings m))),
          true).
Proof.
  unfold config_fault, get_pins_and_settings.
  destruct (VFD_RS485_TXD_PIN def) as [txd|]; [|discriminate].
  destruct (VFD_RS485_RXD_PIN def) as [rxd|]; [|discriminate].
  destruct (VFD_RS485_RTS_PIN def) as [rts|]; [|discriminate].
  cbn [settings with_vfd]. intros ->.
  exists txd, rxd, rts. repeat split.
Qed.

Lemma init_success_fields (def : MachineDef) (hw : UartDriver) (m : Machine) :
  config_fault def (settings m) = false ->
  uart_param_config_ok hw = true ->
  uart_set_pin_ok hw = true ->
  uart_driver_install_ok hw = true ->
  uart_set_mode_ok hw = true ->
  let m' := init def hw m in
  vfd_ok (vfd m') = true
  /\ _current_state (vfd m') = Disable
  /\ _current_rpm (vfd m') = 0
  /\ _min_rpm (vfd m') = rpm_min (settings m)
  /\ _max_rpm (vfd m') = rpm_max (settings m)
  /\ (Some (_txd_pin (vfd m')), Some (_rxd_pin (vfd m')), Some (_rts_pin (vfd m')))
     = (VFD_RS485_TXD_PIN def, VFD_RS485_RXD_PIN def, VFD_RS485_RTS_PIN def)
  /\ _task_running (vfd m') = true
  /\ vfd_cmd_queue m' = (if _task_running (vfd m) then vfd_cmd_queue m else [])
  /\ count_task_creates (trace m')
     = (count_task_creates (trace m) + (if _task_running (vfd m) then 0 else 1))%nat
  /\ sys m' = sys m.
Proof.
  intros Hfault H1 H2 H3 H4 m'. unfold m', init.
  set (m0 := emit _ (with_vfd m (vfd_set_ok (vfd m) false))).
  destruct (get_pins_and_settings_ok def m0 Hfault)
    as (txd & rxd & rts & Et & Er & Es & Eg).
  rewrite Eg, H1, H2, H3, H4, Et, Er, Es. cbn [negb].
  unfold m0.
  cbn [emit with_trace with_vfd vfd trace settings
       vfd_set_rpm_limits vfd_set_rts_pin vfd_set_rxd_pin vfd_set_txd_pin vfd_set_ok
       _task_running].
  destruct (_task_running (vfd m)) eqn:Erun; cbn [negb];
    cbn [emit with_trace with_vfd with_queue config_message vfd trace vfd_cmd_queue sys
         vfd_set_rpm_limits vfd_set_rts_pin vfd_set_rxd_pin vfd_set_txd_pin vfd_set_ok
         vfd_set_task_running vfd_set_flags vfd_set_current_rpm vfd_set_current_state
         vfd_ok _task_running _txd_pin _rxd_pin _rts_pin _min_rpm _max_rpm
         _current_rpm _current_state];
    rewrite ?count_task_creates_app; cbn [count_task_creates filter is_task_create length];
    repeat split; try lia; exact Erun.
Qed.

(** X12. An [init] with all pins defined, laser mode off and a working
    UART driver leaves the device initialized and stopped: [vfd_ok] set,
    cached state [Disable] and cached rpm 0, the pins of the machine
    definition and the rpm limits of the settings stored.  The task is
    created only if it was not running, in which case the queue starts
    empty; otherwise the queue keeps its pending envelopes. *)
Theorem init_success_state (def : MachineDef) (hw : UartDriver) (m : Machine) :
  config_fault def (settings m) = false ->
  uart_param_config_ok hw = true ->
  uart_set_pin_ok hw = true ->
  uart_driver_install_ok hw = true ->
  uart_set_mode_ok hw = true ->
  let m' := init def hw m in
  vfd_ok (vfd m') = true
  /\ _current_state (vfd m') = Disable
  /\ _current_rpm (vfd m') = 0
  /\ _min_rpm (vfd m') = rpm_min (settings m)
  /\ _max_rpm (vfd m') = rpm_max (settings m)
  /\ (Some (_txd_pin (vfd m')), Some (_rxd_pin (vfd m')), Some (_rts_pin (vfd m')))
     = (VFD_RS485_TXD_PIN def, VFD_RS485_RXD_PIN def, VFD_RS485_RTS_PIN def)
  /\ _task_running (vfd m') = true
  /\ vfd_cmd_queue m' = (if _task_running (vfd m) then vfd_cmd_queue m else [])
  /\ count_task_creates (trace m')
     = (count_task_creates (trace m) + (if _task_running (vfd m) then 0 else 1))%nat
  /\ sys m' = sys m.
Proof. exact (init_success_fields def hw m). Qed.

Lemma init_success_state_witness :
  let m' := init Bench.all_pins Bench.uart_fine (Bench.machine Bench.vfd_off [] 0) in
  vfd_ok (vfd m') = true /\ _max_rpm (vfd m') = 1000
  /\ count_task_creates (trace m') = 1%nat.
Proof.
  intros m'.
  destruct (init_success_state Bench.all_pins Bench.uart_fine
              (Bench.machine Bench.vfd_off [] 0) eq_refl eq_refl eq_refl eq_refl eq_refl)
    as (Hok & _ & _ & _ & Hmax & _ & _ & _ & Ht & _).
  fold m' in Hok, Hmax, Ht.
  split; [exact Hok|]. split; [rewrite Hmax; reflexivity | rewrite Ht; reflexivity].
Defined.

Lemma only_logs_no_task (t : list Event) :
  forallb is_log t = true -> count_task_creates t = 0%nat.
Proof.
  induction t as [|e t IH]; [reflexivity|].
  cbn [forallb]. intros H. apply andb_prop in H. destruct H as [He Ht].
  unfold count_task_creates in *. destruct e; try discriminate He.
  cbn. exact (IH Ht).
Qed.

(** [get_pins_and_settings] only logs, and always stores the limits. *)
Lemma get_pins_and_settings_logs (def : MachineDef) (m : Machine) :
  let m1 := fst (get_pins_and_settings def m) in
  (exists logs, trace m1 = trace m ++ logs /\ forallb is_log logs = true)
  /\ _min_rpm (vfd m1) = rpm_min (settings m)
  /\ _max_rpm (vfd m1) = rpm_max (settings m)
  /\ _current_rpm (vfd m1) = _current_rpm (vfd m)
  /\ _current_state (vfd m1) = _current_state (vfd m)
  /\ sys m1 = sys m.
Proof.
  unfold get_pins_and_settings.
  destruct (VFD_RS485_TXD_PIN def), (VFD_RS485_RXD_PIN def), (VFD_RS485_RTS_PIN def);
    cbn [settings emit with_trace with_vfd];
    destruct (laser_mode (settings m));
    cbn [fst emit with_trace with_vfd trace vfd sys settings vfd_set_rpm_limits
         vfd_set_txd_pin vfd_set_rxd_pin vfd_set_rts_pin
         _min_rpm _max_rpm _current_rpm _current_state];
    (split; [|repeat split]);
    first [ exists []; rewrite app_nil_r; split; reflexivity
          | rewrite <- ?app_assoc; eexists; split; reflexivity ].
Qed.

Lemma init_failure_fields (def : MachineDef) (hw : UartDriver) (m : Machine) :
  init_succeeds def hw (settings m) = false ->
  let m' := init def hw m in
  vfd_ok (vfd m') = false
  /\ vfd_cmd_queue m' = vfd_cmd_queue m
  /\ _task_running (vfd m') = _task_running (vfd m)
  /\ count_task_creates (trace m') = count_task_creates (trace m)
  /\ _current_state (vfd m') = _current_state (vfd m)
  /\ _current_rpm (vfd m') = _current_rpm (vfd m)
  /\ _min_rpm (vfd m') = rpm_min (settings m)
  /\ _max_rpm (vfd m') = rpm_max (settings m)
  /\ sys m' = sys m.
Proof.
  intros Hfail m'. unfold m', init. unfold init_succeeds in Hfail.
  set (m0 := emit _ (with_vfd m (vfd_set_ok (vfd m) false))).
  destruct (get_pins_and_settings_spec def m0) as (Hok & Hq & Hvok & Hrun & _).
  destruct (get_pins_and_settings_logs def m0)
    as ((logs & Ht & Hl) & Hmin & Hmax & Hrpm & Hst & Hsys).
  change (settings m0) with (settings m) in *.
  destruct (get_pins_and_settings def m0) as [m1 ok]. cbn [fst snd] in *.
  assert (Htask : count_task_creates (trace m1) = count_task_creates (trace m)).
  { rewrite Ht, count_task_creates_app, (only_logs_no_task logs Hl).
    unfold m0. cbn [emit with_trace trace with_vfd].
    rewrite count_task_creates_app. cbn. lia. }
  assert (Hfields : vfd_ok (vfd m1) = false
                    /\ vfd_cmd_queue m1 = vfd_cmd_queue m
                    /\ _task_running (vfd m1) = _task_running (vfd m)
                    /\ _current_state (vfd m1) = _current_state (vfd m)
                    /\ _current_rpm (vfd m1) = _current_rpm (vfd m)
                    /\ sys m1 = sys m).
  { rewrite Hvok, Hq, Hrun, Hst, Hrpm, Hsys. unfold m0. cbn. repeat split. }
  destruct Hfields as (F1 & F2 & F3 & F4 & F5 & F6).
  assert (Hemit : forall e mm, is_task_create e = false ->
                   count_task_creates (trace (emit e mm)) = count_task_creates (trace mm)).
  { intros e mm He. cbn [emit with_trace trace].
    rewrite count_task_creates_app. unfold count_task_creates at 2.
    cbn [filter]. rewrite He. cbn. lia. }
  subst ok. destruct (config_fault def (settings m)); cbn [negb andb] in *.
  - rewrite Hemit by reflexivity.
    cbn [emit with_trace with_vfd vfd vfd_cmd_queue sys trace].
    destruct (vfd m1); cbn in *. repeat split; assumption.
  - destruct (uart_param_config_ok hw); cbn [negb andb] in *;
      [destruct (uart_set_pin_ok hw); cbn [negb andb] in *;
       [destruct (uart_driver_install_ok hw); cbn [negb andb] in *;
        [destruct (uart_set_mode_ok hw); cbn [negb andb] in *; [discriminate|]|]|]|];
      rewrite !Hemit by reflexivity;
      cbn [emit with_trace with_vfd vfd vfd_cmd_queue sys trace];
      repeat split; assumption.
Qed.

(** X13. An [init] that does not get through (configuration fault, or
    one of the four UART calls failing) leaves the device unusable but
    otherwise as it was: [vfd_ok] is cleared even if the device worked
    before, while the queue, the running task, the cached state and the
    cached rpm are untouched and no task is created; the rpm limits are
    reloaded from the settings all the same. *)
Theorem init_failure_state (def : MachineDef) (hw : UartDriver) (m : Machine) :
  init_succeeds def hw (settings m) = false ->
  let m' := init def hw m in
  vfd_ok (vfd m') = false
  /\ vfd_cmd_queue m' = vfd_cmd_queue m
  /\ _task_running (vfd m') = _task_running (vfd m)
  /\ count_task_creates (trace m') = count_task_creates (trace m)
  /\ _current_state (vfd m') = _current_state (vfd m)
  /\ _current_rpm (vfd m') = _current_rpm (vfd m)
  /\ _min_rpm (vfd m') = rpm_min (settings m)
  /\ _max_rpm (vfd m') = rpm_max (settings m)
  /\ sys m' = sys m.
Proof. exact (init_failure_fields def hw m). Qed.

Lemma init_failure_state_witness :
  let hw := {| uart_param_config_ok := true; uart_set_pin_ok := true;
               uart_driver_install_ok := false; uart_set_mode_ok := true |} in
  let m' := init Bench.all_pins hw Bench.running_with_backlog in
  vfd_ok (vfd m') = false /\ get_state m' = Cw /\ length (vfd_cmd_queue m') = 3%nat.
Proof.
  intros hw m'.
  destruct (init_failure_state Bench.all_pins hw Bench.running_with_backlog eq_refl)
    as (Hok & Hq & _ & _ & Hst & _).
  fold m' in Hok, Hq, Hst.
  split; [exact Hok|]. split; [exact Hst | rewrite Hq; reflexivity].
Defined.

Section CallSequences.
Context {consts : VFDConstants} {drive : VFDProtocol}.

Lemma set_state_not_ok_trace (st : SpindleState) (rpm : Z) (m : Machine) :
  vfd_ok (vfd m) = false ->
  trace (set_state st rpm m) = trace m
  \/ exists d, trace (set_state st rpm m) = trace m ++ [McDwell d].
Proof.
  intros Hok. unfold set_state.
  destruct (abort (sys m)); [left; reflexivity|].
  rewrite (set_mode_not_ok st _ m Hok). cbn [fst].
  rewrite !(set_rpm_not_ok rpm m Hok). cbn [fst].
  destruct (SpindleState_eqb (_current_state (vfd m)) st) eqn:Est; cbn [negb].
  - destruct (_current_rpm (vfd m) =? rpm); left; reflexivity.
  - destruct (SpindleState_eqb st Disable); cbn [vfd with_sys]; rewrite ?Est;
      cbn [negb]; right; eexists; reflexivity.
Qed.

Lemma task_created_once_step (m m' : Machine) (extra : list Event) :
  task_created_once m ->
  _task_running (vfd m') = _task_running (vfd m) ->
  trace m' = trace m ++ extra ->
  count_task_creates extra = 0%nat ->
  task_created_once m'.
Proof.
  unfold task_created_once. intros H Hrun Ht He.
  rewrite Hrun, Ht, count_task_creates_app, He. lia.
Qed.

Lemma set_mode_keeps_task (mode : SpindleState) (crit : bool) (m : Machine) :
  task_created_once m -> task_created_once (fst (set_mode mode crit m)).
Proof.
  intros H. destruct (vfd_ok (vfd m)) eqn:Hok.
  - destruct (set_mode_fields mode crit m Hok) as (Hv & _ & _ & Ht & _).
    destruct Ht as [Ht|Ht].
    + apply (task_created_once_step m _ []); auto.
      * rewrite Hv. reflexivity.
      * rewrite app_nil_r. exact Ht.
    + apply (task_created_once_step m _ [Log "VFD Queue Full" []]); auto.
      rewrite Hv. reflexivity.
  - rewrite (set_mode_not_ok mode crit m Hok). exact H.
Qed.

Lemma set_rpm_keeps_task (rpm : Z) (m : Machine) :
  task_created_once m -> task_created_once (fst (set_rpm rpm m)).
Proof.
  intros H. destruct (vfd_ok (vfd m)) eqn:Hok.
  - destruct (set_rpm_fields rpm m Hok) as (Hv & _ & _ & Ht & _).
    destruct Ht as [Ht|Ht].
    + apply (task_created_once_step m _ []); auto.
      * rewrite Hv. reflexivity.
      * rewrite app_nil_r. exact Ht.
    + apply (task_created_once_step m _ [Log "VFD Queue Full" []]); auto.
      rewrite Hv. reflexivity.
  - rewrite (set_rpm_not_ok rpm m Hok). exact H.
Qed.

Lemma set_state_keeps_task (st : SpindleState) (rpm : Z) (m : Machine) :
  task_created_once m -> task_created_once (set_state st rpm m).
Proof.
  intros H. destruct (abort (sys m)) eqn:Habort.
  { unfold set_state. rewrite Habort. exact H. }
  destruct (vfd_ok (vfd m)) eqn:Hok.
  - destruct (set_state_ok_fields st rpm m Hok Habort)
      as (_ & _ & _ & _ & _ & _ & _ & (logs & Ht & Hl) & _ & Hrun).
    apply (task_created_once_step m _ logs); auto.
    apply only_logs_no_task. exact Hl.
  - destruct (set_state_not_ok st rpm m Hok) as (_ & _ & Hv).
    rewrite Habort in Hv.
    destruct (set_state_not_ok_trace st rpm m Hok) as [Ht|[d Ht]].
    + apply (task_created_once_step m _ []); auto.
      * rewrite Hv. reflexivity.
      * rewrite app_nil_r. exact Ht.
    + apply (task_created_once_step m _ [McDwell d]); auto.
      rewrite Hv. reflexivity.
Qed.

Lemma init_keeps_task (def : MachineDef) (hw : UartDriver) (m : Machine) :
  task_created_once m -> task_created_once (init def hw m).
Proof.
  unfold task_created_once. intros H.
  destruct (init_succeeds def hw (settings m)) eqn:Einit.
  - unfold init_succeeds in Einit.
    repeat (apply andb_prop in Einit; destruct Einit as [Einit ?]).
    apply negb_true_iff in Einit.
    destruct (init_success_fields def hw m) as (_ & _ & _ & _ & _ & _ & Hrun & _ & Ht & _);
      try assumption.
    rewrite Hrun, Ht, H. destruct (_task_running (vfd m)); reflexivity.
  - destruct (init_failure_fields def hw m Einit) as (_ & _ & Hrun & Ht & _).
    rewrite Hrun, Ht. exact H.
Qed.

(** X14. Whatever sequence of controller calls is made ([init],
    [set_state], [set_mode], [set_rpm], [stop], in any order and with any
    arguments), starting with no task and a queue within bounds, the
    communications task is created at most once and the queue never holds
    more than [VFD_RS485_QUEUE_SIZE] envelopes. *)
Theorem run_keeps_invariants (cs : list Call) (m : Machine) :
  queue_in_bounds m ->
  task_created_once m ->
  queue_in_bounds (run cs m)
  /\ task_created_once (run cs m)
  /\ (count_task_creates (trace (run cs m)) <= 1)%nat.
Proof.
  revert m. induction cs as [|c cs IH]; intros m Hq Ht.
  - cbn. split; [exact Hq|]. split; [exact Ht|].
    unfold task_created_once in Ht. rewrite Ht.
    destruct (_task_running (vfd m)); lia.
  - change (run (c :: cs) m) with (run cs (call c m)).
    destruct (controller_queue_bounded m Hq) as (Q1 & Q2 & Q3 & Q4 & Q5).
    apply IH.
    + destruct c; cbn [call]; auto.
    + destruct c; cbn [call].
      * apply init_keeps_task; exact Ht.
      * apply set_state_keeps_task; exact Ht.
      * apply set_mode_keeps_task; exact Ht.
      * apply set_rpm_keeps_task; exact Ht.
      * apply set_mode_keeps_task; exact Ht.
Qed.

End CallSequences.

Lemma run_keeps_invariants_witness :
  let cs := [CallInit Bench.all_pins Bench.uart_fine; CallSetState Cw 500;
             CallInit Bench.no_rts_pin Bench.uart_fine;
             CallInit Bench.all_pins Bench.uart_fine; CallSetState Ccw 800; CallStop] in
  (count_task_creates
     (trace (@run Bench.consts Bench.full_drive cs (Bench.machine Bench.vfd_off [] 0)))
   <= 1)%nat.
Proof.
  intros cs.
  apply (@run_keeps_invariants Bench.consts Bench.full_drive cs
           (Bench.machine Bench.vfd_off [] 0)).
  - unfold queue_in_bounds, VFD_RS485_QUEUE_SIZE. cbn. lia.
  - reflexivity.
Defined.

(** * Further properties of the communications task *)

Lemma failed_attempts_settings (k : nat) (m : Machine) :
  settings (Nat.iter k after_failed_attempt m) = settings m.
Proof.
  induction k as [|k IH]; [reflexivity|].
  rewrite Nat.iter_succ. unfold after_failed_attempt at 1. cbn [settings]. exact IH.
Qed.

Section TaskOutcomes.
Context {consts : VFDConstants} {drive : VFDProtocol}.
Variable link : nat -> Z * list Z.

(** An attempt whose response passes the test: the loop is told to stop,
    the fault flag is cleared unless the parser objects, and only the
    parser can change the device object. *)
Lemma attempt_answered (parser : option response_parser) (rc : Z) (m : Machine) :
  response_at link m 0 = true ->
  let m' := snd (attempt link parser rc m) in
  let rx := snd (link (uart_reads m)) in
  fst (attempt link parser rc m) = MAX_RETRIES + 1
  /\ sys m' = sys m /\ settings m' = settings m
  /\ vfd_cmd_queue m' = vfd_cmd_queue m
  /\ pollidx m' = pollidx m /\ next_cmd m' = next_cmd m
  /\ uart_reads m' = S (uart_reads m)
  /\ (exists logs,
         trace m' = trace m ++ [UartFlush; UartWrite (tx_bytes (next_cmd m))] ++ logs
         /\ forallb is_log logs = true)
  /\ match parser with
     | None => vfd m' = vfd m /\ unresponsive m' = false
     | Some p => vfd m' = snd (p rx (vfd m))
                 /\ unresponsive m' = negb (fst (p rx (vfd m)))
     end.
Proof.
  unfold response_at, attempt. rewrite Nat.add_0_r. machine_simpl.
  destruct (link (uart_reads m)) as [len rx]. cbn [fst snd]. intros ->.
  destruct parser as [p|].
  - destruct (p rx (vfd m)) as [parsed v]. destruct parsed; cbn [negb fst snd];
      machine_simpl; rewrite <- ?app_assoc; cbn [app].
    + do 7 (split; [reflexivity|]). split; [|split; reflexivity].
      exists []. split; reflexivity.
    + do 7 (split; [reflexivity|]). split; [|split; reflexivity].
      eexists [_]. split; reflexivity.
  - machine_simpl. rewrite <- ?app_assoc. cbn [app].
    do 7 (split; [reflexivity|]). split; [|split; reflexivity].
    exists []. split; reflexivity.
Qed.

(** How the retry loop can end: after [k] unanswered attempts either the
    ceiling is reached, or the next attempt is answered. *)
Lemma retry_loop_outcome (fuel : nat) (parser : option response_parser)
      (rc rc' : Z) (m m' : Machine) :
  retry_loop link fuel parser rc m = Some (rc', m') ->
  rc <= MAX_RETRIES ->
  exists k,
    (forall i, (i < k)%nat -> response_at link m i = false)
    /\ ((rc' = MAX_RETRIES
         /\ rc + Z.of_nat k = MAX_RETRIES
         /\ m' = Nat.iter k after_failed_attempt m)
        \/ (rc' = MAX_RETRIES + 2
            /\ rc + Z.of_nat k < MAX_RETRIES
            /\ response_at link m k = true
            /\ m' = snd (attempt link parser (rc + Z.of_nat k)
                                 (Nat.iter k after_failed_attempt m)))).
Proof.
  revert rc m. induction fuel as [|fuel IH]; intros rc m; cbn [retry_loop].
  - destruct (Z.ltb_spec rc MAX_RETRIES); [discriminate|].
    intros [= <- <-] Hle. exists 0%nat. split; [intros i Hi; lia|].
    left. cbn [Z.of_nat]. repeat split; lia.
  - destruct (Z.ltb_spec rc MAX_RETRIES) as [Hlt|Hge].
    + destruct (response_at link m 0) eqn:Er.
      * (* answered at once *)
        destruct (attempt_answered parser rc m Er) as (Hrc & _).
        destruct (attempt link parser rc m) as [rc1 m1] eqn:Ea. cbn [fst snd] in Hrc.
        subst rc1. rewrite (retry_loop_done link) by lia.
        intros [= <- <-] _. exists 0%nat. split; [intros i Hi; lia|].
        right. cbn [Z.of_nat]. rewrite Z.add_0_r.
        change (Nat.iter 0 after_failed_attempt m) with m.
        rewrite Ea. repeat split; try lia. exact Er.
      * rewrite (attempt_failed link parser rc m Er).
        intros Hloop _. destruct (IH _ _ Hloop ltac:(lia)) as (k & Hfail & Hend).
        exists (S k). split.
        { intros [|i] Hi; [exact Er|].
          rewrite <- response_at_shift. apply Hfail. lia. }
        rewrite Nat.iter_succ_r, Nat2Z.inj_succ.
        replace (rc + Z.succ (Z.of_nat k)) with (rc + 1 + Z.of_nat k) by lia.
        rewrite <- response_at_shift. exact Hend.
    + intros [= <- <-] Hle. exists 0%nat. split; [intros i Hi; lia|].
      left. cbn [Z.of_nat]. repeat split; lia.
Qed.

Lemma static_step_trans (a b c : Machine) :
  static_step a b -> static_step b c -> static_step a c.
Proof.
  unfold static_step. intros (? & ? & ?) (? & ? & ?). repeat split; congruence.
Qed.

Lemma choose_request_static (m : Machine) : static_step m (fst (choose_request m)).
Proof.
  unfold choose_request, static_step. cbv zeta.
  destruct (pollidx _ =? 0); [repeat split|].
  destruct (_max_rpm _ =? 0); [|repeat split].
  destruct (get_max_rpm _ _) as [c [p|]]; repeat split.
Qed.

Lemma poll_status_static (m : Machine) : static_step m (fst (poll_status m)).
Proof.
  unfold poll_status, static_step.
  destruct (get_status_ok _ _) as [c p]; repeat split.
Qed.

Lemma poll_direction_static (m : Machine) : static_step m (fst (poll_direction m)).
Proof.
  unfold poll_direction. cbv zeta.
  destruct (get_current_direction _ _) as [c [p|]]; [repeat split|].
  eapply static_step_trans; [|apply poll_status_static]. repeat split.
Qed.

Lemma poll_rpm_static (m : Machine) : static_step m (fst (poll_rpm m)).
Proof.
  unfold poll_rpm. cbv zeta.
  destruct (get_current_rpm _ _) as [c [p|]]; [repeat split|].
  eapply static_step_trans; [|apply poll_direction_static]. repeat split.
Qed.

Lemma poll_cycle_static (m : Machine) : static_step m (fst (poll_cycle m)).
Proof.
  unfold poll_cycle.
  destruct (pollidx m =? 1); [apply poll_rpm_static|].
  destruct (pollidx m =? 2); [apply poll_direction_static|].
  destruct (pollidx m =? 3); [apply poll_status_static|].
  repeat split.
Qed.

(** Fetching leaves the globals and settings alone and takes at most the
    head of the queue. *)
Lemma fetch_static (m : Machine) :
  sys (fst (fetch m)) = sys m
  /\ settings (fst (fetch m)) = settings m
  /\ dequeued_at_most_one m (fst (fetch m)).
Proof.
  unfold fetch, dequeued_at_most_one.
  pose proof (choose_request_static m) as (S1 & E1 & Q1).
  destruct (choose_request m) as [m1 [p|]]; cbn [fst snd] in *.
  { repeat split; auto. }
  unfold xQueueReceive.
  destruct (vfd_cmd_queue m1) as [|c q] eqn:Eq; cbn [fst snd].
  - pose proof (poll_cycle_static m1) as (S2 & E2 & Q2).
    destruct (poll_cycle m1) as [m2 [p|]]; cbn [fst snd] in *;
      cbn [emit with_trace sys settings vfd_cmd_queue];
      repeat split; try congruence; left; congruence.
  - cbn [with_next_cmd with_queue sys settings vfd_cmd_queue].
    repeat split; auto. right. exists c. congruence.
Qed.

Lemma response_at_iter (k i : nat) (m : Machine) :
  response_at link (Nat.iter k after_failed_attempt m) i = response_at link m (k + i).
Proof.
  destruct (failed_attempts_fields k m) as (_ & _ & _ & _ & _ & Hn & Hr & _).
  unfold response_at. rewrite Hn, Hr, Nat.add_assoc. reflexivity.
Qed.

(** How a transaction can end. *)
Lemma transact_outcome (parser : option response_parser) (m m' : Machine) :
  0 <= MAX_RETRIES ->
  transact link parser m = Some m' ->
  let m0 := with_next_cmd m (add_crc (next_cmd m)) in
  exists k,
    (forall i, (i < k)%nat -> response_at link m0 i = false)
    /\ ((Z.of_nat k = MAX_RETRIES
         /\ m' = emit (TaskDelay VFD_RS485_POLL_RATE)
                      (escalate MAX_RETRIES (Nat.iter k after_failed_attempt m0)))
        \/ (Z.of_nat k < MAX_RETRIES
            /\ response_at link m0 k = true
            /\ m' = emit (TaskDelay VFD_RS485_POLL_RATE)
                         (snd (attempt link parser (Z.of_nat k)
                                       (Nat.iter k after_failed_attempt m0))))).
Proof.
  intros Hmax H. cbv zeta.
  set (m0 := with_next_cmd m (add_crc (next_cmd m))).
  unfold transact in H. cbv zeta in H. fold m0 in H.
  destruct (retry_loop link (Z.to_nat MAX_RETRIES) parser 0 m0) as [[rc m2]|] eqn:Eloop;
    [|discriminate].
  injection H as <-.
  destruct (retry_loop_outcome _ _ _ _ _ _ Eloop Hmax) as (k & Hfail & Hend).
  exists k. split; [exact Hfail|].
  destruct Hend as [(-> & Hk & ->) | (-> & Hk & Hr & ->)].
  - left. split; [lia | reflexivity].
  - right. split; [lia|]. split; [exact Hr|].
    unfold escalate.
    destruct (Z.eqb_spec (MAX_RETRIES + 2) MAX_RETRIES); [lia|].
    rewrite Z.add_0_l. reflexivity.
Qed.

(** What the escalation can do. *)
Lemma escalate_fields (rc : Z) (m : Machine) :
  sys (escalate rc m) = sys m /\ settings (escalate rc m) = settings m
  /\ vfd_cmd_queue (escalate rc m) = vfd_cmd_queue m
  /\ vfd (escalate rc m) = vfd m
  /\ next_cmd (escalate rc m) = next_cmd m
  /\ uart_reads (escalate rc m) = uart_reads m
  /\ count_writes (trace (escalate rc m)) = count_writes (trace m)
  /\ (count_alarms (trace (escalate rc m)) = count_alarms (trace m)
      \/ (count_alarms (trace (escalate rc m)) = S (count_alarms (trace m))
          /\ rc = MAX_RETRIES /\ unresponsive m = false
          /\ critical (next_cmd m) = true /\ unresponsive (escalate rc m) = true)).
Proof.
  unfold escalate.
  destruct (Z.eqb_spec rc MAX_RETRIES) as [Hrc|]; [|repeat split; auto].
  destruct (unresponsive m) eqn:Hun; cbn [negb]; [repeat split; auto|].
  machine_simpl.
  destruct (critical (next_cmd m)) eqn:Hcrit; machine_simpl;
    rewrite ?count_writes_app, ?count_alarms_app; cbn;
    repeat split; lia.
Qed.

(** What a transaction leaves behind, whatever the link does. *)
Lemma transact_facts (parser : option response_parser) (m m' : Machine) :
  0 <= MAX_RETRIES ->
  transact link parser m = Some m' ->
  sys m' = sys m /\ settings m' = settings m
  /\ vfd_cmd_queue m' = vfd_cmd_queue m
  /\ (count_writes (trace m') <= count_writes (trace m) + Z.to_nat MAX_RETRIES)%nat
  /\ (uart_reads m' + count_writes (trace m) = uart_reads m + count_writes (trace m'))%nat
  /\ (count_alarms (trace m') = count_alarms (trace m)
      \/ (count_alarms (trace m') = S (count_alarms (trace m))
          /\ unresponsive m = false /\ unresponsive m' = true
          /\ critical (next_cmd m') = true
          /\ count_writes (trace m') = (count_writes (trace m) + Z.to_nat MAX_RETRIES)%nat
          /\ vfd m' = vfd m)).
Proof.
  intros Hmax Ht.
  destruct (transact_outcome parser m m' Hmax Ht) as (k & _ & Hend).
  set (m0 := with_next_cmd m (add_crc (next_cmd m))) in *.
  destruct (failed_attempts_fields k m0)
    as (Fs & Fv & Fq & Fu & _ & Fn & Fr & Ftr).
  pose proof (failed_attempts_settings k m0) as Fse.
  set (mk := Nat.iter k after_failed_attempt m0) in *.
  assert (Fw : count_writes (trace mk) = (count_writes (trace m) + k)%nat).
  { rewrite Ftr, count_writes_app, count_writes_attempts. unfold m0.
    cbn [with_next_cmd trace]. reflexivity. }
  assert (Fa : count_alarms (trace mk) = count_alarms (trace m)).
  { rewrite Ftr, count_alarms_app, count_alarms_attempts. unfold m0.
    cbn [with_next_cmd trace]. lia. }
  destruct Hend as [(Hk & ->) | (Hk & Hr & ->)].
  - destruct (escalate_fields MAX_RETRIES mk)
      as (Es & Ese & Eq & Ev & En & Er & Ew & Ea).
    machine_simpl. rewrite count_writes_app, count_alarms_app. cbn.
    rewrite Es, Ese, Eq, Er, Ew, Fs, Fse, Fq, Fr, Fw.
    assert (Hk' : k = Z.to_nat MAX_RETRIES) by (clear - Hk; lia).
    assert (Hr0 : uart_reads m0 = uart_reads m) by reflexivity.
    assert (Hv0 : vfd m0 = vfd m) by reflexivity.
    assert (Hu0 : unresponsive m0 = unresponsive m) by reflexivity.
    do 3 (split; [reflexivity|]).
    rewrite Hr0, Fa, Hv0, Hu0 in *. clearbody mk m0.
    split; [lia|]. split; [lia|].
    destruct Ea as [Ea | (Ea & _ & Hun & Hcrit & Hun')].
    + left. lia.
    + right. rewrite En, Ev, Fv. rewrite Fu in Hun.
      split; [lia|]. split; [exact Hun|]. split; [exact Hun'|].
      split; [exact Hcrit|]. split; [lia | reflexivity].
  - assert (Hr0 : response_at link mk 0 = true)
      by (unfold mk; rewrite response_at_iter, Nat.add_0_r; exact Hr).
    destruct (attempt_answered parser (Z.of_nat k) mk Hr0)
      as (_ & As & Ase & Aq & _ & _ & Ar & (logs & Atr & Al) & _).
    destruct (only_logs_counts logs Al) as (_ & Lw & La).
    machine_simpl.
    rewrite count_writes_app, count_alarms_app, Atr, As, Ase, Aq, Ar.
    rewrite !count_writes_app, !count_alarms_app, Lw, La, Fw, Fa, Fs, Fse, Fq, Fr.
    cbn. do 3 (split; [reflexivity|]). split; [lia|]. split; [lia|].
    left. lia.
Qed.

(** The envelope an iteration ends with is the one it sent. *)
Lemma transact_next_cmd (parser : option response_parser) (m m' : Machine) :
  0 <= MAX_RETRIES ->
  transact link parser m = Some m' ->
  next_cmd m' = add_crc (next_cmd m) /\ pollidx m' = pollidx m.
Proof.
  intros Hmax Ht.
  destruct (transact_outcome parser m m' Hmax Ht) as (k & _ & Hend).
  set (m0 := with_next_cmd m (add_crc (next_cmd m))) in *.
  destruct (failed_attempts_fields k m0) as (_ & _ & _ & _ & Fp & Fn & _ & _).
  set (mk := Nat.iter k after_failed_attempt m0) in *.
  destruct Hend as [(Hk & ->) | (Hk & Hr & ->)].
  - machine_simpl.
    destruct (escalate_fields MAX_RETRIES mk) as (_ & _ & _ & _ & En & _).
    rewrite En, Fn. split; [reflexivity|].
    unfold escalate. rewrite Z.eqb_refl.
    destruct (unresponsive mk); cbn [negb]; [exact Fp|].
    machine_simpl. destruct (critical (next_cmd mk)); machine_simpl; exact Fp.
  - assert (Hr' : response_at link mk 0 = true)
      by (unfold mk; rewrite response_at_iter, Nat.add_0_r; exact Hr).
    destruct (attempt_answered parser (Z.of_nat k) mk Hr')
      as (_ & _ & _ & _ & Ap & An & _).
    machine_simpl. rewrite An, Ap, Fn, Fp. split; reflexivity.
Qed.

(** An iteration that raises the alarm got no valid response to any of
    its [MAX_RETRIES] attempts. *)
Lemma transact_alarm_unanswered (parser : option response_parser) (m m' : Machine) :
  0 <= MAX_RETRIES ->
  transact link parser m = Some m' ->
  count_alarms (trace m') <> count_alarms (trace m) ->
  forall i, (i < Z.to_nat MAX_RETRIES)%nat ->
            response_at link (with_next_cmd m (add_crc (next_cmd m))) i = false.
Proof.
  intros Hmax Ht Hne.
  destruct (transact_outcome parser m m' Hmax Ht) as (k & Hfail & Hend).
  set (m0 := with_next_cmd m (add_crc (next_cmd m))) in *.
  destruct Hend as [(Hk & _) | (Hk & Hr & Hm')].
  - intros i Hi. apply Hfail. lia.
  - exfalso. apply Hne.
    destruct (failed_attempts_fields k m0) as (_ & _ & _ & _ & _ & _ & _ & Ftr).
    set (mk := Nat.iter k after_failed_attempt m0) in *.
    assert (Hr0 : response_at link mk 0 = true)
      by (unfold mk; rewrite response_at_iter, Nat.add_0_r; exact Hr).
    destruct (attempt_answered parser (Z.of_nat k) mk Hr0)
      as (_ & _ & _ & _ & _ & _ & _ & (logs & Atr & Al) & _).
    destruct (only_logs_counts logs Al) as (_ & _ & La).
    rewrite Hm'. machine_simpl.
    rewrite count_alarms_app, Atr, !count_alarms_app, La, Ftr, count_alarms_app,
      count_alarms_attempts.
    unfold m0. machine_simpl. cbn. lia.
Qed.

(** X15. One iteration of the task, whatever the link and the drive do:
    it never touches the globals or the settings, takes at most the head
    of the queue and never adds to it, writes to the bus at most
    [MAX_RETRIES] times with exactly one read per write, and raises at
    most one alarm. *)
Theorem iteration_footprint (m m' : Machine) :
  0 <= MAX_RETRIES ->
  vfd_cmd_iter link m = Some m' ->
  sys m' = sys m
  /\ settings m' = settings m
  /\ dequeued_at_most_one m m'
  /\ (count_writes (trace m') <= count_writes (trace m) + Z.to_nat MAX_RETRIES)%nat
  /\ (uart_reads m' + count_writes (trace m) = uart_reads m + count_writes (trace m'))%nat
  /\ (count_alarms (trace m') <= S (count_alarms (trace m)))%nat.
Proof.
  intros Hmax. unfold vfd_cmd_iter.
  destruct (fetch_keeps m) as (_ & _ & Kr & Ka & Kw & _).
  destruct (fetch_static m) as (Ks & Kse & Kq).
  destruct (fetch m) as [m1 [parser|]]; cbn [fst snd] in *.
  - intros Ht.
    destruct (transact_facts parser m1 m' Hmax Ht) as (Ts & Tse & Tq & Tw & Tr & Ta).
    unfold dequeued_at_most_one in *. rewrite Ts, Tse, Tq.
    repeat split; try assumption; lia.
  - intros [= <-]. repeat split; try assumption; lia.
Qed.

(** X16. The alarm is raised only in one situation: the device was not
    yet flagged unresponsive, the envelope sent is critical and every one
    of the [MAX_RETRIES] attempts at sending it went without a response
    that passes the response test; the flag is set by the same iteration
    and the device object is left as it was. *)
Theorem alarm_only_after_exhausted_critical (m m' : Machine) :
  0 <= MAX_RETRIES ->
  vfd_cmd_iter link m = Some m' ->
  count_alarms (trace m') <> count_alarms (trace m) ->
  unresponsive m = false
  /\ unresponsive m' = true
  /\ critical (next_cmd m') = true
  /\ count_writes (trace m') = (count_writes (trace m) + Z.to_nat MAX_RETRIES)%nat
  /\ vfd m' = vfd m
  /\ snd (fetch m) <> None
  /\ next_cmd m' = add_crc (next_cmd (fst (fetch m)))
  /\ (forall i, (i < Z.to_nat MAX_RETRIES)%nat ->
                response_at link (with_next_cmd m (next_cmd m')) i = false).
Proof.
  intros Hmax. unfold vfd_cmd_iter.
  destruct (fetch_keeps m) as (Ku & Kv & Kr & Ka & Kw & _).
  destruct (fetch m) as [m1 [parser|]]; cbn [fst snd] in *.
  - intros Ht Hne.
    destruct (transact_facts parser m1 m' Hmax Ht) as (_ & _ & _ & _ & _ & Ta).
    destruct (transact_next_cmd parser m1 m' Hmax Ht) as (Tn & _).
    assert (Hne1 : count_alarms (trace m') <> count_alarms (trace m1)) by congruence.
    pose proof (transact_alarm_unanswered parser m1 m' Hmax Ht Hne1) as Hun.
    destruct Ta as [Ta | (Ta & Hu & Hu' & Hcrit & Hw & Hv)]; [congruence|].
    split; [congruence|]. split; [exact Hu'|]. split; [exact Hcrit|].
    split; [congruence|]. split; [congruence|].
    split; [discriminate|]. split; [exact Tn|].
    intros i Hi. specialize (Hun i Hi).
    unfold response_at in *. machine_simpl. rewrite Tn, <- Kr. exact Hun.
  - intros [= <-] Hne. congruence.
Qed.

End TaskOutcomes.

Lemma iteration_footprint_witness :
  exists m',
    @vfd_cmd_iter Bench.consts Bench.full_drive Bench.exception_link
                  (Bench.machine Bench.vfd0 [Bench.speed_cmd 300; Bench.speed_cmd 400] 1)
    = Some m'
    /\ length (vfd_cmd_queue m') = 1%nat
    /\ (count_writes (trace m') <= 3)%nat.
Proof.
  destruct (@vfd_cmd_iter_total Bench.consts Bench.full_drive Bench.exception_link
              (Bench.machine Bench.vfd0 [Bench.speed_cmd 300; Bench.speed_cmd 400] 1))
    as [m' E].
  exists m'. split; [exact E|].
  destruct (@iteration_footprint Bench.consts Bench.full_drive Bench.exception_link
              _ m' ltac:(cbn; lia) E) as (_ & _ & Hq & Hw & _).
  split; [|exact Hw].
  destruct Hq as [Hq | [c Hq]].
  - exfalso. vm_compute in E. injection E as <-. discriminate Hq.
  - cbn in Hq. injection Hq as _ Hq. rewrite <- Hq. reflexivity.
Defined.

Lemma alarm_only_after_exhausted_critical_witness :
  exists m',
    @vfd_cmd_iter Bench.consts Bench.full_drive Bench.silent_link
                  (Bench.machine Bench.vfd_unknown_max [] 1) = Some m'
    /\ unresponsive m' = true /\ count_writes (trace m') = 3%nat.
Proof.
  eexists. split; [vm_compute; reflexivity|].
  destruct (@alarm_only_after_exhausted_critical Bench.consts Bench.full_drive
              Bench.silent_link (Bench.machine Bench.vfd_unknown_max [] 1) _
              ltac:(cbn; lia) ltac:(vm_compute; reflexivity)
              ltac:(vm_compute; discriminate))
    as (_ & Hun & _ & Hw & _).
  split; [exact Hun | exact Hw].
Defined.

Section TaskScenarios.
Context {consts : VFDConstants} {drive : VFDProtocol}.
Variable link : nat -> Z * list Z.

(** An attempt answered by a frame that is accepted: by the parser, or as
    it is when the command carries none. *)
Lemma attempt_accepted (parser : option response_parser) (rc : Z) (m : Machine) :
  response_at link m 0 = true ->
  match parser with
  | None => True
  | Some p => fst (p (snd (link (uart_reads m))) (vfd m)) = true
  end ->
  attempt link parser rc m
  = (MAX_RETRIES + 1,
     mkMachine (sys m) (settings m)
               match parser with
               | None => vfd m
               | Some p => snd (p (snd (link (uart_reads m))) (vfd m))
               end
               (vfd_cmd_queue m) false (pollidx m) (next_cmd m) (S (uart_reads m))
               (trace m ++ [UartFlush; UartWrite (tx_bytes (next_cmd m))])).
Proof.
  unfold response_at, attempt. rewrite Nat.add_0_r. machine_simpl.
  destruct (link (uart_reads m)) as [len rx]. cbn [fst snd]. intros -> Hp.
  destruct parser as [p|].
  - destruct (p rx (vfd m)) as [parsed v]. cbn [fst snd] in *. subst parsed.
    cbn [negb]. f_equal.
    apply machine_ext; machine_simpl; rewrite <- ?app_assoc; reflexivity.
  - f_equal. apply machine_ext; machine_simpl; rewrite <- ?app_assoc; reflexivity.
Qed.

(** X17. Recovery. When, after [j] unanswered attempts ([j] below the
    ceiling), a frame passes the response test and is accepted (by the
    parser of the request, or without parsing for a queued command), the
    iteration stops retrying, clears the unresponsive flag whatever it was
    before, raises no alarm and logs nothing; the device object is what
    the parser made of it. *)
Theorem answered_request_clears_fault
        (m m1 : Machine) (parser : option response_parser) (j : nat) :
  fetch m = (m1, Some parser) ->
  let sent := add_crc (next_cmd m1) in
  let m0 := with_next_cmd m1 sent in
  let rx := snd (link (uart_reads m1 + j)%nat) in
  Z.of_nat j < MAX_RETRIES ->
  (forall i, (i < j)%nat -> response_at link m0 i = false) ->
  response_at link m0 j = true ->
  match parser with None => True | Some p => fst (p rx (vfd m)) = true end ->
  exists m',
    vfd_cmd_iter link m = Some m'
    /\ unresponsive m' = false
    /\ vfd m' = match parser with None => vfd m | Some p => snd (p rx (vfd m)) end
    /\ trace m'
       = trace m
         ++ concat (repeat (attempt_events sent) j)
         ++ [UartFlush; UartWrite (tx_bytes sent); TaskDelay VFD_RS485_POLL_RATE]
    /\ count_alarms (trace m') = count_alarms (trace m).
Proof.
  intros Hfetch sent m0 rx Hj Hfail Hgood Hparse.
  destruct (fetch_keeps m) as (_ & Kv & _ & _ & _ & Ht).
  rewrite Hfetch in Kv, Ht. cbn [fst snd] in Kv, Ht. specialize (Ht ltac:(discriminate)).
  unfold vfd_cmd_iter. rewrite Hfetch. unfold transact. fold sent m0.
  replace (Z.to_nat MAX_RETRIES) with (j + S (Z.to_nat MAX_RETRIES - j - 1))%nat by lia.
  assert (Hle : 0 + Z.of_nat j <= MAX_RETRIES) by lia.
  rewrite (retry_loop_failures link j _ parser 0 m0 Hfail Hle).
  destruct (failed_attempts_fields j m0) as (Hs & Hv & Hq & _ & Hp & Hn & Hr & Htk).
  pose proof (failed_attempts_settings j m0) as Hse.
  set (mj := Nat.iter j after_failed_attempt m0) in *.
  assert (Hgood' : response_at link mj 0 = true)
    by (unfold mj; rewrite response_at_iter, Nat.add_0_r; exact Hgood).
  assert (Hrx : snd (link (uart_reads mj)) = rx) by (rewrite Hr; reflexivity).
  assert (Hvj : vfd mj = vfd m) by (rewrite Hv; exact Kv).
  assert (Hparse' : match parser with
                    | None => True
                    | Some p => fst (p (snd (link (uart_reads mj))) (vfd mj)) = true
                    end)
    by (rewrite Hrx, Hvj; exact Hparse).
  cbn [retry_loop].
  destruct (Z.ltb_spec (0 + Z.of_nat j) MAX_RETRIES) as [_|]; [|lia].
  rewrite (attempt_accepted parser _ mj Hgood' Hparse').
  rewrite (retry_loop_done link) by lia.
  unfold escalate.
  destruct (Z.eqb_spec (MAX_RETRIES + 1 + 1) MAX_RETRIES) as [|_]; [lia|].
  eexists. split; [reflexivity|]. machine_simpl.
  rewrite Hrx, Hvj, Hn, Htk. unfold m0. machine_simpl. rewrite Ht.
  split; [reflexivity|]. split; [reflexivity|].
  assert (Htr : forall A (a b : list A) x y w,
             ((a ++ b) ++ [x; y]) ++ [w] = a ++ b ++ [x; y; w])
    by (intros; rewrite <- !app_assoc; reflexivity).
  rewrite Htr. split; [reflexivity|].
  rewrite !count_alarms_app, count_alarms_attempts. cbn. lia.
Qed.

(** X18. Sustained silence without escalation. On a link that never
    answers, an envelope that is not critical exhausts its retries with
    one log line and no alarm; and once the device is flagged
    unresponsive an exhausted envelope, critical or not, produces neither
    log line nor alarm.  In both cases the flag ends up set. *)
Theorem unanswered_without_alarm
        (m m1 : Machine) (parser : option response_parser) :
  0 <= MAX_RETRIES ->
  never_valid link ->
  fetch m = (m1, Some parser) ->
  critical (next_cmd m1) = false \/ unresponsive m = true ->
  let sent := add_crc (next_cmd m1) in
  exists m',
    vfd_cmd_iter link m = Some m'
    /\ unresponsive m' = true
    /\ count_alarms (trace m') = count_alarms (trace m)
    /\ trace m'
       = trace m
         ++ concat (repeat (attempt_events sent) (Z.to_nat MAX_RETRIES))
         ++ (if unresponsive m then []
             else [Log "Spindle RS485 Unresponsive %d" [rx_length sent]])
         ++ [TaskDelay VFD_RS485_POLL_RATE].
Proof.
  intros Hmax Hdead Hfetch Hcase sent.
  destruct (fetch_keeps m) as (Hu & _ & _ & _ & _ & Ht).
  rewrite Hfetch in Hu, Ht. cbn [fst snd] in Hu, Ht. specialize (Ht ltac:(discriminate)).
  unfold vfd_cmd_iter. rewrite Hfetch.
  rewrite (transact_never_valid link parser m1 Hmax Hdead). fold sent.
  destruct (failed_attempts_fields (Z.to_nat MAX_RETRIES) (with_next_cmd m1 sent))
    as (_ & _ & _ & Hk & _ & Hn & _ & Htk).
  set (mk := Nat.iter _ _ _) in *.
  assert (Hunk : unresponsive mk = unresponsive m) by (rewrite Hk; exact Hu).
  assert (Hnext : next_cmd mk = sent) by (rewrite Hn; reflexivity).
  assert (Htrace : trace mk
                   = trace m ++ concat (repeat (attempt_events sent) (Z.to_nat MAX_RETRIES)))
    by (rewrite Htk; machine_simpl; rewrite Ht; reflexivity).
  eexists. split; [reflexivity|].
  unfold escalate. rewrite Z.eqb_refl, Hunk.
  destruct (unresponsive m) eqn:Hun; cbn [negb].
  - machine_simpl. rewrite Hunk, Htrace.
    split; [reflexivity|]. rewrite <- !app_assoc. cbn [app].
    split; [|reflexivity].
    rewrite !count_alarms_app, count_alarms_attempts. cbn. lia.
  - destruct Hcase as [Hcrit|]; [|discriminate].
    machine_simpl. rewrite Hnext.
    assert (Hcs : critical sent = false) by exact Hcrit.
    rewrite Hcs. machine_simpl. rewrite Htrace.
    split; [reflexivity|]. rewrite <- !app_assoc. cbn [app].
    split; [|reflexivity].
    rewrite !count_alarms_app, count_alarms_attempts. cbn. lia.
Qed.

End TaskScenarios.

Lemma answered_request_clears_fault_witness :
  exists m',
    @vfd_cmd_iter Bench.consts Bench.full_drive late_echo_link Bench.running_with_backlog
    = Some m'
    /\ unresponsive m' = false
    /\ count_writes (trace m') = 2%nat
    /\ count_alarms (trace m') = 0%nat.
Proof.
  destruct (@answered_request_clears_fault Bench.consts Bench.full_drive late_echo_link
              Bench.running_with_backlog
              (fst (@fetch Bench.full_drive Bench.running_with_backlog))
              None 1%nat eq_refl ltac:(cbn; lia))
    as (m' & E & Hun & _ & Ht & Ha).
  - intros [|i] Hi; [reflexivity | lia].
  - vm_compute. reflexivity.
  - exact I.
  - exists m'. split; [exact E|]. split; [exact Hun|].
    split; [rewrite Ht; reflexivity | rewrite Ha; reflexivity].
Defined.

Lemma unanswered_without_alarm_witness :
  exists m',
    @vfd_cmd_iter Bench.consts Bench.full_drive Bench.silent_link
                  (Bench.machine Bench.vfd0 [Bench.speed_cmd 300] 1) = Some m'
    /\ unresponsive m' = true
    /\ count_alarms (trace m') = 0%nat
    /\ count_logs (trace m') = 1%nat.
Proof.
  destruct (@unanswered_without_alarm Bench.consts Bench.full_drive Bench.silent_link
              (Bench.machine Bench.vfd0 [Bench.speed_cmd 300] 1)
              (fst (@fetch Bench.full_drive
                           (Bench.machine Bench.vfd0 [Bench.speed_cmd 300] 1)))
              None ltac:(cbn; lia) silent_link_never_valid eq_refl
              (or_introl eq_refl))
    as (m' & E & Hun & Ha & Ht).
  exists m'. split; [exact E|]. split; [exact Hun|].
  split; [rewrite Ha; reflexivity | rewrite Ht; reflexivity].
Defined.

(** ** The queue is served first, and in order *)

Lemma written_frames_app (a b : list Event) :
  written_frames (a ++ b) = written_frames a ++ written_frames b.
Proof. unfold written_frames. apply flat_map_app. Qed.

Lemma written_frames_attempts (c : ModbusCommand) (k : nat) :
  written_frames (concat (repeat (attempt_events c) k)) = repeat (tx_bytes c) k.
Proof.
  induction k as [|k IH]; [reflexivity|].
  cbn [repeat concat]. rewrite written_frames_app, IH. reflexivity.
Qed.

Section QueueFirst.
Context {consts : VFDConstants} {drive : VFDProtocol}.
Variable link : nat -> Z * list Z.

Lemma written_frames_escalate (rc : Z) (m : Machine) :
  written_frames (trace (escalate rc m)) = written_frames (trace m).
Proof.
  unfold escalate.
  destruct (rc =? MAX_RETRIES); [|reflexivity].
  destruct (unresponsive m); cbn [negb]; [reflexivity|].
  machine_simpl.
  destruct (critical (next_cmd m)); machine_simpl;
    rewrite !written_frames_app; cbn; rewrite ?app_nil_r; reflexivity.
Qed.

(** With a command waiting and no capability request due, the fetch takes
    the head of the queue as it was queued and asks for no parsing. *)
Lemma fetch_queued (m : Machine) (c : ModbusCommand) (q : list ModbusCommand) :
  vfd_cmd_queue m = c :: q ->
  pollidx m = 0 \/ _max_rpm (vfd m) <> 0 ->
  exists m1,
    fetch m = (m1, Some None)
    /\ next_cmd m1 = c /\ vfd_cmd_queue m1 = q
    /\ sys m1 = sys m /\ settings m1 = settings m
    /\ pollidx m1 = (if pollidx m =? 0 then 1 else pollidx m)
    /\ quiet_step m m1.
Proof.
  intros Hq Hcase. unfold fetch, choose_request. machine_simpl.
  destruct (Z.eqb_spec (pollidx m) 0) as [Hp|Hp].
  - machine_simpl. unfold xQueueReceive. machine_simpl. rewrite Hq.
    eexists. split; [reflexivity|]. machine_simpl. unfold quiet_step. machine_simpl.
    repeat split; reflexivity.
  - destruct Hcase as [|Hmax]; [contradiction|].
    destruct (Z.eqb_spec (_max_rpm (vfd m)) 0) as [|_]; [contradiction|].
    machine_simpl. unfold xQueueReceive. machine_simpl. rewrite Hq.
    eexists. split; [reflexivity|]. machine_simpl. unfold quiet_step. machine_simpl.
    repeat split; reflexivity.
Qed.

(** One iteration with a command waiting: it is the one sent, between one
    and [MAX_RETRIES] times, and the device object is not touched. *)
Lemma queued_iteration (m : Machine) (c : ModbusCommand) (q : list ModbusCommand) :
  0 < MAX_RETRIES ->
  vfd_cmd_queue m = c :: q ->
  pollidx m = 0 \/ _max_rpm (vfd m) <> 0 ->
  exists m' k,
    vfd_cmd_iter link m = Some m'
    /\ vfd_cmd_queue m' = q /\ vfd m' = vfd m
    /\ sys m' = sys m /\ settings m' = settings m
    /\ pollidx m' <> 0
    /\ (1 <= k)%nat /\ Z.of_nat k <= MAX_RETRIES
    /\ written_frames (trace m')
       = written_frames (trace m) ++ repeat (tx_bytes (add_crc c)) k.
Proof.
  intros Hmax Hq Hcase.
  destruct (fetch_queued m c q Hq Hcase)
    as (m1 & Hf & Hn & Hq1 & Hs1 & Hse1 & Hp1 & (_ & Hv1 & _ & Ht1)).
  destruct (vfd_cmd_iter_total link m) as [m' E]. exists m'.
  unfold vfd_cmd_iter in E. rewrite Hf in E.
  assert (Hmax0 : 0 <= MAX_RETRIES) by lia.
  destruct (transact_outcome link None m1 m' Hmax0 E) as (k & _ & Hend).
  rewrite Hn in Hend.
  set (m0 := with_next_cmd m1 (add_crc c)) in *.
  destruct (failed_attempts_fields k m0) as (Fs & Fv & Fq & _ & Fp & Fn & Fr & Ftr).
  pose proof (failed_attempts_settings k m0) as Fse.
  set (mk := Nat.iter k after_failed_attempt m0) in *.
  assert (Hpk : pollidx mk <> 0).
  { rewrite Fp. unfold m0. machine_simpl. rewrite Hp1.
    destruct (Z.eqb_spec (pollidx m) 0); [discriminate | assumption]. }
  assert (Hwk : written_frames (trace mk)
                = written_frames (trace m) ++ repeat (tx_bytes (add_crc c)) k).
  { rewrite Ftr, written_frames_app, written_frames_attempts.
    unfold m0. machine_simpl. rewrite Ht1. reflexivity. }
  destruct Hend as [(Hk & ->) | (Hk & Hr & ->)].
  - exists k.
    destruct (escalate_fields MAX_RETRIES mk) as (Es & Ese & Eq & Ev & _).
    split; [unfold vfd_cmd_iter; rewrite Hf; exact E|]. machine_simpl.
    rewrite Eq, Ev, Es, Ese, Fq, Fv, Fs, Fse. unfold m0. machine_simpl.
    do 4 (split; [congruence|]).
    split.
    { unfold escalate. rewrite Z.eqb_refl.
      destruct (unresponsive mk); cbn [negb]; [exact Hpk|].
      machine_simpl. destruct (critical (next_cmd mk)); machine_simpl; exact Hpk. }
    split; [lia|]. split; [lia|].
    rewrite written_frames_app, written_frames_escalate, Hwk. cbn.
    rewrite app_nil_r. reflexivity.
  - exists (S k).
    assert (Hr' : response_at link mk 0 = true)
      by (unfold mk; rewrite response_at_iter, Nat.add_0_r; exact Hr).
    pose proof (attempt_accepted link None (Z.of_nat k) mk Hr' I) as Ha.
    rewrite Ha in E. rewrite Ha. clear Ha.
    split; [unfold vfd_cmd_iter; rewrite Hf; exact E|]. machine_simpl.
    rewrite Fq, Fv, Fs, Fse. unfold m0 at 1 2 3 4. machine_simpl.
    do 4 (split; [congruence|]).
    split; [exact Hpk|]. split; [lia|]. split; [lia|].
    rewrite !written_frames_app, Hwk, Fn. unfold m0 at 1. machine_simpl. cbn.
    rewrite app_nil_r, repeat_cons, app_assoc. reflexivity.
Qed.

End QueueFirst.

Section Backlog.
Context {consts : VFDConstants} {drive : VFDProtocol}.
Variable link : nat -> Z * list Z.

(** X19. The queue is served first and in order. Once the maximum rpm is
    known, as many iterations as there are queued commands send exactly
    those commands, in the order they were queued, each as the frame
    [add_crc] makes of it and each between one and [MAX_RETRIES] times;
    nothing else is written to the bus, no poll is interleaved, and
    whatever the link answers the device object, the globals and the
    settings are left as they were. *)
Theorem backlog_sent_in_order (cs rest : list ModbusCommand) (m : Machine) :
  0 < MAX_RETRIES ->
  _max_rpm (vfd m) <> 0 ->
  vfd_cmd_queue m = cs ++ rest ->
  exists m' ks,
    vfd_cmd_task link (length cs) m = Some m'
    /\ vfd_cmd_queue m' = rest
    /\ vfd m' = vfd m /\ sys m' = sys m /\ settings m' = settings m
    /\ length ks = length cs
    /\ Forall (fun k => (1 <= k)%nat /\ Z.of_nat k <= MAX_RETRIES) ks
    /\ written_frames (trace m') = written_frames (trace m) ++ frames_of cs ks.
Proof.
  intros Hmax. revert m. induction cs as [|c cs IH]; intros m Hrpm Hq.
  - exists m, []. cbn [length vfd_cmd_task]. split; [reflexivity|].
    split; [exact Hq|]. do 4 (split; [reflexivity|]).
    split; [constructor|]. unfold frames_of. cbn. rewrite app_nil_r. reflexivity.
  - cbn [app] in Hq.
    destruct (queued_iteration link m c (cs ++ rest) Hmax Hq (or_intror Hrpm))
      as (m1 & k & E1 & Hq1 & Hv1 & Hs1 & Hse1 & _ & Hk1 & Hk2 & Hw1).
    assert (Hrpm1 : _max_rpm (vfd m1) <> 0) by (rewrite Hv1; exact Hrpm).
    destruct (IH m1 Hrpm1 Hq1) as (m' & ks & E & Hq' & Hv' & Hs' & Hse' & Hl & Hf & Hw').
    exists m', (k :: ks). cbn [length vfd_cmd_task]. rewrite E1.
    split; [exact E|]. split; [exact Hq'|].
    split; [congruence|]. split; [congruence|]. split; [congruence|].
    split; [rewrite Hl; reflexivity|].
    split; [constructor; [split; assumption | exact Hf]|].
    rewrite Hw', Hw1, <- app_assoc. reflexivity.
Qed.

End Backlog.

Lemma backlog_sent_in_order_witness :
  exists m' ks,
    @vfd_cmd_task Bench.consts Bench.full_drive late_echo_link 3 Bench.running_with_backlog
    = Some m'
    /\ vfd_cmd_queue m' = []
    /\ written_frames (trace m')
       = frames_of [Bench.speed_cmd 300; Bench.speed_cmd 400; Bench.speed_cmd 500] ks.
Proof.
  destruct (@backlog_sent_in_order Bench.consts Bench.full_drive late_echo_link
              [Bench.speed_cmd 300; Bench.speed_cmd 400; Bench.speed_cmd 500] []
              Bench.running_with_backlog ltac:(cbn; lia) ltac:(cbn; lia) eq_refl)
    as (m' & ks & E & Hq & _ & _ & _ & _ & _ & Hw).
  exists m', ks. split; [exact E|]. split; [exact Hq | exact Hw].
Defined.

(** ** Polling *)

Section Polling.
Context {consts : VFDConstants} {drive : VFDProtocol}.
Variable link : nat -> Z * list Z.

Lemma poll_status_critical (m : Machine) :
  readers_keep_critical drive ->
  critical (next_cmd (fst (poll_status m))) = critical (next_cmd m).
Proof.
  intros H. unfold poll_status.
  destruct (H (vfd m) (next_cmd m)) as (_ & _ & Hs).
  destruct (get_status_ok (vfd m) (next_cmd m)) as [c p]. exact Hs.
Qed.

Lemma poll_direction_critical (m : Machine) :
  readers_keep_critical drive ->
  critical (next_cmd (fst (poll_direction m))) = critical (next_cmd m).
Proof.
  intros H. unfold poll_direction.
  destruct (H (vfd m) (next_cmd m)) as (_ & Hd & _).
  destruct (get_current_direction (vfd m) (next_cmd m)) as [c [p|]]; [exact Hd|].
  rewrite poll_status_critical by exact H. exact Hd.
Qed.

Lemma poll_rpm_critical (m : Machine) :
  readers_keep_critical drive ->
  critical (next_cmd (fst (poll_rpm m))) = critical (next_cmd m).
Proof.
  intros H. unfold poll_rpm.
  destruct (H (vfd m) (next_cmd m)) as (Hr & _ & _).
  destruct (get_current_rpm (vfd m) (next_cmd m)) as [c [p|]]; [exact Hr|].
  rewrite poll_direction_critical by exact H. exact Hr.
Qed.

Lemma poll_cycle_critical (m : Machine) :
  readers_keep_critical drive ->
  critical (next_cmd (fst (poll_cycle m))) = critical (next_cmd m).
Proof.
  intros H. unfold poll_cycle.
  destruct (pollidx m =? 1); [apply poll_rpm_critical, H|].
  destruct (pollidx m =? 2); [apply poll_direction_critical, H|].
  destruct (pollidx m =? 3); [apply poll_status_critical, H|].
  reflexivity.
Qed.

(** With nothing queued and no capability request due, the envelope
    fetched is critical exactly in the first iteration of the task. *)
Lemma fetch_poll_critical (m : Machine) :
  readers_keep_critical drive ->
  vfd_cmd_queue m = [] ->
  pollidx m = 0 \/ _max_rpm (vfd m) <> 0 ->
  critical (next_cmd (fst (fetch m))) = (pollidx m =? 0).
Proof.
  intros H Hq Hcase. unfold fetch, choose_request. machine_simpl.
  destruct (Z.eqb_spec (pollidx m) 0) as [Hp|Hp].
  - machine_simpl. unfold xQueueReceive. machine_simpl. rewrite Hq.
    set (m1 := with_next_cmd _ _).
    pose proof (poll_cycle_critical m1 H) as Hc.
    destruct (poll_cycle m1) as [m2 [p|]]; cbn [fst snd] in *; machine_simpl;
      rewrite Hc; reflexivity.
  - destruct Hcase as [|Hmax]; [contradiction|].
    destruct (Z.eqb_spec (_max_rpm (vfd m)) 0) as [|_]; [contradiction|].
    machine_simpl. unfold xQueueReceive. machine_simpl. rewrite Hq.
    set (m1 := with_next_cmd _ _).
    pose proof (poll_cycle_critical m1 H) as Hc.
    destruct (poll_cycle m1) as [m2 [p|]]; cbn [fst snd] in *; machine_simpl;
      rewrite Hc; reflexivity.
Qed.

(** X20. Routine polling never raises the alarm. After the first
    iteration, with the maximum rpm known, nothing queued and readers that
    leave the [critical] flag alone, an iteration raises no alarm whatever
    the link does, since the envelope it polls with is not critical. *)
Theorem idle_polls_never_alarm (m m' : Machine) :
  0 <= MAX_RETRIES ->
  readers_keep_critical drive ->
  vfd_cmd_queue m = [] ->
  pollidx m <> 0 ->
  _max_rpm (vfd m) <> 0 ->
  vfd_cmd_iter link m = Some m' ->
  count_alarms (trace m') = count_alarms (trace m)
  /\ vfd_cmd_queue m' = []
  /\ pollidx m' <> 0.
Proof.
  intros Hmax H Hq Hp Hrpm.
  pose proof (fetch_poll_critical m H Hq (or_intror Hrpm)) as Hc.
  destruct (fetch_keeps m) as (_ & _ & _ & Ka & _).
  destruct (fetch_static m) as (_ & _ & Kq).
  assert (Kp : pollidx (fst (fetch m)) <> 0).
  { unfold fetch, choose_request. machine_simpl.
    destruct (Z.eqb_spec (pollidx m) 0) as [|_]; [contradiction|].
    destruct (Z.eqb_spec (_max_rpm (vfd m)) 0) as [|_]; [contradiction|].
    machine_simpl. unfold xQueueReceive. machine_simpl. rewrite Hq.
    set (m1 := with_next_cmd _ _).
    assert (Hp1 : pollidx m1 <> 0) by exact Hp.
    clearbody m1. unfold poll_cycle, poll_rpm, poll_direction, poll_status.
    destruct (get_current_rpm (vfd m1) (next_cmd m1)) as [c1 p1].
    destruct (get_current_direction (vfd m1) (next_cmd m1)) as [c2 p2].
    destruct (get_current_direction (vfd (with_next_cmd m1 c1))
                                    (next_cmd (with_next_cmd m1 c1))) as [c3 p3].
    destruct (get_status_ok (vfd m1) (next_cmd m1)) as [c4 p4].
    destruct (get_status_ok (vfd (with_next_cmd m1 c2))
                            (next_cmd (with_next_cmd m1 c2))) as [c5 p5].
    destruct (get_status_ok (vfd (with_next_cmd (with_next_cmd m1 c1) c3))
                            (next_cmd (with_next_cmd (with_next_cmd m1 c1) c3)))
      as [c6 p6].
    destruct (pollidx m1 =? 1), (pollidx m1 =? 2), (pollidx m1 =? 3),
      p1, p2, p3, p4, p5, p6; machine_simpl; try discriminate; exact Hp1. }
  unfold vfd_cmd_iter.
  destruct (fetch m) as [m1 [parser|]]; cbn [fst snd] in *.
  - intros Ht.
    destruct (transact_facts link parser m1 m' Hmax Ht) as (_ & _ & Tq & _ & _ & Ta).
    destruct (transact_next_cmd link parser m1 m' Hmax Ht) as (Tn & Tp).
    split.
    { destruct Ta as [Ta | (_ & _ & _ & Hcrit & _)]; [congruence|].
      rewrite Tn in Hcrit. cbn [add_crc critical] in Hcrit.
      destruct (Z.eqb_spec (pollidx m) 0); [contradiction | congruence]. }
    split; [|congruence].
    rewrite Tq. destruct Kq as [Kq | [c Kq]]; congruence.
  - intros [= <-]. split; [exact Ka|]. split; [|exact Kp].
    destruct Kq as [Kq | [c Kq]]; congruence.
Qed.

End Polling.

Lemma idle_polls_never_alarm_witness :
  exists m',
    @vfd_cmd_iter Bench.consts Bench.full_drive Bench.silent_link
                  (Bench.machine Bench.vfd0 [] 2) = Some m'
    /\ count_alarms (trace m') = 0%nat
    /\ count_writes (trace m') = 3%nat.
Proof.
  eexists. split; [vm_compute; reflexivity|].
  split; [|vm_compute; reflexivity].
  apply (@idle_polls_never_alarm Bench.consts Bench.full_drive Bench.silent_link
           (Bench.machine Bench.vfd0 [] 2) _ ltac:(cbn; lia)).
  - intros v c. repeat split.
  - reflexivity.
  - cbn. lia.
  - cbn. lia.
  - vm_compute. reflexivity.
Defined.

Section PollingMore.
Context {consts : VFDConstants} {drive : VFDProtocol}.
Variable link : nat -> Z * list Z.

(** X21. The first poll is critical, and it is a poll. In the very
    first iteration of the task (poll index 0) with nothing queued, the
    request fetched is the one the polling switch yields from poll index
    1 for the addressed envelope marked critical: a poll, not the
    capability request, whether or not the maximum rpm is known.  The
    envelope stays critical, so on a link that never answers this first
    poll is written [MAX_RETRIES] times and then raises the alarm. *)
Theorem first_iteration_poll_alarms
        (m m1 : Machine) (p : response_parser) :
  0 <= MAX_RETRIES ->
  never_valid link ->
  readers_keep_critical drive ->
  unresponsive m = false ->
  pollidx m = 0 ->
  vfd_cmd_queue m = [] ->
  let c0 := set_critical (set_msg0 (next_cmd m) VFD_RS485_ADDR) true in
  poll_cycle (with_next_cmd (with_pollidx m 1) c0) = (m1, Some p) ->
  fetch m = (m1, Some (Some p))
  /\ critical (next_cmd m1) = true
  /\ exists m',
      vfd_cmd_iter link m = Some m'
      /\ written_frames (trace m')
         = written_frames (trace m)
           ++ repeat (tx_bytes (add_crc (next_cmd m1))) (Z.to_nat MAX_RETRIES)
      /\ count_alarms (trace m') = S (count_alarms (trace m))
      /\ unresponsive m' = true
      /\ vfd m' = vfd m.
Proof.
  intros Hmax Hdead Hkeep Hun Hp Hq c0 Hpoll.
  assert (Hfetch : fetch m = (m1, Some (Some p))).
  { unfold fetch, choose_request. machine_simpl. rewrite Hp.
    change (0 =? 0) with true. cbv iota. machine_simpl.
    unfold xQueueReceive. machine_simpl. rewrite Hq.
    match goal with
    | |- context [poll_cycle ?x] =>
        change x with (with_next_cmd (with_pollidx m 1) c0)
    end.
    rewrite Hpoll. reflexivity. }
  split; [exact Hfetch|].
  pose proof (fetch_poll_critical m Hkeep Hq (or_introl Hp)) as Hc.
  rewrite Hfetch, Hp in Hc. cbn [fst] in Hc. change (0 =? 0) with true in Hc.
  split; [exact Hc|].
  destruct (fetch_keeps m) as (Hu & Hv & _ & Ha & _ & Ht).
  rewrite Hfetch in Hu, Hv, Ha, Ht. cbn [fst snd] in Hu, Hv, Ha, Ht.
  specialize (Ht ltac:(discriminate)).
  unfold vfd_cmd_iter. rewrite Hfetch.
  rewrite (transact_never_valid link (Some p) m1 Hmax Hdead).
  set (sent := add_crc (next_cmd m1)).
  destruct (failed_attempts_fields (Z.to_nat MAX_RETRIES) (with_next_cmd m1 sent))
    as (_ & Fv & _ & Hk & _ & Hn & _ & Htk).
  set (mk := Nat.iter _ _ _) in *.
  assert (Hunk : unresponsive mk = false) by (rewrite Hk; machine_simpl; congruence).
  assert (Hcs : critical (next_cmd mk) = true) by (rewrite Hn; exact Hc).
  assert (Hak : count_alarms (trace mk) = count_alarms (trace m)).
  { rewrite Htk, count_alarms_app, count_alarms_attempts. machine_simpl. lia. }
  assert (Hwk : written_frames (trace mk)
                = written_frames (trace m)
                  ++ repeat (tx_bytes sent) (Z.to_nat MAX_RETRIES)).
  { rewrite Htk, written_frames_app, written_frames_attempts.
    machine_simpl. rewrite Ht. reflexivity. }
  eexists. split; [reflexivity|].
  split.
  { machine_simpl. rewrite written_frames_app, written_frames_escalate, Hwk.
    cbn. rewrite app_nil_r. reflexivity. }
  unfold escalate. rewrite Z.eqb_refl, Hunk. cbn [negb].
  machine_simpl. rewrite Hcs. machine_simpl.
  split; [rewrite !count_alarms_app, Hak; cbn; lia|].
  split; [reflexivity|].
  rewrite Fv. machine_simpl. exact Hv.
Qed.

End PollingMore.

Lemma first_iteration_poll_alarms_witness :
  exists m',
    @vfd_cmd_iter Bench.consts Bench.full_drive Bench.silent_link
                  (Bench.machine Bench.vfd_unknown_max [] 0) = Some m'
    /\ written_frames (trace m')
       = repeat (frame_with_crc [0x01; 0x03; 0x70; 0x0C; 0x00; 0x02]) 3
    /\ count_alarms (trace m') = 1%nat.
Proof.
  destruct (@first_iteration_poll_alarms Bench.consts Bench.full_drive Bench.silent_link
              (Bench.machine Bench.vfd_unknown_max [] 0)
              (fst (@fetch Bench.full_drive (Bench.machine Bench.vfd_unknown_max [] 0)))
              Bench.parse_any
              ltac:(cbn; lia) silent_link_never_valid
              (fun v c => conj eq_refl (conj eq_refl eq_refl))
              eq_refl eq_refl eq_refl eq_refl)
    as (_ & _ & m' & E & Hw & Ha & _).
  exists m'. split; [exact E|]. split; [exact Hw | exact Ha].
Defined.

(** ** What an iteration puts on the bus *)

Lemma written_frames_logs (logs : list Event) :
  forallb is_log logs = true -> written_frames logs = [].
Proof.
  induction logs as [|e logs IH]; [reflexivity|].
  cbn [forallb]. intros H. apply andb_prop in H. destruct H as [He Hl].
  destruct e; try discriminate. cbn. apply IH, Hl.
Qed.

Lemma count_writes_frames (t : list Event) :
  count_writes t = length (written_frames t).
Proof.
  unfold count_writes, written_frames.
  induction t as [|e t IH]; [reflexivity|].
  destruct e; cbn; rewrite <- ?IH; reflexivity.
Qed.

Section BusTraffic.
Context {consts : VFDConstants} {drive : VFDProtocol}.
Variable link : nat -> Z * list Z.

(** Whatever is fetched is what goes out: the fetched envelope with its
    checksum, between one and [MAX_RETRIES] times, and nothing else. *)
Lemma sent_iteration (m m1 : Machine) (parser : option response_parser) :
  0 < MAX_RETRIES ->
  fetch m = (m1, Some parser) ->
  exists m' k,
    vfd_cmd_iter link m = Some m'
    /\ (1 <= k)%nat /\ Z.of_nat k <= MAX_RETRIES
    /\ written_frames (trace m')
       = written_frames (trace m) ++ repeat (tx_bytes (add_crc (next_cmd m1))) k
    /\ pollidx m' = pollidx m1
    /\ vfd_cmd_queue m' = vfd_cmd_queue m1.
Proof.
  intros Hmax Hf.
  destruct (fetch_keeps m) as (_ & _ & _ & _ & _ & Ht1).
  rewrite Hf in Ht1. cbn [fst snd] in Ht1. specialize (Ht1 ltac:(discriminate)).
  destruct (vfd_cmd_iter_total link m) as [m' E]. exists m'.
  pose proof E as E0. unfold vfd_cmd_iter in E. rewrite Hf in E.
  assert (Hmax0 : 0 <= MAX_RETRIES) by lia.
  destruct (transact_next_cmd link parser m1 m' Hmax0 E) as (_ & Tp).
  destruct (transact_facts link parser m1 m' Hmax0 E) as (_ & _ & Tq & _).
  destruct (transact_outcome link parser m1 m' Hmax0 E) as (k & _ & Hend).
  set (c := add_crc (next_cmd m1)) in *.
  set (m0 := with_next_cmd m1 c) in *.
  destruct (failed_attempts_fields k m0) as (_ & _ & _ & _ & _ & Fn & _ & Ftr).
  set (mk := Nat.iter k after_failed_attempt m0) in *.
  assert (Hwk : written_frames (trace mk)
                = written_frames (trace m) ++ repeat (tx_bytes c) k).
  { rewrite Ftr, written_frames_app, written_frames_attempts.
    unfold m0. machine_simpl. rewrite Ht1. reflexivity. }
  destruct Hend as [(Hk & Hm') | (Hk & Hr & Hm')].
  - exists k. split; [exact E0|]. split; [lia|]. split; [lia|].
    split; [|split; assumption].
    rewrite Hm'. machine_simpl.
    rewrite written_frames_app, written_frames_escalate, Hwk. cbn.
    rewrite app_nil_r. reflexivity.
  - exists (S k). split; [exact E0|]. split; [lia|]. split; [lia|].
    split; [|split; assumption].
    assert (Hr' : response_at link mk 0 = true)
      by (unfold mk; rewrite response_at_iter, Nat.add_0_r; exact Hr).
    destruct (attempt_answered link parser (Z.of_nat k) mk Hr')
      as (_ & _ & _ & _ & _ & _ & _ & (logs & Hlt & Hlogs) & _).
    rewrite Hm'. machine_simpl. rewrite Hlt, !written_frames_app, Hwk, Fn.
    rewrite (written_frames_logs logs Hlogs). unfold m0 at 1. machine_simpl. cbn.
    rewrite !app_nil_r, repeat_cons, app_assoc. reflexivity.
Qed.

End BusTraffic.

Section PollCycle.
Context {consts : VFDConstants} {drive : VFDProtocol}.
Variable link : nat -> Z * list Z.

Lemma poll_status_none (m : Machine) :
  no_readers drive ->
  exists m2, poll_status m = (m2, None) /\ pollidx m2 = 1
             /\ quiet_step m m2 /\ vfd_cmd_queue m2 = vfd_cmd_queue m.
Proof.
  intros H. unfold poll_status.
  destruct (H (vfd m) (next_cmd m)) as (_ & _ & _ & Hs).
  destruct (get_status_ok (vfd m) (next_cmd m)) as [c p]. cbn [snd] in Hs. subst p.
  eexists. split; [reflexivity|]. unfold quiet_step. machine_simpl.
  repeat split; reflexivity.
Qed.

Lemma poll_direction_none (m : Machine) :
  no_readers drive ->
  exists m2, poll_direction m = (m2, None) /\ pollidx m2 = 1
             /\ quiet_step m m2 /\ vfd_cmd_queue m2 = vfd_cmd_queue m.
Proof.
  intros H. unfold poll_direction.
  destruct (H (vfd m) (next_cmd m)) as (_ & _ & Hd & _).
  destruct (get_current_direction (vfd m) (next_cmd m)) as [c p]. cbn [snd] in Hd. subst p.
  destruct (poll_status_none (with_next_cmd m c) H) as (m2 & E & Hp & Hq & Hqu).
  exists m2. split; [exact E|]. split; [exact Hp|]. split; [|exact Hqu].
  eapply quiet_step_trans; [|exact Hq]. unfold quiet_step. machine_simpl.
  repeat split; reflexivity.
Qed.

Lemma poll_rpm_none (m : Machine) :
  no_readers drive ->
  exists m2, poll_rpm m = (m2, None) /\ pollidx m2 = 1
             /\ quiet_step m m2 /\ vfd_cmd_queue m2 = vfd_cmd_queue m.
Proof.
  intros H. unfold poll_rpm.
  destruct (H (vfd m) (next_cmd m)) as (_ & Hr & _ & _).
  destruct (get_current_rpm (vfd m) (next_cmd m)) as [c p]. cbn [snd] in Hr. subst p.
  destruct (poll_direction_none (with_next_cmd m c) H) as (m2 & E & Hp & Hq & Hqu).
  exists m2. split; [exact E|]. split; [exact Hp|]. split; [|exact Hqu].
  eapply quiet_step_trans; [|exact Hq]. unfold quiet_step. machine_simpl.
  repeat split; reflexivity.
Qed.

Lemma poll_cycle_none (m : Machine) :
  no_readers drive ->
  1 <= pollidx m <= 3 ->
  exists m2, poll_cycle m = (m2, None) /\ pollidx m2 = 1
             /\ quiet_step m m2 /\ vfd_cmd_queue m2 = vfd_cmd_queue m.
Proof.
  intros H Hp. unfold poll_cycle.
  destruct (Z.eqb_spec (pollidx m) 1); [apply poll_rpm_none, H|].
  destruct (Z.eqb_spec (pollidx m) 2); [apply poll_direction_none, H|].
  destruct (Z.eqb_spec (pollidx m) 3); [apply poll_status_none, H|].
  lia.
Qed.

Lemma choose_request_none (m : Machine) :
  no_readers drive ->
  exists m1, choose_request m = (m1, None)
             /\ pollidx m1 = (if pollidx m =? 0 then 1 else pollidx m)
             /\ quiet_step m m1 /\ vfd_cmd_queue m1 = vfd_cmd_queue m.
Proof.
  intros H. unfold choose_request. machine_simpl.
  destruct (pollidx m =? 0).
  - eexists. split; [reflexivity|]. unfold quiet_step. machine_simpl.
    repeat split; reflexivity.
  - destruct (_max_rpm (vfd m) =? 0).
    + destruct (H (vfd m) (set_msg0 (next_cmd m) VFD_RS485_ADDR)) as (Hcap & _).
      destruct (get_max_rpm (vfd m) (set_msg0 (next_cmd m) VFD_RS485_ADDR)) as [c p].
      cbn [snd] in Hcap. subst p.
      eexists. split; [reflexivity|]. unfold quiet_step. machine_simpl.
      repeat split; reflexivity.
    + eexists. split; [reflexivity|]. unfold quiet_step. machine_simpl.
      repeat split; reflexivity.
Qed.

(** X22. A drive without requests is left alone. When the drive
    implements none of the four requests and nothing is queued, an
    iteration only sleeps for the poll interval: nothing is written to
    or read from the bus, nothing is logged, no alarm is raised, and the
    fault flag and the device object stay as they are. *)
Theorem idle_without_readers (m : Machine) :
  no_readers drive ->
  vfd_cmd_queue m = [] ->
  0 <= pollidx m <= 3 ->
  exists m',
    vfd_cmd_iter link m = Some m'
    /\ trace m' = trace m ++ [TaskDelay VFD_RS485_POLL_RATE]
    /\ pollidx m' = 1
    /\ vfd m' = vfd m /\ unresponsive m' = unresponsive m
    /\ uart_reads m' = uart_reads m /\ vfd_cmd_queue m' = [].
Proof.
  intros H Hq Hp. unfold vfd_cmd_iter, fetch.
  destruct (choose_request_none m H) as (m1 & E1 & Hp1 & Hq1 & Hqu1).
  rewrite E1. unfold xQueueReceive. rewrite Hqu1, Hq.
  assert (Hr : 1 <= pollidx m1 <= 3)
    by (rewrite Hp1; destruct (Z.eqb_spec (pollidx m) 0); lia).
  destruct (poll_cycle_none m1 H Hr) as (m2 & E2 & Hp2 & Hq2 & Hqu2).
  rewrite E2.
  destruct (quiet_step_trans _ _ _ Hq1 Hq2) as (Qu & Qv & Qr & Qt).
  eexists. split; [reflexivity|]. machine_simpl.
  rewrite Qt, Qv, Qu, Qr, Hqu2, Hqu1, Hq. repeat split; try reflexivity. exact Hp2.
Qed.

End PollCycle.

Lemma idle_without_readers_witness :
  exists m',
    @vfd_cmd_iter Bench.consts Bench.bare_drive Bench.silent_link
                  (Bench.machine Bench.vfd_unknown_max [] 0) = Some m'
    /\ trace m' = [TaskDelay VFD_RS485_POLL_RATE].
Proof.
  destruct (@idle_without_readers Bench.consts Bench.bare_drive Bench.silent_link
              (Bench.machine Bench.vfd_unknown_max [] 0)
              (fun v c => conj eq_refl (conj eq_refl (conj eq_refl eq_refl)))
              eq_refl ltac:(cbn; lia))
    as (m' & E & Ht & _).
  exists m'. split; [exact E | exact Ht].
Defined.

Section PollOrder.
Context {consts : VFDConstants} {drive : VFDProtocol}.
Variable link : nat -> Z * list Z.

Lemma poll_status_some (m : Machine) :
  (forall v c, snd (get_status_ok v c) <> None) ->
  exists m2 p, poll_status m = (m2, Some p) /\ pollidx m2 = 1.
Proof.
  intros H. unfold poll_status. specialize (H (vfd m) (next_cmd m)).
  destruct (get_status_ok (vfd m) (next_cmd m)) as [c [p|]]; [|contradiction].
  eexists _, p. split; reflexivity.
Qed.

Lemma poll_cycle_some (m : Machine) :
  (forall v c, snd (get_status_ok v c) <> None) ->
  1 <= pollidx m <= 3 ->
  exists m2 p, poll_cycle m = (m2, Some p) /\ 1 <= pollidx m2 <= 3.
Proof.
  intros H Hp.
  assert (Hs : forall m0, exists m2 p,
               poll_status m0 = (m2, Some p) /\ 1 <= pollidx m2 <= 3).
  { intros m0. destruct (poll_status_some m0 H) as (m2 & p & E & Hp2).
    exists m2, p. split; [exact E | lia]. }
  assert (Hd : forall m0, exists m2 p,
               poll_direction m0 = (m2, Some p) /\ 1 <= pollidx m2 <= 3).
  { intros m0. unfold poll_direction.
    destruct (get_current_direction (vfd m0) (next_cmd m0)) as [c [p|]]; [|apply Hs].
    eexists _, p. split; [reflexivity|]. machine_simpl. lia. }
  unfold poll_cycle.
  destruct (Z.eqb_spec (pollidx m) 1).
  { unfold poll_rpm.
    destruct (get_current_rpm (vfd m) (next_cmd m)) as [c [p|]]; [|apply Hd].
    eexists _, p. split; [reflexivity|]. machine_simpl. lia. }
  destruct (Z.eqb_spec (pollidx m) 2); [apply Hd|].
  destruct (Z.eqb_spec (pollidx m) 3); [apply Hs|]. lia.
Qed.

(** X23. Polling never stalls. For a drive that implements the status
    request, every iteration that finds the queue empty puts a request on
    the bus: readers that are not implemented are skipped within the same
    iteration instead of costing an idle one. *)
Theorem status_reader_keeps_polling (m : Machine) :
  0 < MAX_RETRIES ->
  (forall v c, snd (get_status_ok v c) <> None) ->
  vfd_cmd_queue m = [] ->
  0 <= pollidx m <= 3 ->
  exists m',
    vfd_cmd_iter link m = Some m'
    /\ (count_writes (trace m) < count_writes (trace m'))%nat
    /\ 1 <= pollidx m' <= 3
    /\ vfd_cmd_queue m' = [].
Proof.
  intros Hmax H Hq Hp.
  assert (Hf : exists m1 p, fetch m = (m1, Some (Some p))
                            /\ 1 <= pollidx m1 <= 3 /\ vfd_cmd_queue m1 = []).
  { destruct (fetch_static m) as (_ & _ & Kq).
    assert (Hqf : vfd_cmd_queue (fst (fetch m)) = [])
      by (destruct Kq as [Kq | [c Kq]]; congruence).
    revert Hqf. unfold fetch, choose_request. machine_simpl.
    assert (Hgo : forall m1, vfd_cmd_queue m1 = [] -> 1 <= pollidx m1 <= 3 ->
               exists m2 p,
                 (let '(m3, received) := xQueueReceive m1 in
                  if received then (m3, Some None)
                  else
                    let '(m4, parser) := poll_cycle m3 in
                    match parser with
                    | Some p => (m4, Some (Some p))
                    | None => (emit (TaskDelay VFD_RS485_POLL_RATE) m4, None)
                    end) = (m2, Some (Some p))
                 /\ 1 <= pollidx m2 <= 3).
    { intros m1 Hq1 Hp1. unfold xQueueReceive. rewrite Hq1.
      destruct (poll_cycle_some m1 H Hp1) as (m2 & p & E & Hp2).
      rewrite E. exists m2, p. split; [reflexivity | exact Hp2]. }
    destruct (Z.eqb_spec (pollidx m) 0) as [Hz|Hz].
    - machine_simpl.
      destruct (Hgo (with_next_cmd (with_pollidx
                       (with_next_cmd m (set_msg0 (next_cmd m) VFD_RS485_ADDR)) 1)
                       (set_critical (set_msg0 (next_cmd m) VFD_RS485_ADDR) true))
                    Hq ltac:(machine_simpl; lia)) as (m2 & p & E & Hp2).
      machine_simpl. rewrite E. cbn [fst]. intros Hqf.
      exists m2, p. split; [reflexivity|]. split; assumption.
    - destruct (_max_rpm (vfd m) =? 0).
      + destruct (get_max_rpm (vfd m) (set_msg0 (next_cmd m) VFD_RS485_ADDR))
          as [c [p|]]; machine_simpl.
        * cbn [fst]. intros Hqf. eexists _, p.
          split; [reflexivity|]. machine_simpl. split; [lia | exact Hqf].
        * destruct (Hgo (with_next_cmd
                           (with_next_cmd
                              (with_next_cmd m (set_msg0 (next_cmd m) VFD_RS485_ADDR)) c)
                           (set_critical c false))
                        Hq ltac:(machine_simpl; lia)) as (m2 & p & E & Hp2).
          machine_simpl. rewrite E. cbn [fst]. intros Hqf.
          exists m2, p. split; [reflexivity|]. split; assumption.
      + machine_simpl.
        destruct (Hgo (with_next_cmd
                         (with_next_cmd m (set_msg0 (next_cmd m) VFD_RS485_ADDR))
                         (set_critical (set_msg0 (next_cmd m) VFD_RS485_ADDR) false))
                      Hq ltac:(machine_simpl; lia)) as (m2 & p & E & Hp2).
        machine_simpl. rewrite E. cbn [fst]. intros Hqf.
        exists m2, p. split; [reflexivity|]. split; assumption. }
  destruct Hf as (m1 & p & Hf & Hp1 & Hq1).
  destruct (sent_iteration link m m1 (Some p) Hmax Hf)
    as (m' & k & E & Hk1 & Hk2 & Hw & Hpm & Hqm).
  exists m'. split; [exact E|].
  split; [rewrite !count_writes_frames, Hw, length_app, repeat_length; lia|].
  split; [rewrite Hpm; exact Hp1 | rewrite Hqm; exact Hq1].
Qed.

End PollOrder.

Lemma status_reader_keeps_polling_witness :
  exists m',
    @vfd_cmd_iter Bench.consts status_only_drive Bench.silent_link
                  (Bench.machine Bench.vfd0 [] 1) = Some m'
    /\ (0 < count_writes (trace m'))%nat
    /\ pollidx m' = 1.
Proof.
  destruct (@status_reader_keeps_polling Bench.consts status_only_drive Bench.silent_link
              (Bench.machine Bench.vfd0 [] 1) ltac:(cbn; lia)
              ltac:(intros v c; discriminate) eq_refl ltac:(cbn; lia))
    as (m' & E & Hw & _).
  exists m'. split; [exact E|]. split; [exact Hw|].
  vm_compute in E. injection E as <-. reflexivity.
Defined.

Section RoundRobin.
Context {consts : VFDConstants} {drive : VFDProtocol}.
Variable link : nat -> Z * list Z.

(** With all three polls implemented, the fetch of an idle iteration
    takes the request of the reader the poll index points at and moves
    the index on. *)
Lemma fetch_round_robin (m : Machine) :
  all_polls drive ->
  vfd_cmd_queue m = [] ->
  _max_rpm (vfd m) <> 0 ->
  1 <= pollidx m <= 3 ->
  let c0 := set_critical (set_msg0 (next_cmd m) VFD_RS485_ADDR) false in
  exists m1 p,
    fetch m = (m1, Some (Some p))
    /\ next_cmd m1 = fst (reader_at (pollidx m) (vfd m) c0)
    /\ snd (reader_at (pollidx m) (vfd m) c0) = Some p
    /\ pollidx m1 = pollidx m mod 3 + 1.
Proof.
  intros H Hq Hrpm Hp c0. unfold fetch, choose_request. machine_simpl.
  destruct (Z.eqb_spec (pollidx m) 0) as [|_]; [lia|].
  destruct (Z.eqb_spec (_max_rpm (vfd m)) 0) as [|_]; [contradiction|].
  machine_simpl. unfold xQueueReceive. machine_simpl. rewrite Hq.
  fold c0. unfold poll_cycle, reader_at. machine_simpl.
  destruct (H (vfd m) c0) as (Hr & Hd & Hs).
  destruct (Z.eqb_spec (pollidx m) 1) as [E1|N1].
  { unfold poll_rpm. machine_simpl.
    destruct (get_current_rpm (vfd m) c0) as [c [p|]]; [|contradiction].
    eexists _, p. split; [reflexivity|]. machine_simpl. rewrite E1.
    repeat split; reflexivity. }
  destruct (Z.eqb_spec (pollidx m) 2) as [E2|N2].
  { unfold poll_direction. machine_simpl.
    destruct (get_current_direction (vfd m) c0) as [c [p|]]; [|contradiction].
    eexists _, p. split; [reflexivity|]. machine_simpl. rewrite E2.
    repeat split; reflexivity. }
  destruct (Z.eqb_spec (pollidx m) 3) as [E3|N3]; [|lia].
  unfold poll_status. machine_simpl.
  destruct (get_status_ok (vfd m) c0) as [c [p|]]; [|contradiction].
  eexists _, p. split; [reflexivity|]. machine_simpl. rewrite E3.
  repeat split; reflexivity.
Qed.

(** X24. Round-robin polling. With the maximum rpm known, nothing queued
    and a drive implementing all three polls, the iteration at poll index
    1, 2 or 3 sends the rpm, the direction or the status request
    respectively (addressed to the drive, not critical, checksum added),
    between one and [MAX_RETRIES] times and nothing else, and leaves the
    poll index at the next of 1, 2, 3, 1, ... *)
Theorem poll_round_robin (m : Machine) :
  0 < MAX_RETRIES ->
  all_polls drive ->
  vfd_cmd_queue m = [] ->
  _max_rpm (vfd m) <> 0 ->
  1 <= pollidx m <= 3 ->
  let c0 := set_critical (set_msg0 (next_cmd m) VFD_RS485_ADDR) false in
  let request := fst (reader_at (pollidx m) (vfd m) c0) in
  exists m' k,
    vfd_cmd_iter link m = Some m'
    /\ pollidx m' = pollidx m mod 3 + 1
    /\ (1 <= k)%nat /\ Z.of_nat k <= MAX_RETRIES
    /\ written_frames (trace m')
       = written_frames (trace m) ++ repeat (tx_bytes (add_crc request)) k
    /\ vfd_cmd_queue m' = [].
Proof.
  intros Hmax H Hq Hrpm Hp c0 request.
  destruct (fetch_round_robin m H Hq Hrpm Hp) as (m1 & p & Hf & Hn & _ & Hp1).
  destruct (fetch_static m) as (_ & _ & Kq).
  rewrite Hf in Kq. cbn [fst] in Kq.
  assert (Hq1 : vfd_cmd_queue m1 = [])
    by (destruct Kq as [Kq | [c Kq]]; congruence).
  destruct (sent_iteration link m m1 (Some p) Hmax Hf)
    as (m' & k & E & Hk1 & Hk2 & Hw & Hpm & Hqm).
  exists m', k. split; [exact E|].
  split; [rewrite Hpm; exact Hp1|].
  split; [exact Hk1|]. split; [exact Hk2|].
  split; [rewrite Hw, Hn; reflexivity | rewrite Hqm; exact Hq1].
Qed.

End RoundRobin.

Lemma poll_round_robin_witness :
  exists m' k,
    @vfd_cmd_iter Bench.consts Bench.full_drive Bench.exception_link
                  (Bench.machine Bench.vfd0 [] 3) = Some m'
    /\ pollidx m' = 1
    /\ written_frames (trace m')
       = repeat (frame_with_crc [0x01; 0x03; 0x30; 0x01; 0x00; 0x01]) k.
Proof.
  destruct (@poll_round_robin Bench.consts Bench.full_drive Bench.exception_link
              (Bench.machine Bench.vfd0 [] 3) ltac:(cbn; lia)
              ltac:(intros v c; repeat split; discriminate)
              eq_refl ltac:(cbn; lia) ltac:(cbn; lia))
    as (m' & k & E & Hp & _ & _ & Hw & _).
  exists m', k. split; [exact E|]. split; [exact Hp | exact Hw].
Defined.
